(** * EchoVerse: a verification model of the rewrite / synthesis / persist pipeline

    The development embeds the three source files of the repository:

    - [core_echoverse.py]: output store helpers, the Ollama rewrite client and
      the in-memory gTTS synthesizer (module [Core]);
    - [app.py]: the Streamlit front-end, i.e. the "Generate Audiobook" handler
      and the "View Past Narrations" expander (module [App]);
    - [for_terminal.py]: the terminal front-end with its own copies of the
      helpers, the Piper synthesizer and [main] (module [Terminal]).

    Python [str] values are sequences of Unicode code points, the file system
    is a finite map from path strings to file contents, and every external
    collaborator (clock, HTTP endpoint, synthesis backends, external programs,
    standard input) is an explicit oracle of the environment record.
    Side effects are threaded through a state-and-exception monad whose state
    also keeps an ordered log of the externally visible events. *)

From stdpp Require Import gmap strings list fin_maps.
From Stdlib Require Import ZArith NArith QArith DecimalString.
From Stdlib Require Import Sorting.Sorted Sorting.Permutation.

Local Open Scope N_scope.
Local Open Scope list_scope.

(** ** Python strings *)

(** A Python [str] is a sequence of code points. *)
Abbreviation pystr := (list N).

(** String literals of the source are ASCII; [lit] gives their code points. *)
Definition lit (s : string) : pystr :=
  map Ascii.N_of_ascii (String.list_ascii_of_string s).

Abbreviation bytes := (list Byte.byte).

Definition ch_hyphen : N := 45.
Definition ch_underscore : N := 95.
Definition ch_slash : N := 47.

(** [str.isspace] for one code point: the ASCII table of CPython
    ([_Py_ascii_whitespace]) and the Unicode white-space property
    ([_PyUnicode_IsWhitespace]). *)
Definition isspace (c : N) : bool :=
  ((9 <=? c) && (c <=? 13)) || ((28 <=? c) && (c <=? 32))
  || (c =? 133) || (c =? 160) || (c =? 5760)
  || ((8192 <=? c) && (c <=? 8202))
  || (c =? 8232) || (c =? 8233) || (c =? 8239) || (c =? 8287) || (c =? 12288).

Definition ascii_isalnum (c : N) : bool :=
  ((48 <=? c) && (c <=? 57)) || ((65 <=? c) && (c <=? 90))
  || ((97 <=? c) && (c <=? 122)).

(** ** JSON values, as produced by [json.loads] / [r.json()] *)
#[warnings="-register-all"]
Inductive json : Type :=
| JNull
| JBool (b : bool)
| JInt (z : Z)
| JFloat (q : Q)
| JStr (s : pystr)
| JArr (l : list json)
| JObj (fields : list (pystr * json)).

(** ** Library functions taken as parameters

    The Unicode character database beyond ASCII, [str.lower], [int()], the
    [json] module and the UTF-8 codec are not part of the repository. *)
Record PyLib := {
  uni_isalnum : N -> bool;          (* [str.isalnum] on code points >= 128 *)
  str_lower : pystr -> pystr;       (* [str.lower] *)
  py_int : pystr -> option Z;       (* [int(s)]; [None] is [ValueError] *)
  json_dumps : json -> pystr;       (* [json.dumps(v, indent=2)] *)
  json_loads : pystr -> option json; (* [json.loads(s)]; [None] is an error *)
  utf8_decode : bytes -> option pystr (* [b.decode("utf-8")] *)
}.

(** ** String primitives *)

Fixpoint lstrip_by (p : N -> bool) (s : pystr) : pystr :=
  match s with
  | [] => []
  | c :: r => if p c then lstrip_by p r else s
  end.

Definition rstrip_by (p : N -> bool) (s : pystr) : pystr :=
  rev (lstrip_by p (rev s)).

Definition strip_by (p : N -> bool) (s : pystr) : pystr :=
  rstrip_by p (lstrip_by p s).

(** [s.strip()] *)
Definition strip (s : pystr) : pystr := strip_by isspace s.

(** A text that is empty or consists of white space only. *)
Definition blank (s : pystr) : Prop := forallb isspace s = true.

(** [s.strip(chars)] and [s.rstrip(chars)] for a one-character [chars] *)
Definition strip_char (c : N) (s : pystr) : pystr := strip_by (N.eqb c) s.
Definition rstrip_char (c : N) (s : pystr) : pystr := rstrip_by (N.eqb c) s.

(** [sep.join(parts)] *)
Fixpoint join (sep : pystr) (parts : list pystr) : pystr :=
  match parts with
  | [] => []
  | [p] => p
  | p :: rest => p ++ sep ++ join sep rest
  end.

(** [s.split(c)] for a one-character separator. *)
Fixpoint split_char (c : N) (s : pystr) : list pystr :=
  match s with
  | [] => [[]]
  | x :: r =>
      if x =? c then [] :: split_char c r
      else match split_char c r with
           | [] => [[x]]
           | p :: ps => (x :: p) :: ps
           end
  end.

Fixpoint is_prefix (p s : pystr) : bool :=
  match p, s with
  | [], _ => true
  | _ :: _, [] => false
  | a :: p', b :: s' => (a =? b) && is_prefix p' s'
  end.

(** [s.startswith(p)], [s.endswith(p)] and [p in s] *)
Definition startswith (s p : pystr) : bool := is_prefix p s.
Definition endswith (s p : pystr) : bool := is_prefix (rev p) (rev s).

Fixpoint contains (s p : pystr) : bool :=
  is_prefix p s ||
  match s with
  | [] => false
  | _ :: r => contains r p
  end.

(** Comparison of two [str] values: lexicographic on code points. *)
Fixpoint str_compare (a b : pystr) : comparison :=
  match a, b with
  | [], [] => Eq
  | [], _ :: _ => Lt
  | _ :: _, [] => Gt
  | x :: a', y :: b' =>
      match x ?= y with
      | Eq => str_compare a' b'
      | c => c
      end
  end.

Definition str_ltb (a b : pystr) : bool :=
  match str_compare a b with Lt => true | _ => false end.

(** [str(n)] for an [int] *)
Definition str_of_int (z : Z) : pystr := lit (NilZero.string_of_int (Z.to_int z)).

Section WithLib.
Variable L : PyLib.

(** [c.isalnum()] *)
Definition isalnum (c : N) : bool :=
  if c <? 128 then ascii_isalnum c else uni_isalnum L c.

(** [c.isalnum() or c in ("-", "_")] *)
Definition keep_char (c : N) : bool :=
  isalnum c || (c =? ch_hyphen) || (c =? ch_underscore).

(** [app._safe_name]; the same expression is inlined in [save_text] of both
    back-ends and in [for_terminal.main]:
    ["".join(c for c in s if c.isalnum() or c in ("-","_")).strip("_")] *)
Definition _safe_name (s : pystr) : pystr :=
  strip_char ch_underscore (List.filter keep_char s).

End WithLib.

(** ** Clock and time stamps *)

Record datetime := {
  dt_year : N; dt_month : N; dt_day : N;
  dt_hour : N; dt_minute : N; dt_second : N
}.

Definition digit (n : N) : N := 48 + n mod 10.
Definition fmt2 (n : N) : pystr := [digit (n / 10); digit n].
Definition fmt4 (n : N) : pystr := fmt2 (n / 100) ++ fmt2 (n mod 100).

(** [d.strftime("%Y%m%d-%H%M%S")], for the four-digit years of a running
    clock (see [dt_wf]). *)
Definition strftime (d : datetime) : pystr :=
  fmt4 (dt_year d) ++ fmt2 (dt_month d) ++ fmt2 (dt_day d) ++ [ch_hyphen]
  ++ fmt2 (dt_hour d) ++ fmt2 (dt_minute d) ++ fmt2 (dt_second d).

(** Calendar order of two clock readings. *)
Definition dt_key (d : datetime) : N :=
  ((((dt_year d * 100 + dt_month d) * 100 + dt_day d) * 100 + dt_hour d) * 100
   + dt_minute d) * 100 + dt_second d.

(** The readings whose fields fill their columns: a four-digit year and
    two-digit month, day, hour, minute and second. *)
Definition dt_wf (d : datetime) : Prop :=
  1000 <= dt_year d < 10000 /\ dt_month d < 100 /\ dt_day d < 100 /\
  dt_hour d < 100 /\ dt_minute d < 100 /\ dt_second d < 100.

(** ** Paths and the file system *)

(** A file holds bytes: [FText s] is the UTF-8 encoding of [s] (what
    [write_text(s, encoding="utf-8")] leaves), [FBytes b] is what
    [write_bytes(b)] or an external program leaves. *)
Inductive FileData :=
| FText (s : pystr)
| FBytes (b : bytes).

(** [Path(dir) / name] for a plain file name. *)
Record Path := { p_dir : pystr; p_name : pystr }.

(** [str(p)] *)
Definition path_str (p : Path) : pystr := p_dir p ++ [ch_slash] ++ p_name p.

Fixpoint rfind_char (c : N) (s : pystr) : option nat :=
  match s with
  | [] => None
  | x :: r =>
      match rfind_char c r with
      | Some i => Some (S i)
      | None => if x =? c then Some O else None
      end
  end.

(** [p.stem]: the name without its last suffix. *)
Definition path_stem (p : Path) : pystr :=
  let name := p_name p in
  match rfind_char 46 name with
  | Some i =>
      if ((0 <? i)%nat && (i <? length name - 1)%nat)%bool then take i name else name
  | None => name
  end.

(** [p.parent / (p.stem + ext)] *)
Definition path_sibling (p : Path) (ext : pystr) : Path :=
  {| p_dir := p_dir p; p_name := path_stem p ++ ext |}.

(** The name of [key] below directory [dir], when [key] is a direct child. *)
Definition child_name (dir key : pystr) : option pystr :=
  if is_prefix (dir ++ [ch_slash]) key then
    let n := drop (length dir + 1) key in
    if existsb (N.eqb ch_slash) n then None else Some n
  else None.

(** [fnmatch(name, "speech_*.mp3")] *)
Definition match_speech_mp3 (name : pystr) : bool :=
  startswith name (lit "speech_") && endswith (drop 7 name) (lit ".mp3").

(** Order of two [Path] values: by directory, then by name. *)
Definition path_ltb (a b : Path) : bool :=
  match str_compare (p_dir a) (p_dir b) with
  | Lt => true
  | Eq => str_ltb (p_name a) (p_name b)
  | Gt => false
  end.

(** [sorted(paths, reverse=True)]: a stable insertion sort into descending
    order. *)
Fixpoint insert_desc (x : Path) (l : list Path) : list Path :=
  match l with
  | [] => [x]
  | y :: r => if path_ltb x y then y :: insert_desc x r else x :: l
  end.

Definition sorted_reverse (l : list Path) : list Path :=
  foldr insert_desc [] l.

(** "Not smaller than" in the order of strings. *)
Definition str_ge (a b : pystr) : Prop := str_ltb a b = false.

(** Paths listed in descending order of their names. *)
Definition names_desc (l : list Path) : Prop :=
  StronglySorted (fun a b => str_ge (p_name a) (p_name b)) l.

(** [d.get(k)] on the fields of a JSON object *)
Fixpoint dict_get (k : pystr) (fields : list (pystr * json)) : option json :=
  match fields with
  | [] => None
  | (k', v) :: r => if bool_decide (k = k') then Some v else dict_get k r
  end.

(** ** Exceptions, events and the environment *)

Inductive Exn :=
| RuntimeError (msg : pystr)
| PyError (cls msg : pystr).   (* any other subclass of [Exception] *)

(** [str(e)] *)
Definition exn_str (e : Exn) : pystr :=
  match e with
  | RuntimeError msg => msg
  | PyError _ msg => msg
  end.

Inductive Event :=
| EvRewriteCall (text tone model : pystr)   (* rewrite stage entered *)
| EvHttpGet (url : pystr)
| EvHttpPost (url : pystr)
| EvSynthCall (text : pystr)                (* synthesis stage entered *)
| EvRun (program : pystr)                   (* external program started *)
| EvWrite (path : pystr)
| EvUnlink (path : pystr)
| EvStdout (msg : pystr)
| EvStderr (msg : pystr)
| EvWarning (msg : pystr)                   (* [st.warning] *)
| EvError (msg : pystr)                     (* [st.error] *)
| EvSuccess (msg : pystr).                  (* [st.success] *)

(** The stage entries and file writes of a log, in order. *)
Definition stage_trace (log : list Event) : list Event :=
  List.filter (fun ev => match ev with
                         | EvRewriteCall _ _ _ | EvSynthCall _ | EvWrite _ => true
                         | _ => false
                         end) log.

Inductive HttpOutcome (B : Type) :=
| NetFail (cause : pystr)                               (* [requests.RequestException] *)
| HttpReply (status : Z) (text : pystr) (body : option B). (* [body = None]: [r.json()] raises *)
Arguments NetFail {B} cause.
Arguments HttpReply {B} status text body.

(** The reply of [/api/tags]: the value under ["models"], each entry with the
    value under ["name"]. *)
Record ModelEntry := { me_name : option pystr }.
Record TagsData := { td_models : option (list ModelEntry) }.

(** The reply of [/api/generate]: the value under ["response"] and the text
    of [json.dumps(data)]. *)
Record GenData := { gd_response : option pystr; gd_dump : pystr }.

Record GenRequest := {
  gr_url : pystr; gr_model : pystr; gr_tone : pystr; gr_text : pystr;
  gr_temperature : Q; gr_num_predict : Z
}.

(** A synthesis or conversion backend either delivers audio bytes or raises,
    possibly after it has written part of its output. *)
Inductive SynthOutcome :=
| SynthOk (audio : bytes)
| SynthFail (e : Exn) (partial : option bytes).

Record ProcResult := {
  pr_rc : Z; pr_stdout : pystr; pr_stderr : pystr;
  pr_output : option bytes   (* what the program left at its output path *)
}.

Record Env := {
  clock : nat -> datetime;                       (* successive [datetime.now()] *)
  http_get_tags : pystr -> HttpOutcome TagsData;
  http_post_generate : GenRequest -> HttpOutcome GenData;
  _HAS_GTTS : bool;
  _HAS_PYDUB : bool;
  gtts : pystr -> pystr -> pystr -> bool -> SynthOutcome; (* text lang tld slow *)
  which : pystr -> bool;                         (* [shutil.which(p) is not None] *)
  run_piper : pystr -> pystr -> ProcResult;      (* model path, text on stdin *)
  run_ffmpeg : option FileData -> ProcResult;    (* the WAV file it is given *)
  pydub_to_mp3 : option FileData -> SynthOutcome
}.

(** [st.session_state] of the browser front-end. *)
Record Session := {
  ss_rewritten : pystr;
  ss_audio_bytes : bytes;
  ss_audio_mime : pystr;
  ss_last_meta : json
}.

Record World := {
  w_fs : gmap pystr FileData;
  w_tick : nat;               (* number of clock readings so far *)
  w_stdin : list pystr;       (* pending lines of standard input *)
  w_session : Session;
  w_log : list Event          (* oldest event first *)
}.

Definition with_fs (w : World) (fs : gmap pystr FileData) : World :=
  {| w_fs := fs; w_tick := w_tick w; w_stdin := w_stdin w;
     w_session := w_session w; w_log := w_log w |}.
Definition with_tick (w : World) (t : nat) : World :=
  {| w_fs := w_fs w; w_tick := t; w_stdin := w_stdin w;
     w_session := w_session w; w_log := w_log w |}.
Definition with_stdin (w : World) (i : list pystr) : World :=
  {| w_fs := w_fs w; w_tick := w_tick w; w_stdin := i;
     w_session := w_session w; w_log := w_log w |}.
Definition with_session (w : World) (s : Session) : World :=
  {| w_fs := w_fs w; w_tick := w_tick w; w_stdin := w_stdin w;
     w_session := s; w_log := w_log w |}.
Definition with_log (w : World) (l : list Event) : World :=
  {| w_fs := w_fs w; w_tick := w_tick w; w_stdin := w_stdin w;
     w_session := w_session w; w_log := l |}.

(** The world with more events at the end of its log. *)
Definition logged (w : World) (evs : list Event) : World :=
  with_log w (w_log w ++ evs).

(** ** The monad of the pipeline: state, exceptions and [sys.exit] *)

Inductive Res (A : Type) :=
| Ret (a : A)
| Raise (e : Exn)
| Exit (code : Z).     (* [SystemExit]: not caught by [except Exception] *)
Arguments Ret {A} a.
Arguments Raise {A} e.
Arguments Exit {A} code.

Definition M (A : Type) : Type := World -> Res A * World.

Definition ret {A} (a : A) : M A := fun w => (Ret a, w).

Definition bind {A B} (m : M A) (k : A -> M B) : M B :=
  fun w =>
    match m w with
    | (Ret a, w') => k a w'
    | (Raise e, w') => (Raise e, w')
    | (Exit c, w') => (Exit c, w')
    end.

Notation "'let*' x ':=' c1 'in' c2" := (bind c1 (fun x => c2))
  (at level 10, x pattern, c1 at level 100, c2 at level 200).
Notation "c1 >> c2" := (bind c1 (fun _ => c2))
  (at level 100, c2 at level 200, right associativity).

Definition raise {A} (e : Exn) : M A := fun w => (Raise e, w).
Definition sys_exit {A} (code : Z) : M A := fun w => (Exit code, w).

(** [try: m  except Exception as e: h e] *)
Definition try_except {A} (m : M A) (h : Exn -> M A) : M A :=
  fun w =>
    match m w with
    | (Raise e, w') => h e w'
    | r => r
    end.

Definition emit (ev : Event) : M unit :=
  fun w => (Ret tt, logged w [ev]).

Definition get_fs : M (gmap pystr FileData) := fun w => (Ret (w_fs w), w).

Definition get_session : M Session := fun w => (Ret (w_session w), w).
Definition put_session (s : Session) : M unit :=
  fun w => (Ret tt, with_session w s).

Definition write_file (key : pystr) (d : FileData) : M unit :=
  fun w => (Ret tt, logged (with_fs w (<[key := d]> (w_fs w))) [EvWrite key]).

(** [p.exists()] *)
Definition file_exists (key : pystr) : M bool :=
  fun w => (Ret (bool_decide (is_Some (w_fs w !! key))), w).

(** [p.read_bytes()] *)
Definition read_bytes (key : pystr) : M FileData :=
  fun w =>
    match w_fs w !! key with
    | Some d => (Ret d, w)
    | None => (Raise (PyError (lit "FileNotFoundError") key), w)
    end.

(** [p.unlink(missing_ok=True)] *)
Definition unlink_missing_ok (key : pystr) : M unit :=
  fun w => (Ret tt, logged (with_fs w (delete key (w_fs w))) [EvUnlink key]).

(** [print(msg)] and [print(msg, file=sys.stderr)] *)
Definition print (msg : pystr) : M unit := emit (EvStdout msg).
Definition eprint (msg : pystr) : M unit := emit (EvStderr msg).

(** [sys.stdin.readline()]: the next line, or the empty string at end of
    input. *)
Definition readline : M pystr :=
  fun w =>
    match w_stdin w with
    | [] => (Ret [], w)
    | l :: rest => (Ret l, with_stdin w rest)
    end.

Fixpoint mapM {A B} (f : A -> M B) (l : list A) : M (list B) :=
  match l with
  | [] => ret []
  | x :: r => let* y := f x in let* ys := mapM f r in ret (y :: ys)
  end.

Definition nl : pystr := [10].

(** A computation that calls [sys.exit] with a status among [codes] only. *)
Definition exits_in {A} (codes : list Z) (m : M A) : Prop :=
  forall w c w', m w = (Exit c, w') -> c ∈ codes.

(** A computation that touches no file outside the paths [keys]. *)
Definition fs_frame {A} (keys : list pystr) (m : M A) : Prop :=
  forall w k, k ∉ keys -> w_fs (snd (m w)) !! k = w_fs w !! k.

(** A computation that leaves the file system as it found it. *)
Definition fs_pres {A} (m : M A) : Prop :=
  forall w, w_fs (snd (m w)) = w_fs w.


Definition is_nil {A} (l : list A) : bool :=
  match l with [] => true | _ => false end.

(** The three file names of the persisted layout:
    [f"rewritten_{safe_tone}_{ts}.txt"], [f"{prefix}_{safe_tone}_{ts}.mp3"] and
    [f"meta_{tone_safe}_{ts}.json"]. *)
Definition rewritten_name (safe_tone ts : pystr) : pystr :=
  lit "rewritten_" ++ safe_tone ++ lit "_" ++ ts ++ lit ".txt".
Definition audio_name (prefix safe_tone ts : pystr) : pystr :=
  prefix ++ lit "_" ++ safe_tone ++ lit "_" ++ ts ++ lit ".mp3".
Definition meta_name (safe_tone ts : pystr) : pystr :=
  lit "meta_" ++ safe_tone ++ lit "_" ++ ts ++ lit ".json".

(** [ensure_outputs_dir() / name] *)
Definition out_file (name : pystr) : Path :=
  {| p_dir := lit "outputs"; p_name := name |}.

(** ** Code shared verbatim by [core_echoverse.py] and [for_terminal.py] *)

Section Shared.
Variable L : PyLib.
Variable E : Env.

(** [datetime.datetime.now()] *)
Definition now : M datetime :=
  fun w => (Ret (clock E (w_tick w)), with_tick w (S (w_tick w))).

(** [Path(key).read_text(encoding="utf-8")] *)
Definition read_text (key : pystr) : M pystr :=
  fun w =>
    match w_fs w !! key with
    | None => (Raise (PyError (lit "FileNotFoundError") key), w)
    | Some (FText s) => (Ret s, w)
    | Some (FBytes b) =>
        match utf8_decode L b with
        | Some s => (Ret s, w)
        | None => (Raise (PyError (lit "UnicodeDecodeError") key), w)
        end
    end.

(** [ensure_outputs_dir]: directories are not tracked, [mkdir(parents=True,
    exist_ok=True)] has no visible effect. *)
Definition ensure_outputs_dir : M pystr := ret (lit "outputs").

Definition save_text (text tone : pystr) : M Path :=
  let* d := now in
  let ts := strftime d in
  let* out_dir := ensure_outputs_dir in
  let safe_tone := _safe_name L tone in
  let path := {| p_dir := out_dir; p_name := rewritten_name safe_tone ts |} in
  write_file (path_str path) (FText text) >>
  ret path.

(** [f"{base_url.rstrip('/')}/api/tags"] and
    [f"{base_url.rstrip('/')}/api/generate"] *)
Definition tags_url (base_url : pystr) : pystr :=
  rstrip_char ch_slash base_url ++ lit "/api/tags".
Definition generate_url (base_url : pystr) : pystr :=
  rstrip_char ch_slash base_url ++ lit "/api/generate".

(** What the posted payload is built from: model, prompt (tone and text),
    temperature and [num_predict]. *)
Definition generate_request (text tone model base_url : pystr)
    (temperature : Q) (max_tokens : Z) : GenRequest :=
  {| gr_url := generate_url base_url; gr_model := model; gr_tone := tone;
     gr_text := text; gr_temperature := temperature; gr_num_predict := max_tokens |}.

(** [f"Failed to reach Ollama at {url}. Error: {e}"] *)
Definition failed_to_reach_msg (base_url cause : pystr) : pystr :=
  lit "Failed to reach Ollama at " ++ generate_url base_url ++ lit ". Error: " ++ cause.

(** The body of [rewrite_with_ollama], identical in both files up to the
    [ensure_model_present] it calls. *)
Definition rewrite_with (ensure : pystr -> pystr -> M unit)
    (text tone model base_url : pystr) (temperature : Q) (max_tokens : Z) : M pystr :=
  emit (EvRewriteCall text tone model) >>
  ensure model base_url >>
  let url := generate_url base_url in
  let payload := generate_request text tone model base_url temperature max_tokens in
  emit (EvHttpPost url) >>
  match http_post_generate E payload with
  | NetFail cause =>
      raise (RuntimeError (failed_to_reach_msg base_url cause))
  | HttpReply status text' body =>
      if negb (status =? 200)%Z then
        if ((status =? 404)%Z && contains (str_lower L text') (lit "not found"))%bool then
          raise (RuntimeError
                   (lit "Ollama says the model '" ++ model ++ lit "' is not found." ++ nl
                    ++ lit "Run:  ollama pull " ++ model ++ nl
                    ++ lit "Raw response: " ++ text'))
        else
          raise (RuntimeError (lit "Ollama returned HTTP " ++ str_of_int status
                               ++ lit ": " ++ text'))
      else
        match body with
        | None => raise (PyError (lit "JSONDecodeError") text')
        | Some data =>
            match gd_response data with
            | None =>
                raise (RuntimeError (lit "Unexpected Ollama response: "
                                     ++ take 500 (gd_dump data)))
            | Some r => ret (strip r)
            end
        end
  end.

(** [', '.join(models) if models else '(none detected)'] *)
Definition installed_text (models : list pystr) : pystr :=
  if is_nil models then lit "(none detected)" else join (lit ", ") models.

End Shared.

(** ** [core_echoverse.py] *)

Module Core.
Section Core.
Variable L : PyLib.
Variable E : Env.

Definition ensure_outputs_dir : M pystr := ensure_outputs_dir.
Definition save_text : pystr -> pystr -> M Path := save_text L E.

(** [[m.get("name") for m in data.get("models", []) if m.get("name")]] *)
Definition model_names (data : TagsData) : list pystr :=
  omap (fun m => match me_name m with
                 | Some n => if is_nil n then None else Some n
                 | None => None
                 end)
       (default [] (td_models data)).

Definition _ollama_models (base_url : pystr) : M (list pystr) :=
  let url := tags_url base_url in
  emit (EvHttpGet url) >>
  match http_get_tags E url with
  | NetFail _ => ret []
  | HttpReply status _ body =>
      if negb (status =? 200)%Z then ret []
      else match body with
           | None => ret []    (* [JSONDecodeError] is a [RequestException] *)
           | Some data => ret (model_names data)
           end
  end.

Definition not_found_msg (model base_url : pystr) (models : list pystr) : pystr :=
  lit "Ollama model '" ++ model ++ lit "' not found at " ++ base_url ++ lit "." ++ nl
  ++ lit "To fix:" ++ nl
  ++ lit "  1) Ensure Ollama is running." ++ nl
  ++ lit "  2) Pull the model:" ++ nl
  ++ lit "     ollama pull " ++ model ++ nl
  ++ lit "Installed models: " ++ installed_text models.

Definition ensure_model_present (model base_url : pystr) : M unit :=
  let* models := _ollama_models base_url in
  if negb (bool_decide (model ∈ models)) then
    raise (RuntimeError (not_found_msg model base_url models))
  else ret tt.

Definition rewrite_with_ollama :
    pystr -> pystr -> pystr -> pystr -> Q -> Z -> M pystr :=
  rewrite_with L E ensure_model_present.

Definition tts_with_gtts_to_bytes (text lang tld : pystr) (slow : bool) : M bytes :=
  emit (EvSynthCall text) >>
  if negb (_HAS_GTTS E) then
    raise (RuntimeError (lit "gTTS not installed. Install with: pip install gTTS"))
  else
    match gtts E text lang tld slow with
    | SynthOk audio => ret audio
    | SynthFail e _ => raise e      (* the partial [BytesIO] buffer is dropped *)
    end.

End Core.
End Core.

(** ** [app.py]: the browser front-end *)

Module App.

Record VoicePreset := { vp_lang : pystr; vp_tld : pystr; vp_slow : bool }.

Definition VOICE_PRESETS : list (pystr * VoicePreset) :=
  [ (lit "Kate (UK)",   {| vp_lang := lit "en"; vp_tld := lit "co.uk"; vp_slow := false |});
    (lit "Eric (US)",   {| vp_lang := lit "en"; vp_tld := lit "com";   vp_slow := false |});
    (lit "Aditi (EN)",  {| vp_lang := lit "en"; vp_tld := lit "co.in"; vp_slow := false |});
    (lit "Aditi (HI)",  {| vp_lang := lit "hi"; vp_tld := lit "co.in"; vp_slow := false |});
    (lit "Sai (TE)",    {| vp_lang := lit "te"; vp_tld := lit "co.in"; vp_slow := false |});
    (lit "Soft (slow)", {| vp_lang := lit "en"; vp_tld := lit "com";   vp_slow := true |}) ].

Fixpoint preset_get (k : pystr) (d : list (pystr * VoicePreset)) : option VoicePreset :=
  match d with
  | [] => None
  | (k', v) :: r => if bool_decide (k = k') then Some v else preset_get k r
  end.

(** The widget values of one script run. *)
Record Inputs := {
  in_ollama_url : pystr;
  in_model : pystr;
  in_temperature : Q;
  in_max_tokens : Z;
  in_text : pystr;          (* pasted or uploaded text *)
  in_voice_name : pystr;
  in_tone : pystr;
  in_gen : bool             (* the "Generate Audiobook" button *)
}.

Definition initial_session : Session :=
  {| ss_rewritten := []; ss_audio_bytes := []; ss_audio_mime := lit "audio/mp3";
     ss_last_meta := JObj [] |}.

Definition warning_msg : pystr :=
  lit "Please provide some input text (upload a .txt or paste text).".
Definition success_msg : pystr := lit "Audiobook generated successfully.".

(** One listed narration: the file name, the caption fields when the
    metadata could be loaded, and the data behind the download button. *)
Record Caption := {
  c_tone : option json; c_voice : option json;
  c_model : option json; c_timestamp : option json
}.
Record Narration := {
  n_name : pystr; n_caption : option Caption; n_data : FileData
}.
Inductive Listing :=
| NoNarrations                       (* "No previous narrations yet." *)
| Narrations (l : list Narration).

(** [out.glob("speech_*.mp3")] *)
Definition glob_speech (fs : gmap pystr FileData) (out : pystr) : list Path :=
  omap (fun kv => match child_name out (fst kv) with
                  | Some n => if match_speech_mp3 n
                              then Some {| p_dir := out; p_name := n |} else None
                  | None => None
                  end)
       (map_to_list fs).

(** [out / f"meta_{'_'.join(f.stem.split('_')[1:])}.json"] *)
Definition meta_path_of (out : pystr) (f : Path) : Path :=
  {| p_dir := out;
     p_name := lit "meta_" ++ join (lit "_") (tail (split_char ch_underscore (path_stem f)))
               ++ lit ".json" |}.

(** The [meta] dictionary of the handler. *)
Definition meta_record (i : Inputs) (ts : pystr) (txt_path mp3_path : Path) : json :=
  JObj [ (lit "timestamp", JStr ts); (lit "tone", JStr (in_tone i));
         (lit "voice", JStr (in_voice_name i));
         (lit "model", JStr (in_model i)); (lit "ollama_url", JStr (in_ollama_url i));
         (lit "temperature", JFloat (in_temperature i));
         (lit "max_tokens", JInt (in_max_tokens i));
         (lit "text_file", JStr (path_str txt_path));
         (lit "audio_file", JStr (path_str mp3_path)) ].

Section App.
Variable L : PyLib.
Variable E : Env.

Definition _safe_name (s : pystr) : pystr := _safe_name L s.

Definition set_rewritten (r : pystr) : M unit :=
  let* s := get_session in
  put_session {| ss_rewritten := r; ss_audio_bytes := ss_audio_bytes s;
                 ss_audio_mime := ss_audio_mime s; ss_last_meta := ss_last_meta s |}.
Definition set_audio (b : bytes) (mime : pystr) : M unit :=
  let* s := get_session in
  put_session {| ss_rewritten := ss_rewritten s; ss_audio_bytes := b;
                 ss_audio_mime := mime; ss_last_meta := ss_last_meta s |}.
Definition set_last_meta (m : json) : M unit :=
  let* s := get_session in
  put_session {| ss_rewritten := ss_rewritten s; ss_audio_bytes := ss_audio_bytes s;
                 ss_audio_mime := ss_audio_mime s; ss_last_meta := m |}.

(** The persisting part of the [try] block: text file, audio file, metadata
    file, then [st.success]. *)
Definition persist (i : Inputs) (rewritten : pystr) (audio_bytes : bytes) : M unit :=
  let* outputs := Core.ensure_outputs_dir in
  let* d := now E in
  let ts := strftime d in
  let tone_safe := _safe_name (in_tone i) in
  let* txt_path := Core.save_text L E rewritten (in_tone i) in
  let mp3_path := {| p_dir := outputs;
                     p_name := audio_name (lit "speech") tone_safe ts |} in
  write_file (path_str mp3_path) (FBytes audio_bytes) >>
  let meta := meta_record i ts txt_path mp3_path in
  write_file
    (path_str {| p_dir := outputs; p_name := meta_name tone_safe ts |})
    (FText (json_dumps L meta)) >>
  set_last_meta meta >>
  emit (EvSuccess success_msg).

(** The body of the [try] block of the "Generate Audiobook" handler. *)
Definition generate_job (i : Inputs) : M unit :=
  let* rewritten :=
    Core.rewrite_with_ollama L E (strip (in_text i)) (in_tone i) (in_model i)
      (in_ollama_url i) (in_temperature i) (in_max_tokens i) in
  set_rewritten rewritten >>
  let* v := match preset_get (in_voice_name i) VOICE_PRESETS with
            | Some v => ret v
            | None => raise (PyError (lit "KeyError")
                                     (lit "'" ++ in_voice_name i ++ lit "'"))
            end in
  let* audio_bytes :=
    Core.tts_with_gtts_to_bytes E rewritten (vp_lang v) (vp_tld v) (vp_slow v) in
  set_audio audio_bytes (lit "audio/mp3") >>
  persist i rewritten audio_bytes.

(** [if gen: ...] *)
Definition generate (i : Inputs) : M unit :=
  if in_gen i then
    if (is_nil (in_text i) || is_nil (strip (in_text i)))%bool then
      emit (EvWarning warning_msg)
    else
      try_except (generate_job i) (fun e => emit (EvError (exn_str e)))
  else ret tt.

(** The caption of one entry: [None] when the metadata file is missing or the
    [try] block around [json.loads] and [meta.get] raises. *)
Definition load_caption (meta_path : Path) : M (option Caption) :=
  let* present := file_exists (path_str meta_path) in
  if present then
    try_except
      (let* s := read_text L (path_str meta_path) in
       match json_loads L s with
       | Some (JObj fields) =>
           ret (Some {| c_tone := dict_get (lit "tone") fields;
                        c_voice := dict_get (lit "voice") fields;
                        c_model := dict_get (lit "model") fields;
                        c_timestamp := dict_get (lit "timestamp") fields |})
       | Some _ => raise (PyError (lit "AttributeError") (lit "get"))
       | None => raise (PyError (lit "JSONDecodeError") s)
       end)
      (fun _ => ret None)
  else ret None.

Definition render_entry (out : pystr) (f : Path) : M Narration :=
  let meta_path := meta_path_of out f in
  let* cap := load_caption meta_path in
  let* data := read_bytes (path_str f) in
  ret {| n_name := p_name f; n_caption := cap; n_data := data |}.

(** The "View Past Narrations" expander. *)
Definition past_narrations : M Listing :=
  let* out := Core.ensure_outputs_dir in
  let* fs := get_fs in
  let files := sorted_reverse (glob_speech fs out) in
  if is_nil files then ret NoNarrations
  else
    let* entries := mapM (render_entry out) (take 20 files) in
    ret (Narrations entries).

End App.

(** [meta.get(k)] on the metadata record *)
Definition meta_field (k : pystr) (m : json) : option json :=
  match m with
  | JObj fields => dict_get k fields
  | _ => None
  end.

(** The names shown by a listing, top to bottom. *)
Definition shown (l : Listing) : list Narration :=
  match l with
  | NoNarrations => []
  | Narrations es => es
  end.
Definition shown_names (l : Listing) : list pystr := map n_name (shown l).

(** What the caption of an entry is, given the state of its metadata file. *)
Definition caption_spec (L : PyLib) (fs : gmap pystr FileData) (meta_path : Path)
    (c : option Caption) : Prop :=
  (fs !! path_str meta_path = None -> c = None) /\
  (forall s, fs !! path_str meta_path = Some (FText s) -> json_loads L s = None ->
             c = None) /\
  (forall s fields,
      fs !! path_str meta_path = Some (FText s) -> json_loads L s = Some (JObj fields) ->
      c = Some {| c_tone := dict_get (lit "tone") fields;
                  c_voice := dict_get (lit "voice") fields;
                  c_model := dict_get (lit "model") fields;
                  c_timestamp := dict_get (lit "timestamp") fields |}).

(** The entry shown for the audio file [f]. *)
Definition entry_spec (L : PyLib) (fs : gmap pystr FileData) (out : pystr)
    (f : Path) (e : Narration) : Prop :=
  n_name e = p_name f /\
  fs !! path_str f = Some (n_data e) /\
  caption_spec L fs (meta_path_of out f) (n_caption e).

(** The audio files of the output directory, in the order of the listing. *)
Definition listed_files (fs : gmap pystr FileData) : list Path :=
  sorted_reverse (glob_speech fs (lit "outputs")).

End App.

(** ** [for_terminal.py]: the terminal front-end *)

Module Terminal.

Definition DEFAULT_TONES : list pystr :=
  map lit [ "Neutral"; "Suspenseful"; "Inspiring"; "Joyful"; "Calm"; "Dramatic";
            "Motivational"; "Humorous"; "Serious"; "Urgent"; "Formal"; "Casual";
            "Friendly"; "Authoritative"; "Romantic"; "Cinematic"; "Narrative";
            "Empathetic" ]%string.

(** The parsed command line. *)
Record Args := {
  a_model : pystr;
  a_ollama_url : pystr;
  a_tone : option pystr;
  a_lang : pystr;
  a_input_file : option pystr;
  a_temperature : Q;
  a_max_tokens : Z;
  a_piper_model : option pystr;
  a_out_prefix : pystr
}.

(** Truth value of an optional string argument. *)
Definition truthy (o : option pystr) : option pystr :=
  match o with
  | Some s => if is_nil s then None else Some s
  | None => None
  end.

(** The line without its end-of-line character, as [input()] returns it. *)
Definition chomp (l : pystr) : pystr :=
  match last l with
  | Some 10 => removelast l
  | _ => l
  end.

(** The reading loop of [read_text_interactive]: the collected lines and the
    input left unread. *)
Fixpoint read_lines (input lines : list pystr) : list pystr * list pystr :=
  match input with
  | [] => (lines, [])
  | line :: rest =>
      if is_nil line then (lines, rest)
      else if (is_nil (strip line) && (0 <? length lines)%nat)%bool then (lines, rest)
      else read_lines rest (lines ++ [line])
  end.

(** The process exit status of a run of [main]: an uncaught exception ends the
    interpreter with status 1. *)
Definition exit_status (r : Res unit) : Z :=
  match r with
  | Ret _ => 0
  | Exit c => c
  | Raise _ => 1
  end.

(** The lines that [main] prints around the rewrite and synthesis stages. *)
Definition rewriting_line (args : Args) (tone : pystr) : pystr :=
  nl ++ [8594] ++ lit " Rewriting with Ollama model '" ++ a_model args
  ++ lit "' in tone: " ++ tone.
Definition rewrite_failed_line (e : Exn) : pystr :=
  nl ++ lit "[ERROR] LLM rewrite failed: " ++ exn_str e.
Definition tts_failed_line (e : Exn) : pystr :=
  nl ++ lit "[ERROR] TTS failed: " ++ exn_str e.
Definition no_input_line : pystr := lit "No input text provided.".
Definition paste_prompt : pystr :=
  nl ++ lit "Paste your text. End input with a blank line (press Enter twice):".

Section Terminal.
Variable L : PyLib.
Variable E : Env.

(** [input(prompt)] *)
Definition input (prompt : pystr) : M pystr :=
  emit (EvStdout prompt) >>
  let* l := readline in
  if is_nil l then raise (PyError (lit "EOFError") (lit "EOF when reading a line"))
  else ret (chomp l).

Fixpoint print_tones (i : Z) (tones : list pystr) : M unit :=
  match tones with
  | [] => ret tt
  | t :: r => print (lit "  " ++ str_of_int i ++ lit ". " ++ t) >> print_tones (i + 1) r
  end.

(** The [while True] loop of [pick_tone_interactive]; every turn consumes a
    line of input, so [fuel] above the number of pending lines is never
    exhausted. *)
Fixpoint pick_loop (fuel : nat) (tones : list pystr) : M pystr :=
  match fuel with
  | O => raise (PyError (lit "EOFError") (lit "EOF when reading a line"))
  | S fuel' =>
      let* s := input (nl ++ lit "Enter number: ") in
      match py_int L (strip s) with
      | None => print (lit "Please enter a number.") >> pick_loop fuel' tones
      | Some sel =>
          if (sel =? 0)%Z then
            let* c := input (lit "Enter your custom tone: ") in ret (strip c)
          else if ((1 <=? sel)%Z && (sel <=? Z.of_nat (length tones))%Z)%bool then
            match tones !! Z.to_nat (sel - 1) with
            | Some t => ret t
            | None => raise (PyError (lit "IndexError") (lit "list index out of range"))
            end
          else print (lit "Invalid selection, try again.") >> pick_loop fuel' tones
      end
  end.

Definition pick_tone_interactive (tones : list pystr) : M pystr :=
  print (nl ++ lit "Select a tone:") >>
  print_tones 1 tones >>
  print (lit "  0. Custom") >>
  fun w => pick_loop (S (length (w_stdin w))) tones w.

Definition read_text_interactive : M pystr :=
  print paste_prompt >>
  fun w =>
    let '(lines, rest) := read_lines (w_stdin w) [] in
    (Ret (strip (concat lines)), with_stdin w rest).

(** [models.append(m["name"])] for every entry with a ["name"] key *)
Definition model_names (data : TagsData) : list pystr :=
  omap me_name (default [] (td_models data)).

Definition ollama_models (base_url : pystr) : M (list pystr) :=
  let url := tags_url base_url in
  emit (EvHttpGet url) >>
  match http_get_tags E url with
  | NetFail _ => ret []
  | HttpReply status _ body =>
      if negb (status =? 200)%Z then ret []
      else match body with
           | None => ret []
           | Some data => ret (model_names data)
           end
  end.

Definition not_found_msg (model base_url : pystr) (models : list pystr) : pystr :=
  lit "Ollama model '" ++ model ++ lit "' not found at " ++ base_url ++ lit "." ++ nl
  ++ lit "To fix:" ++ nl
  ++ lit "  1) Ensure Ollama is running." ++ nl
  ++ lit "  2) Pull the model:" ++ nl
  ++ lit "     ollama pull " ++ model ++ nl
  ++ lit "  3) Retry this script (or pass --model to use another installed model)." ++ nl
  ++ lit "Installed models I can see: " ++ installed_text models.

Definition ensure_model_present (model base_url : pystr) : M unit :=
  let* models := ollama_models base_url in
  if negb (bool_decide (model ∈ models)) then
    raise (RuntimeError (not_found_msg model base_url models))
  else ret tt.

Definition rewrite_with_ollama :
    pystr -> pystr -> pystr -> pystr -> Q -> Z -> M pystr :=
  rewrite_with L E ensure_model_present.

Definition ensure_outputs_dir : M pystr := ensure_outputs_dir.
Definition save_text : pystr -> pystr -> M Path := save_text L E.

(** What a backend or external program leaves at its output path. *)
Definition leave_output (p : Path) (o : option bytes) : M unit :=
  match o with
  | Some b => write_file (path_str p) (FBytes b)
  | None => ret tt
  end.

(** [gTTS(text=text, lang=lang, slow=False).save(str(mp3_path))] writes into
    the file it has opened. *)
Definition tts_with_gtts (text lang : pystr) (mp3_path : Path) : M unit :=
  emit (EvSynthCall text) >>
  if negb (_HAS_GTTS E) then
    raise (RuntimeError (lit "gTTS not installed. Install with: pip install gTTS"))
  else
    match gtts E text lang (lit "com") false with
    | SynthOk audio => write_file (path_str mp3_path) (FBytes audio)
    | SynthFail e partial => leave_output mp3_path partial >> raise e
    end.

Definition tts_with_piper (text model_path : pystr) (out_mp3_path : Path) : M unit :=
  emit (EvSynthCall text) >>
  if negb (which E (lit "piper")) then
    raise (RuntimeError
             (lit "Piper CLI not found in PATH. See: https://github.com/rhasspy/piper"))
  else
    let wav_path := path_sibling out_mp3_path (lit ".wav") in
    emit (EvRun (lit "piper")) >>
    let proc := run_piper E model_path text in
    leave_output wav_path (pr_output proc) >>
    if negb (pr_rc proc =? 0)%Z then
      raise (RuntimeError (lit "Piper failed (rc=" ++ str_of_int (pr_rc proc)
                           ++ lit "). Stderr:" ++ nl ++ pr_stderr proc))
    else
      let* fs := get_fs in
      let wav := fs !! path_str wav_path in
      if which E (lit "ffmpeg") then
        emit (EvRun (lit "ffmpeg")) >>
        let conv := run_ffmpeg E wav in
        leave_output out_mp3_path (pr_output conv) >>
        if negb (pr_rc conv =? 0)%Z then
          raise (RuntimeError (lit "ffmpeg failed to convert WAV->MP3." ++ nl
                               ++ pr_stderr conv))
        else unlink_missing_ok (path_str wav_path)
      else if negb (_HAS_PYDUB E) then
        raise (RuntimeError
                 (lit "ffmpeg not found and pydub not installed. Install one to get MP3. "
                  ++ lit "WAV file at: " ++ path_str wav_path))
      else
        match pydub_to_mp3 E wav with
        | SynthOk audio =>
            write_file (path_str out_mp3_path) (FBytes audio) >>
            unlink_missing_ok (path_str wav_path)
        | SynthFail e partial => leave_output out_mp3_path partial >> raise e
        end.

(** [main], lines "Gather text": the input text, or exit status 1. *)
Definition main_gather_text (args : Args) : M pystr :=
  let* input_text :=
    match truthy (a_input_file args) with
    | Some src =>
        let* present := file_exists src in
        if negb present then
          eprint (lit "Input file not found: " ++ src) >> sys_exit 1
        else
          let* s := read_text L src in ret (strip s)
    | None => read_text_interactive
    end in
  if is_nil input_text then
    eprint no_input_line >> sys_exit 1
  else ret input_text.

(** [args.tone or pick_tone_interactive(DEFAULT_TONES)] *)
Definition main_pick_tone (args : Args) : M pystr :=
  match truthy (a_tone args) with
  | Some t => ret t
  | None => pick_tone_interactive DEFAULT_TONES
  end.

(** The rewrite stage of [main]: exit status 2 on any exception. *)
Definition main_rewrite (args : Args) (input_text tone : pystr) : M pystr :=
  print (rewriting_line args tone) >>
  try_except
    (rewrite_with_ollama input_text tone (a_model args) (a_ollama_url args)
       (a_temperature args) (a_max_tokens args))
    (fun e => eprint (rewrite_failed_line e) >> sys_exit 2).

(** The body of the [try] block around the synthesis call. *)
Definition synthesize (args : Args) (rewritten : pystr) (mp3_path : Path) : M unit :=
  match truthy (a_piper_model args) with
  | Some model_path =>
      print ([8594] ++ lit " Using Piper (offline TTS).") >>
      tts_with_piper rewritten model_path mp3_path
  | None =>
      print ([8594] ++ lit " Using gTTS (simple). To use Piper offline, pass "
             ++ lit "--piper-model /path/to/model.onnx") >>
      tts_with_gtts rewritten (a_lang args) mp3_path
  end.

(** The synthesis stage of [main]: exit status 3 on any exception. *)
Definition main_tts (args : Args) (rewritten : pystr) (mp3_path : Path) : M unit :=
  try_except
    (synthesize args rewritten mp3_path >>
     print ([10003] ++ lit " Audio saved to: " ++ path_str mp3_path))
    (fun e => eprint (tts_failed_line e) >> sys_exit 3).

(** [main], lines "Save rewritten text" up to the choice of [mp3_path]. *)
Definition main_save_text (args : Args) (rewritten tone : pystr) : M Path :=
  let* text_path := save_text rewritten tone in
  print ([10003] ++ lit " Rewritten text saved to: " ++ path_str text_path) >>
  let* out_dir := ensure_outputs_dir in
  let* d := now E in
  let ts := strftime d in
  let safe_tone := _safe_name L tone in
  ret {| p_dir := out_dir; p_name := audio_name (a_out_prefix args) safe_tone ts |}.

Definition main (args : Args) : M unit :=
  let* input_text := main_gather_text args in
  let* tone := main_pick_tone args in
  let* rewritten := main_rewrite args input_text tone in
  let* mp3_path := main_save_text args rewritten tone in
  main_tts args rewritten mp3_path >>
  print (nl ++ lit "Done.").

End Terminal.
End Terminal.

(** ** Sample library, environments and inputs used by the worked examples *)

Module Sample.

(** A stand-in for the library parameters: ASCII-only character tests, the
    identity for [str.lower], decimal digits for [int()], and a [json] codec
    that knows the empty object only. *)
Definition lib : PyLib :=
  {| uni_isalnum := fun _ => false;
     str_lower := fun s => s;
     py_int := fun s => match s with
                        | [d] => if ((48 <=? d) && (d <=? 57))%bool
                                 then Some (Z.of_N (d - 48)) else None
                        | _ => None
                        end;
     json_dumps := fun _ => lit "{}";
     json_loads := fun s => if bool_decide (s = lit "{}") then Some (JObj []) else None;
     utf8_decode := fun _ => None |}.

Definition dt (y mo d h mi s : N) : datetime :=
  {| dt_year := y; dt_month := mo; dt_day := d;
     dt_hour := h; dt_minute := mi; dt_second := s |}.

(** A clock that shows 14:05:59 at its first reading and 14:06:00 afterwards. *)
Definition ticking_clock (n : nat) : datetime :=
  match n with
  | O => dt 2025 3 9 14 5 59
  | _ => dt 2025 3 9 14 6 0
  end.

Definition quiet_proc : ProcResult :=
  {| pr_rc := 0; pr_stdout := []; pr_stderr := []; pr_output := None |}.

(** Everything works: the model is installed, the endpoint answers, gTTS
    delivers audio. *)
Definition env_ok : Env :=
  {| clock := ticking_clock;
     http_get_tags := fun _ =>
       HttpReply 200 []
         (Some {| td_models := Some [ {| me_name := Some (lit "gemma3:4b") |} ] |});
     http_post_generate := fun _ =>
       HttpReply 200 []
         (Some {| gd_response := Some (lit "  Hello there. "); gd_dump := [] |});
     _HAS_GTTS := true; _HAS_PYDUB := false;
     gtts := fun _ _ _ _ => SynthOk [Byte.x49; Byte.x44; Byte.x33];
     which := fun _ => false;
     run_piper := fun _ _ => quiet_proc;
     run_ffmpeg := fun _ => quiet_proc;
     pydub_to_mp3 := fun _ => SynthOk [] |}.

(** As [env_ok], but the synthesis backend raises. *)
Definition env_tts_down : Env :=
  {| clock := ticking_clock;
     http_get_tags := http_get_tags env_ok;
     http_post_generate := http_post_generate env_ok;
     _HAS_GTTS := true; _HAS_PYDUB := false;
     gtts := fun _ _ _ _ => SynthFail (PyError (lit "gTTSError") (lit "Connection error")) None;
     which := fun _ => false;
     run_piper := fun _ _ => quiet_proc;
     run_ffmpeg := fun _ => quiet_proc;
     pydub_to_mp3 := fun _ => SynthOk [] |}.

(** The endpoint is unreachable: every HTTP call fails at the network level. *)
Definition env_unreachable : Env :=
  {| clock := ticking_clock;
     http_get_tags := fun _ => NetFail (lit "Connection refused");
     http_post_generate := fun _ => NetFail (lit "Connection refused");
     _HAS_GTTS := true; _HAS_PYDUB := false;
     gtts := gtts env_ok;
     which := fun _ => false;
     run_piper := fun _ _ => quiet_proc;
     run_ffmpeg := fun _ => quiet_proc;
     pydub_to_mp3 := fun _ => SynthOk [] |}.

(** The listing call works, the generation call fails at the network level. *)
Definition env_generate_unreachable : Env :=
  {| clock := ticking_clock;
     http_get_tags := http_get_tags env_ok;
     http_post_generate := fun _ => NetFail (lit "Read timed out");
     _HAS_GTTS := true; _HAS_PYDUB := false;
     gtts := gtts env_ok;
     which := fun _ => false;
     run_piper := fun _ _ => quiet_proc;
     run_ffmpeg := fun _ => quiet_proc;
     pydub_to_mp3 := fun _ => SynthOk [] |}.

(** The endpoint has another model installed. *)
Definition env_other_model : Env :=
  {| clock := ticking_clock;
     http_get_tags := fun _ =>
       HttpReply 200 []
         (Some {| td_models := Some [ {| me_name := Some (lit "mistral") |};
                                      {| me_name := Some (lit "qwen2.5:7b") |} ] |});
     http_post_generate := http_post_generate env_ok;
     _HAS_GTTS := true; _HAS_PYDUB := false;
     gtts := gtts env_ok;
     which := fun _ => false;
     run_piper := fun _ _ => quiet_proc;
     run_ffmpeg := fun _ => quiet_proc;
     pydub_to_mp3 := fun _ => SynthOk [] |}.

Definition world (fs : gmap pystr FileData) (stdin : list pystr) : World :=
  {| w_fs := fs; w_tick := 0; w_stdin := stdin;
     w_session := App.initial_session; w_log := [] |}.

Definition empty_world : World := world ∅ [].

Definition inputs (text tone : pystr) : App.Inputs :=
  {| App.in_ollama_url := lit "http://localhost:11434";
     App.in_model := lit "gemma3:4b";
     App.in_temperature := 7 # 10;
     App.in_max_tokens := 512;
     App.in_text := text;
     App.in_voice_name := lit "Kate (UK)";
     App.in_tone := tone;
     App.in_gen := true |}.

Definition args (tone : pystr) (input_file : option pystr) : Terminal.Args :=
  {| Terminal.a_model := lit "gemma3:4b";
     Terminal.a_ollama_url := lit "http://localhost:11434";
     Terminal.a_tone := Some tone;
     Terminal.a_lang := lit "en";
     Terminal.a_input_file := input_file;
     Terminal.a_temperature := 7 # 10;
     Terminal.a_max_tokens := 512;
     Terminal.a_piper_model := None;
     Terminal.a_out_prefix := lit "speech" |}.

(** Two past narrations: an older one in tone "Urgent" and a newer one in
    tone "Calm", neither with a metadata file. *)
Definition two_narrations : gmap pystr FileData :=
  <[ lit "outputs/speech_Calm_20250102-000000.mp3" := FBytes [Byte.x02] ]>
  (<[ lit "outputs/speech_Urgent_20240101-000000.mp3" := FBytes [Byte.x01] ]> ∅).

(** Twenty-one past narrations, one per second. *)
Definition many_narrations : gmap pystr FileData :=
  list_to_map
    (map (fun n => (path_str {| p_dir := lit "outputs";
                                p_name := audio_name (lit "speech") (lit "Calm")
                                            (strftime (dt 2025 1 1 0 0 (N.of_nat n))) |},
                    FBytes []))
         (seq 0 21)).

End Sample.

(** ** [app.py]: the output section of the page *)

Module Page.

(** The "Download MP3" button. *)
Record Download := { dl_data : bytes; dl_file_name : pystr; dl_mime : pystr }.

(** What the output section renders: the two text cards (original and
    rewritten text), the audio player (data and format) and the download
    button. *)
Record Output := {
  o_cards : option (pystr * pystr);
  o_audio : option (bytes * pystr);
  o_download : option Download
}.

Section Page.
Variable L : PyLib.
Variable E : Env.

(** How an f-string prints a value that is not a [str]; not part of the
    repository. *)
Variable format_value : json -> pystr.

(** [f"{v}"] *)
Definition fstring (v : json) : pystr :=
  match v with
  | JStr s => s
  | _ => format_value v
  end.

(** [if st.session_state.rewritten: ...] and
    [if st.session_state.audio_bytes: ...]: the default of
    [last_meta.get("timestamp", ...)] reads the clock before [get] is
    called. *)
Definition output (i : App.Inputs) : M Output :=
  let* s := get_session in
  let cards := if is_nil (ss_rewritten s) then None
               else Some (App.in_text i, ss_rewritten s) in
  if is_nil (ss_audio_bytes s) then
    ret {| o_cards := cards; o_audio := None; o_download := None |}
  else
    let* _ := Core.ensure_outputs_dir in
    match ss_last_meta s with
    | JObj fields =>
        let* d := now E in
        let ts := match dict_get (lit "timestamp") fields with
                  | Some v => fstring v
                  | None => strftime d
                  end in
        let tone_safe := App._safe_name L (App.in_tone i) in
        ret {| o_cards := cards;
               o_audio := Some (ss_audio_bytes s, ss_audio_mime s);
               o_download :=
                 Some {| dl_data := ss_audio_bytes s;
                         dl_file_name := audio_name (lit "speech") tone_safe ts;
                         dl_mime := lit "audio/mp3" |} |}
    | _ => raise (PyError (lit "AttributeError") (lit "get"))
    end.

End Page.
End Page.

(** ** Predicates on events and computations *)

(** The three messages with which the browser handler ends. *)
Definition is_report (ev : Event) : bool :=
  match ev with
  | EvWarning _ | EvError _ | EvSuccess _ => true
  | _ => false
  end.

Definition is_stderr (ev : Event) : bool :=
  match ev with
  | EvStderr _ => true
  | _ => false
  end.

(** Events among which there is no line on standard error. *)
Definition quiet (evs : list Event) : Prop :=
  Forall (fun ev => is_stderr ev = false) evs.

(** A computation that only appends to the log, writes to standard error
    only as its last act before [sys.exit], exits in no other way, and whose
    new events satisfy [Q] when it returns. *)
Definition stderr_then_exit {A} (Q : list Event -> Prop) (m : M A) : Prop :=
  forall w, exists evs,
    w_log (snd (m w)) = w_log w ++ evs /\
    match fst (m w) with
    | Exit _ => exists evs0 msg, evs = evs0 ++ [EvStderr msg] /\ quiet evs0
    | Ret _ => quiet evs /\ Q evs
    | Raise _ => quiet evs
    end.

(** A line that the tone picker answers with a new prompt: not a number, or
    a number that is neither 0 nor the number of a tone. *)
Definition rejected (L : PyLib) (tones : list pystr) (l : pystr) : Prop :=
  l <> [] /\
  match py_int L (strip (Terminal.chomp l)) with
  | None => True
  | Some z => z <> 0%Z /\ ~ (1 <= z <= Z.of_nat (length tones))%Z
  end.

(** A computation that reads nothing from standard input. *)
Definition stdin_pres {A} (m : M A) : Prop :=
  forall w, w_stdin (snd (m w)) = w_stdin w.

(** ** More sample environments for the worked examples *)

Module Cases.

(** As [Sample.env_ok], with a given reply to the generation request. *)
Definition env_reply (r : HttpOutcome GenData) : Env :=
  {| clock := clock Sample.env_ok;
     http_get_tags := http_get_tags Sample.env_ok;
     http_post_generate := fun _ => r;
     _HAS_GTTS := true; _HAS_PYDUB := false;
     gtts := gtts Sample.env_ok;
     which := fun _ => false;
     run_piper := fun _ _ => Sample.quiet_proc;
     run_ffmpeg := fun _ => Sample.quiet_proc;
     pydub_to_mp3 := fun _ => SynthOk [] |}.

(** As [Sample.env_ok], with a given reply to the model-listing request. *)
Definition env_tags (r : HttpOutcome TagsData) : Env :=
  {| clock := clock Sample.env_ok;
     http_get_tags := fun _ => r;
     http_post_generate := http_post_generate Sample.env_ok;
     _HAS_GTTS := true; _HAS_PYDUB := false;
     gtts := gtts Sample.env_ok;
     which := fun _ => false;
     run_piper := fun _ _ => Sample.quiet_proc;
     run_ffmpeg := fun _ => Sample.quiet_proc;
     pydub_to_mp3 := fun _ => SynthOk [] |}.

(** An offline setup: which programs are on the path, and what they do. *)
Definition env_offline (programs : list pystr) (has_pydub : bool)
    (piper ffmpeg : ProcResult) (pydub : SynthOutcome) : Env :=
  {| clock := clock Sample.env_ok;
     http_get_tags := http_get_tags Sample.env_ok;
     http_post_generate := http_post_generate Sample.env_ok;
     _HAS_GTTS := false; _HAS_PYDUB := has_pydub;
     gtts := gtts Sample.env_ok;
     which := fun p => bool_decide (p ∈ programs);
     run_piper := fun _ _ => piper;
     run_ffmpeg := fun _ => ffmpeg;
     pydub_to_mp3 := fun _ => pydub |}.

(** A program run that ends with status [rc] and leaves [out]. *)
Definition proc (rc : Z) (err : pystr) (out : option bytes) : ProcResult :=
  {| pr_rc := rc; pr_stdout := []; pr_stderr := err; pr_output := out |}.

(** A clock that stands still. *)
Definition env_frozen : Env :=
  {| clock := fun _ => Sample.dt 2025 3 9 14 6 0;
     http_get_tags := http_get_tags Sample.env_ok;
     http_post_generate := http_post_generate Sample.env_ok;
     _HAS_GTTS := true; _HAS_PYDUB := false;
     gtts := gtts Sample.env_ok;
     which := fun _ => false;
     run_piper := fun _ _ => Sample.quiet_proc;
     run_ffmpeg := fun _ => Sample.quiet_proc;
     pydub_to_mp3 := fun _ => SynthOk [] |}.

End Cases.

(** * Properties *)

(** ** Facts on stripping *)

Lemma lstrip_by_suffix p s : exists pre, s = pre ++ lstrip_by p s /\ forallb p pre = true.
Proof.
  induction s as [|c r IH]; simpl.
  - exists []. auto.
  - destruct (p c) eqn:E.
    + destruct IH as [pre [H1 H2]]. exists (c :: pre). simpl.
      rewrite E, H2. split; [congruence | reflexivity].
    + exists []. auto.
Qed.

Lemma lstrip_by_head p s c : head (lstrip_by p s) = Some c -> p c = false.
Proof.
  induction s as [|x r IH]; simpl; [discriminate|].
  destruct (p x) eqn:E; [exact IH|].
  simpl. intros [= <-]. exact E.
Qed.

Lemma lstrip_by_id p s :
  (forall c, head s = Some c -> p c = false) -> lstrip_by p s = s.
Proof.
  destruct s as [|x r]; simpl; [reflexivity|].
  intros H. rewrite (H x eq_refl). reflexivity.
Qed.

Lemma lstrip_by_all p s : forallb p s = true -> lstrip_by p s = [].
Proof.
  induction s as [|x r IH]; simpl; [reflexivity|].
  intros H. apply andb_true_iff in H as [H1 H2]. rewrite H1. auto.
Qed.

Lemma lstrip_by_Forall (P : N -> Prop) p s : Forall P s -> Forall P (lstrip_by p s).
Proof.
  induction 1 as [|x r Hx Hr IH]; simpl; [constructor|].
  destruct (p x); [exact IH | constructor; assumption].
Qed.

Lemma rstrip_by_Forall (P : N -> Prop) p s : Forall P s -> Forall P (rstrip_by p s).
Proof.
  intros H. unfold rstrip_by.
  apply Forall_rev, lstrip_by_Forall, Forall_rev, H.
Qed.

Lemma strip_by_Forall (P : N -> Prop) p s : Forall P s -> Forall P (strip_by p s).
Proof. intros H. apply rstrip_by_Forall, lstrip_by_Forall, H. Qed.

Lemma last_rev_head (s : pystr) : last (rev s) = head s.
Proof.
  destruct s as [|x r]; [reflexivity|]. simpl. apply last_snoc.
Qed.

Lemma rstrip_by_last p s c : last (rstrip_by p s) = Some c -> p c = false.
Proof.
  unfold rstrip_by. rewrite last_rev_head. apply lstrip_by_head.
Qed.

(** Dropping characters at the end does not change a first character that
    survives. *)
Lemma rstrip_by_head p s c :
  head (rstrip_by p s) = Some c -> head s = Some c.
Proof.
  unfold rstrip_by.
  destruct (lstrip_by_suffix p (rev s)) as [pre [H1 _]].
  assert (Hs : s = rev (lstrip_by p (rev s)) ++ rev pre).
  { rewrite <- rev_app_distr, <- H1, rev_involutive. reflexivity. }
  intros H. rewrite Hs.
  destruct (rev (lstrip_by p (rev s))); [discriminate | exact H].
Qed.

Lemma strip_by_head p s c : head (strip_by p s) = Some c -> p c = false.
Proof.
  unfold strip_by. intros H. apply rstrip_by_head in H.
  eapply lstrip_by_head, H.
Qed.

Lemma strip_by_last p s c : last (strip_by p s) = Some c -> p c = false.
Proof. apply rstrip_by_last. Qed.

Lemma rstrip_by_id p s :
  (forall c, last s = Some c -> p c = false) -> rstrip_by p s = s.
Proof.
  intros H. unfold rstrip_by. rewrite lstrip_by_id.
  - apply rev_involutive.
  - intros c Hc. apply H. rewrite <- (rev_involutive s), last_rev_head. exact Hc.
Qed.

Lemma strip_by_id p s :
  (forall c, head s = Some c -> p c = false) ->
  (forall c, last s = Some c -> p c = false) ->
  strip_by p s = s.
Proof.
  intros Hh Hl. unfold strip_by. rewrite (lstrip_by_id p s Hh).
  apply rstrip_by_id, Hl.
Qed.

Lemma strip_by_idem p s : strip_by p (strip_by p s) = strip_by p s.
Proof.
  apply strip_by_id; [apply strip_by_head | apply strip_by_last].
Qed.

Lemma strip_by_all p s : forallb p s = true -> strip_by p s = [].
Proof.
  intros H. unfold strip_by. rewrite lstrip_by_all by exact H. reflexivity.
Qed.

(** ** Tone sanitization *)

Section SafeName.
Variable L : PyLib.

Lemma filter_keep_chars (s : pystr) :
  Forall (fun c => keep_char L c = true) (List.filter (keep_char L) s).
Proof.
  apply List.Forall_forall. intros c Hc.
  apply List.filter_In in Hc. tauto.
Qed.

Lemma filter_keep_id (s : pystr) :
  Forall (fun c => keep_char L c = true) s -> List.filter (keep_char L) s = s.
Proof.
  induction 1 as [|c r Hc Hr IH]; simpl; [reflexivity|].
  rewrite Hc, IH. reflexivity.
Qed.

Lemma safe_name_chars (s : pystr) :
  Forall (fun c => keep_char L c = true) (_safe_name L s).
Proof. apply strip_by_Forall, filter_keep_chars. Qed.

Lemma safe_name_idem (s : pystr) : _safe_name L (_safe_name L s) = _safe_name L s.
Proof.
  unfold _safe_name at 1.
  rewrite filter_keep_id by apply safe_name_chars.
  unfold _safe_name, strip_char. apply strip_by_idem.
Qed.

Lemma safe_name_head (s : pystr) : head (_safe_name L s) <> Some ch_underscore.
Proof.
  intros H. apply strip_by_head in H. rewrite N.eqb_refl in H. discriminate.
Qed.

Lemma safe_name_last (s : pystr) : last (_safe_name L s) <> Some ch_underscore.
Proof.
  intros H. apply strip_by_last in H. rewrite N.eqb_refl in H. discriminate.
Qed.

End SafeName.

(** C3 (as amended). Tone sanitization is a function of the tone alone; it is
    idempotent, its result holds only alphanumerics, hyphens and underscores
    and neither starts nor ends with an underscore; it maps "Suspenseful!!" to
    "Suspenseful" and "Calm & Slow" to "CalmSlow" (the characters that are not
    kept are dropped, not replaced). *)
Theorem safe_name_spec (L : PyLib) :
  (forall tone,
      _safe_name L (_safe_name L tone) = _safe_name L tone /\
      Forall (fun c => isalnum L c = true \/ c = ch_hyphen \/ c = ch_underscore)
             (_safe_name L tone) /\
      head (_safe_name L tone) <> Some ch_underscore /\
      last (_safe_name L tone) <> Some ch_underscore) /\
  _safe_name L (lit "Suspenseful!!") = lit "Suspenseful" /\
  _safe_name L (lit "Calm & Slow") = lit "CalmSlow".
Proof.
  split; [|split; reflexivity].
  intros tone. split; [apply safe_name_idem|].
  split; [|split; [apply safe_name_head | apply safe_name_last]].
  eapply List.Forall_impl; [|apply safe_name_chars].
  intros c Hc. unfold keep_char in Hc.
  apply orb_true_iff in Hc as [Hc|Hc]; [apply orb_true_iff in Hc as [Hc|Hc]|].
  - left. exact Hc.
  - right. left. apply N.eqb_eq. exact Hc.
  - right. right. apply N.eqb_eq. exact Hc.
Qed.

(** C3 (as stated) fails on its second example: the sanitized "Calm & Slow" is
    "CalmSlow", not "Calm__Slow". *)
Lemma safe_name_calm_and_slow :
  _safe_name Sample.lib (lit "Calm & Slow") = lit "CalmSlow" /\
  _safe_name Sample.lib (lit "Calm & Slow") <> lit "Calm__Slow".
Proof. split; [reflexivity | discriminate]. Qed.

(** ** Worlds: projections and step equations *)

Lemma w_fs_with_fs w fs : w_fs (with_fs w fs) = fs.
Proof. reflexivity. Qed.

Lemma w_tick_with_fs w fs : w_tick (with_fs w fs) = w_tick w.
Proof. reflexivity. Qed.

Lemma w_stdin_with_fs w fs : w_stdin (with_fs w fs) = w_stdin w.
Proof. reflexivity. Qed.

Lemma w_session_with_fs w fs : w_session (with_fs w fs) = w_session w.
Proof. reflexivity. Qed.

Lemma w_log_with_fs w fs : w_log (with_fs w fs) = w_log w.
Proof. reflexivity. Qed.

Lemma w_fs_with_tick w t : w_fs (with_tick w t) = w_fs w.
Proof. reflexivity. Qed.

Lemma w_tick_with_tick w t : w_tick (with_tick w t) = t.
Proof. reflexivity. Qed.

Lemma w_stdin_with_tick w t : w_stdin (with_tick w t) = w_stdin w.
Proof. reflexivity. Qed.

Lemma w_session_with_tick w t : w_session (with_tick w t) = w_session w.
Proof. reflexivity. Qed.

Lemma w_log_with_tick w t : w_log (with_tick w t) = w_log w.
Proof. reflexivity. Qed.

Lemma w_fs_with_stdin w i : w_fs (with_stdin w i) = w_fs w.
Proof. reflexivity. Qed.

Lemma w_tick_with_stdin w i : w_tick (with_stdin w i) = w_tick w.
Proof. reflexivity. Qed.

Lemma w_stdin_with_stdin w i : w_stdin (with_stdin w i) = i.
Proof. reflexivity. Qed.

Lemma w_session_with_stdin w i : w_session (with_stdin w i) = w_session w.
Proof. reflexivity. Qed.

Lemma w_log_with_stdin w i : w_log (with_stdin w i) = w_log w.
Proof. reflexivity. Qed.

Lemma w_fs_with_session w s : w_fs (with_session w s) = w_fs w.
Proof. reflexivity. Qed.

Lemma w_tick_with_session w s : w_tick (with_session w s) = w_tick w.
Proof. reflexivity. Qed.

Lemma w_stdin_with_session w s : w_stdin (with_session w s) = w_stdin w.
Proof. reflexivity. Qed.

Lemma w_session_with_session w s : w_session (with_session w s) = s.
Proof. reflexivity. Qed.

Lemma w_log_with_session w s : w_log (with_session w s) = w_log w.
Proof. reflexivity. Qed.

Lemma w_fs_with_log w l : w_fs (with_log w l) = w_fs w.
Proof. reflexivity. Qed.

Lemma w_tick_with_log w l : w_tick (with_log w l) = w_tick w.
Proof. reflexivity. Qed.

Lemma w_stdin_with_log w l : w_stdin (with_log w l) = w_stdin w.
Proof. reflexivity. Qed.

Lemma w_session_with_log w l : w_session (with_log w l) = w_session w.
Proof. reflexivity. Qed.

Lemma w_log_with_log w l : w_log (with_log w l) = l.
Proof. reflexivity. Qed.

Lemma w_fs_logged w evs : w_fs (logged w evs) = w_fs w.
Proof. reflexivity. Qed.

Lemma w_tick_logged w evs : w_tick (logged w evs) = w_tick w.
Proof. reflexivity. Qed.

Lemma w_stdin_logged w evs : w_stdin (logged w evs) = w_stdin w.
Proof. reflexivity. Qed.

Lemma w_session_logged w evs : w_session (logged w evs) = w_session w.
Proof. reflexivity. Qed.

Lemma w_log_logged w evs : w_log (logged w evs) = w_log w ++ evs.
Proof. reflexivity. Qed.

Create Rewrite HintDb world.
#[export] Hint Rewrite
  w_fs_with_fs w_tick_with_fs w_stdin_with_fs w_session_with_fs
  w_log_with_fs w_fs_with_tick w_tick_with_tick w_stdin_with_tick
  w_session_with_tick w_log_with_tick w_fs_with_stdin w_tick_with_stdin
  w_stdin_with_stdin w_session_with_stdin w_log_with_stdin w_fs_with_session
  w_tick_with_session w_stdin_with_session w_session_with_session w_log_with_session
  w_fs_with_log w_tick_with_log w_stdin_with_log w_session_with_log
  w_log_with_log w_fs_logged w_tick_logged w_stdin_logged
  w_session_logged w_log_logged : world.
Lemma logged_logged w e1 e2 : logged (logged w e1) e2 = logged w (e1 ++ e2).
Proof. unfold logged, with_log. simpl. rewrite <- app_assoc. reflexivity. Qed.

Ltac unfold_monad :=
  unfold print, eprint in *;
  unfold bind, ret, raise, sys_exit, emit, try_except in *.

Lemma bind_run {A B} (m : M A) (k : A -> M B) w r w1 :
  m w = (r, w1) ->
  bind m k w = match r with
               | Ret a => k a w1
               | Raise e => (Raise e, w1)
               | Exit c => (Exit c, w1)
               end.
Proof. intros H. unfold bind. rewrite H. destruct r; reflexivity. Qed.

Lemma now_run E w : now E w = (Ret (clock E (w_tick w)), with_tick w (S (w_tick w))).
Proof. reflexivity. Qed.

Lemma write_file_run key d w :
  write_file key d w = (Ret tt, logged (with_fs w (<[key := d]> (w_fs w))) [EvWrite key]).
Proof. reflexivity. Qed.

Lemma emit_run ev w : emit ev w = (Ret tt, logged w [ev]).
Proof. reflexivity. Qed.

Lemma ensure_outputs_dir_run w : Core.ensure_outputs_dir w = (Ret (lit "outputs"), w).
Proof. reflexivity. Qed.

Lemma set_last_meta_run m w :
  App.set_last_meta m w
  = (Ret tt, with_session w {| ss_rewritten := ss_rewritten (w_session w);
                               ss_audio_bytes := ss_audio_bytes (w_session w);
                               ss_audio_mime := ss_audio_mime (w_session w);
                               ss_last_meta := m |}).
Proof. reflexivity. Qed.

Lemma set_audio_run b mime w :
  App.set_audio b mime w
  = (Ret tt, with_session w {| ss_rewritten := ss_rewritten (w_session w);
                               ss_audio_bytes := b;
                               ss_audio_mime := mime;
                               ss_last_meta := ss_last_meta (w_session w) |}).
Proof. reflexivity. Qed.

Lemma set_rewritten_run r w :
  App.set_rewritten r w
  = (Ret tt, with_session w {| ss_rewritten := r;
                               ss_audio_bytes := ss_audio_bytes (w_session w);
                               ss_audio_mime := ss_audio_mime (w_session w);
                               ss_last_meta := ss_last_meta (w_session w) |}).
Proof. reflexivity. Qed.

Ltac run_with lem := erewrite bind_run by (apply lem); cbv beta iota.

(** ** Computations that leave the file system alone *)

Lemma fs_pres_ret {A} (a : A) : fs_pres (ret a).
Proof. intros w. reflexivity. Qed.

Lemma fs_pres_raise {A} e : fs_pres (@raise A e).
Proof. intros w. reflexivity. Qed.

Lemma fs_pres_sys_exit {A} c : fs_pres (@sys_exit A c).
Proof. intros w. reflexivity. Qed.

Lemma fs_pres_emit ev : fs_pres (emit ev).
Proof. intros w. reflexivity. Qed.

Lemma fs_pres_bind {A B} (m : M A) (k : A -> M B) :
  fs_pres m -> (forall a, fs_pres (k a)) -> fs_pres (bind m k).
Proof.
  intros Hm Hk w. unfold bind. specialize (Hm w).
  destruct (m w) as [[a|e|c] w1]; simpl in *; [|assumption..].
  rewrite Hk. assumption.
Qed.

Lemma fs_pres_try_except {A} (m : M A) (h : Exn -> M A) :
  fs_pres m -> (forall e, fs_pres (h e)) -> fs_pres (try_except m h).
Proof.
  intros Hm Hh w. unfold try_except. specialize (Hm w).
  destruct (m w) as [[a|e|c] w1]; simpl in *; [assumption| |assumption].
  rewrite Hh. assumption.
Qed.

Lemma fs_pres_readline : fs_pres readline.
Proof. intros w. unfold readline. destruct (w_stdin w); reflexivity. Qed.

Lemma fs_pres_file_exists key : fs_pres (file_exists key).
Proof. intros w. reflexivity. Qed.

Lemma fs_pres_get_fs : fs_pres get_fs.
Proof. intros w. reflexivity. Qed.

Lemma fs_pres_read_bytes key : fs_pres (read_bytes key).
Proof. intros w. unfold read_bytes. destruct (w_fs w !! key); reflexivity. Qed.

Lemma fs_pres_read_text L key : fs_pres (read_text L key).
Proof.
  intros w. unfold read_text.
  destruct (w_fs w !! key) as [[s|b]|]; try reflexivity.
  destruct (utf8_decode L b); reflexivity.
Qed.

Lemma fs_pres_now E : fs_pres (now E).
Proof. intros w. reflexivity. Qed.

Lemma fs_pres_session_get : fs_pres get_session.
Proof. intros w. reflexivity. Qed.

Lemma fs_pres_session_put s : fs_pres (put_session s).
Proof. intros w. reflexivity. Qed.

Create HintDb fs_pres.
#[export] Hint Resolve fs_pres_ret fs_pres_raise fs_pres_sys_exit fs_pres_emit
  fs_pres_readline fs_pres_file_exists fs_pres_get_fs fs_pres_read_bytes
  fs_pres_read_text fs_pres_now fs_pres_session_get fs_pres_session_put : fs_pres.

Ltac fs_pres_step :=
  first [ apply fs_pres_bind; [|intros ?]
        | apply fs_pres_try_except; [|intros ?]
        | progress (unfold print, eprint)
        | solve [auto with fs_pres] ].

(** ** Which exit statuses a computation can produce *)

Lemma exits_in_ret {A} codes (a : A) : exits_in codes (ret a).
Proof. intros w c w' H. discriminate. Qed.

Lemma exits_in_raise {A} codes e : exits_in codes (@raise A e).
Proof. intros w c w' H. discriminate. Qed.

Lemma exits_in_sys_exit {A} codes c : c ∈ codes -> exits_in codes (@sys_exit A c).
Proof. intros Hc w c' w' [= <- _]. exact Hc. Qed.

Lemma exits_in_emit codes ev : exits_in codes (emit ev).
Proof. intros w c w' H. discriminate. Qed.

Lemma exits_in_bind {A B} codes (m : M A) (k : A -> M B) :
  exits_in codes m -> (forall a, exits_in codes (k a)) -> exits_in codes (bind m k).
Proof.
  intros Hm Hk w c w'. unfold bind.
  destruct (m w) as [[a|e|c0] w1] eqn:Hmw.
  - apply Hk.
  - discriminate.
  - intros [= <- <-]. eapply Hm, Hmw.
Qed.

Lemma exits_in_try_except {A} codes (m : M A) (h : Exn -> M A) :
  exits_in codes m -> (forall e, exits_in codes (h e)) -> exits_in codes (try_except m h).
Proof.
  intros Hm Hh w c w'. unfold try_except.
  destruct (m w) as [[a|e|c0] w1] eqn:Hmw.
  - discriminate.
  - apply Hh.
  - intros [= <- <-]. eapply Hm, Hmw.
Qed.

Lemma exits_in_readline codes : exits_in codes readline.
Proof. intros w c w'. unfold readline. destruct (w_stdin w); discriminate. Qed.

Lemma exits_in_file_exists codes key : exits_in codes (file_exists key).
Proof. intros w c w' H. discriminate. Qed.

Lemma exits_in_get_fs codes : exits_in codes get_fs.
Proof. intros w c w' H. discriminate. Qed.

Lemma exits_in_read_text codes L key : exits_in codes (read_text L key).
Proof.
  intros w c w'. unfold read_text.
  destruct (w_fs w !! key) as [[s|b]|]; try discriminate.
  destruct (utf8_decode L b); discriminate.
Qed.

Lemma exits_in_now codes E : exits_in codes (now E).
Proof. intros w c w' H. discriminate. Qed.

Lemma exits_in_write_file codes key d : exits_in codes (write_file key d).
Proof. intros w c w' H. discriminate. Qed.

Create HintDb exits.
#[export] Hint Resolve exits_in_ret exits_in_raise exits_in_emit exits_in_readline
  exits_in_file_exists exits_in_get_fs exits_in_read_text exits_in_now
  exits_in_write_file : exits.

Ltac exits_step :=
  first [ apply exits_in_bind; [|intros ?]
        | apply exits_in_try_except; [|intros ?]
        | progress (unfold print, eprint)
        | solve [auto with exits]
        | solve [apply exits_in_sys_exit; set_solver] ].

(** ** Computations that touch named paths only *)

Lemma fs_pres_frame {A} keys (m : M A) : fs_pres m -> fs_frame keys m.
Proof. intros H w k _. rewrite H. reflexivity. Qed.

Lemma fs_frame_bind {A B} keys (m : M A) (k : A -> M B) :
  fs_frame keys m -> (forall a, fs_frame keys (k a)) -> fs_frame keys (bind m k).
Proof.
  intros Hm Hk w key Hkey. unfold bind. specialize (Hm w key Hkey).
  destruct (m w) as [[a|e|c] w1]; simpl in *; [|assumption..].
  rewrite (Hk a w1 key Hkey). assumption.
Qed.

Lemma fs_frame_try_except {A} keys (m : M A) (h : Exn -> M A) :
  fs_frame keys m -> (forall e, fs_frame keys (h e)) -> fs_frame keys (try_except m h).
Proof.
  intros Hm Hh w key Hkey. unfold try_except. specialize (Hm w key Hkey).
  destruct (m w) as [[a|e|c] w1]; simpl in *; [assumption| |assumption].
  rewrite (Hh e w1 key Hkey). assumption.
Qed.

Lemma fs_frame_write_file keys key d : key ∈ keys -> fs_frame keys (write_file key d).
Proof.
  intros Hin w k Hk. unfold write_file. simpl.
  apply lookup_insert_ne. intros ->. contradiction.
Qed.

Lemma fs_frame_unlink keys key : key ∈ keys -> fs_frame keys (unlink_missing_ok key).
Proof.
  intros Hin w k Hk. unfold unlink_missing_ok. simpl.
  apply lookup_delete_ne. intros ->. contradiction.
Qed.

Lemma fs_frame_leave_output keys p o :
  path_str p ∈ keys -> fs_frame keys (Terminal.leave_output p o).
Proof.
  intros Hin. destruct o; simpl.
  - apply fs_frame_write_file, Hin.
  - apply fs_pres_frame, fs_pres_ret.
Qed.

Ltac fs_frame_step :=
  first [ apply fs_frame_bind; [|intros ?]
        | apply fs_frame_try_except; [|intros ?]
        | apply fs_frame_write_file
        | apply fs_frame_unlink
        | apply fs_frame_leave_output
        | progress (unfold print, eprint)
        | solve [apply fs_pres_frame; auto with fs_pres] ].

(** ** The rewrite client *)

Section RewriteClient.
Variable L : PyLib.
Variable E : Env.

(** A successful call went through the model check and a 200 reply with a
    ["response"] field, and returns that field stripped. *)
Lemma rewrite_with_ret ensure text tone model base_url temperature max_tokens w s w' :
  rewrite_with L E ensure text tone model base_url temperature max_tokens w = (Ret s, w') ->
  exists w1 body data resp,
    ensure model base_url (logged w [EvRewriteCall text tone model]) = (Ret tt, w1) /\
    http_post_generate E (generate_request text tone model base_url temperature max_tokens)
      = HttpReply 200 body (Some data) /\
    gd_response data = Some resp /\
    s = strip resp /\
    w' = logged w1 [EvHttpPost (generate_url base_url)].
Proof.
  unfold rewrite_with. unfold_monad.
  destruct (ensure model base_url _) as [[[]|e|c] w1] eqn:Hens; try discriminate.
  destruct (http_post_generate E _) as [cause|status body [data|]] eqn:Hpost;
    try discriminate.
  - destruct (status =? 200)%Z eqn:Hst; simpl.
    + destruct (gd_response data) as [resp|] eqn:Hresp; [|discriminate].
      intros [= <- <-]. apply Z.eqb_eq in Hst. subst status.
      exists w1, body, data, resp. auto.
    + destruct (_ && _)%bool; discriminate.
  - destruct (status =? 200)%Z; simpl; [discriminate|].
    destruct (_ && _)%bool; discriminate.
Qed.

(** The same reply makes the call succeed. *)
Lemma rewrite_with_ok ensure text tone model base_url temperature max_tokens w w1 body data resp :
  ensure model base_url (logged w [EvRewriteCall text tone model]) = (Ret tt, w1) ->
  http_post_generate E (generate_request text tone model base_url temperature max_tokens)
    = HttpReply 200 body (Some data) ->
  gd_response data = Some resp ->
  rewrite_with L E ensure text tone model base_url temperature max_tokens w
    = (Ret (strip resp), logged w1 [EvHttpPost (generate_url base_url)]).
Proof.
  intros Hens Hpost Hresp.
  unfold rewrite_with. unfold_monad.
  rewrite Hens, Hpost. simpl. rewrite Hresp. reflexivity.
Qed.

End RewriteClient.

(** C9. A successful call of the rewrite client (either copy) returns the
    ["response"] field of the endpoint's reply with leading and trailing white
    space removed: the returned text neither starts nor ends with a white-space
    character. *)
Theorem rewrite_returns_stripped_response
    (L : PyLib) (E : Env) (text tone model base_url : pystr)
    (temperature : Q) (max_tokens : Z) (w w' : World) (s : pystr) :
  Core.rewrite_with_ollama L E text tone model base_url temperature max_tokens w
    = (Ret s, w') \/
  Terminal.rewrite_with_ollama L E text tone model base_url temperature max_tokens w
    = (Ret s, w') ->
  exists body data resp,
    http_post_generate E (generate_request text tone model base_url temperature max_tokens)
      = HttpReply 200 body (Some data) /\
    gd_response data = Some resp /\
    s = strip resp /\
    (forall c, head s = Some c -> isspace c = false) /\
    (forall c, last s = Some c -> isspace c = false).
Proof.
  intros H.
  assert (exists w1 body data resp,
    http_post_generate E (generate_request text tone model base_url temperature max_tokens)
      = HttpReply 200 body (Some data) /\
    gd_response data = Some resp /\ s = strip resp /\ w1 = w') as (w1 & body & data & resp & Hp & Hr & Hs & _).
  { destruct H as [H|H]; apply rewrite_with_ret in H;
      destruct H as (w1 & body & data & resp & _ & Hp & Hr & Hs & _);
      exists w', body, data, resp; auto. }
  exists body, data, resp. repeat split; try assumption.
  - intros c Hc. subst s. eapply strip_by_head, Hc.
  - intros c Hc. subst s. eapply strip_by_last, Hc.
Qed.

(** C9, at a concrete run: the endpoint answers "  Hello there. " and the
    client returns "Hello there.". *)
Lemma rewrite_returns_stripped_response_witness :
  exists body data resp,
    http_post_generate Sample.env_ok
      (generate_request (lit "Hi.") (lit "Calm") (lit "gemma3:4b")
         (lit "http://localhost:11434") (7 # 10) 512)
      = HttpReply 200 body (Some data) /\
    gd_response data = Some resp /\
    lit "Hello there." = strip resp /\
    (forall c, head (lit "Hello there.") = Some c -> isspace c = false) /\
    (forall c, last (lit "Hello there.") = Some c -> isspace c = false).
Proof.
  apply (rewrite_returns_stripped_response Sample.lib Sample.env_ok
           (lit "Hi.") (lit "Calm") (lit "gemma3:4b") (lit "http://localhost:11434")
           (7 # 10) 512 Sample.empty_world
           (snd (Core.rewrite_with_ollama Sample.lib Sample.env_ok
                   (lit "Hi.") (lit "Calm") (lit "gemma3:4b")
                   (lit "http://localhost:11434") (7 # 10) 512 Sample.empty_world))).
  left. vm_compute. reflexivity.
Defined.

(** ** The model check *)

Section ModelCheck.
Variable L : PyLib.
Variable E : Env.

Lemma core_ollama_models_run base_url :
  exists models, forall w,
    Core._ollama_models E base_url w = (Ret models, logged w [EvHttpGet (tags_url base_url)]).
Proof.
  unfold Core._ollama_models. unfold_monad.
  destruct (http_get_tags E (tags_url base_url)) as [cause|status body [data|]].
  - exists []. reflexivity.
  - destruct (negb (status =? 200)%Z); eexists; reflexivity.
  - destruct (negb (status =? 200)%Z); eexists; reflexivity.
Qed.

Lemma terminal_ollama_models_run base_url :
  exists models, forall w,
    Terminal.ollama_models E base_url w
      = (Ret models, logged w [EvHttpGet (tags_url base_url)]).
Proof.
  unfold Terminal.ollama_models. unfold_monad.
  destruct (http_get_tags E (tags_url base_url)) as [cause|status body [data|]].
  - exists []. reflexivity.
  - destruct (negb (status =? 200)%Z); eexists; reflexivity.
  - destruct (negb (status =? 200)%Z); eexists; reflexivity.
Qed.

Lemma core_ollama_models_netfail base_url cause w :
  http_get_tags E (tags_url base_url) = NetFail cause ->
  Core._ollama_models E base_url w = (Ret [], logged w [EvHttpGet (tags_url base_url)]).
Proof. intros H. unfold Core._ollama_models. unfold_monad. rewrite H. reflexivity. Qed.

Lemma terminal_ollama_models_netfail base_url cause w :
  http_get_tags E (tags_url base_url) = NetFail cause ->
  Terminal.ollama_models E base_url w = (Ret [], logged w [EvHttpGet (tags_url base_url)]).
Proof. intros H. unfold Terminal.ollama_models. unfold_monad. rewrite H. reflexivity. Qed.

Lemma core_ensure_run model base_url w0 w models :
  fst (Core._ollama_models E base_url w0) = Ret models ->
  Core.ensure_model_present E model base_url w
  = (if bool_decide (model ∈ models) then Ret tt
     else Raise (RuntimeError (Core.not_found_msg model base_url models)),
     logged w [EvHttpGet (tags_url base_url)]).
Proof.
  intros H. destruct (core_ollama_models_run base_url) as [ms Hms].
  rewrite Hms in H. simpl in H. injection H as ->.
  unfold Core.ensure_model_present, bind. rewrite Hms.
  destruct (bool_decide (model ∈ models)); reflexivity.
Qed.

Lemma terminal_ensure_run model base_url w0 w models :
  fst (Terminal.ollama_models E base_url w0) = Ret models ->
  Terminal.ensure_model_present E model base_url w
  = (if bool_decide (model ∈ models) then Ret tt
     else Raise (RuntimeError (Terminal.not_found_msg model base_url models)),
     logged w [EvHttpGet (tags_url base_url)]).
Proof.
  intros H. destruct (terminal_ollama_models_run base_url) as [ms Hms].
  rewrite Hms in H. simpl in H. injection H as ->.
  unfold Terminal.ensure_model_present, bind. rewrite Hms.
  destruct (bool_decide (model ∈ models)); reflexivity.
Qed.

(** When the model check raises, the generation call is not made. *)
Lemma rewrite_with_ensure_raise ensure text tone model base_url temperature max_tokens w e w1 :
  ensure model base_url (logged w [EvRewriteCall text tone model]) = (Raise e, w1) ->
  rewrite_with L E ensure text tone model base_url temperature max_tokens w = (Raise e, w1).
Proof. intros H. unfold rewrite_with. unfold_monad. rewrite H. reflexivity. Qed.

(** When the model check passes and the POST fails at the network level, the
    client raises the "Failed to reach" error with the cause. *)
Lemma rewrite_with_post_netfail ensure text tone model base_url temperature max_tokens w w1 cause :
  ensure model base_url (logged w [EvRewriteCall text tone model]) = (Ret tt, w1) ->
  http_post_generate E (generate_request text tone model base_url temperature max_tokens)
    = NetFail cause ->
  rewrite_with L E ensure text tone model base_url temperature max_tokens w
  = (Raise (RuntimeError (failed_to_reach_msg base_url cause)),
     logged w1 [EvHttpPost (generate_url base_url)]).
Proof.
  intros H1 H2. unfold rewrite_with. unfold_monad. rewrite H1, H2. reflexivity.
Qed.

(** The rewrite client never touches the file system. *)
Lemma core_rewrite_fs text tone model base_url temperature max_tokens w :
  w_fs (snd (Core.rewrite_with_ollama L E text tone model base_url temperature max_tokens w))
  = w_fs w.
Proof.
  unfold Core.rewrite_with_ollama, rewrite_with. unfold_monad.
  destruct (core_ollama_models_run base_url) as [ms Hms].
  rewrite (core_ensure_run model base_url w _ ms) by (rewrite Hms; reflexivity).
  destruct (bool_decide (model ∈ ms)); [|reflexivity].
  destruct (http_post_generate E _) as [cause|status body [data|]]; simpl; try reflexivity.
  - destruct (status =? 200)%Z; simpl.
    + destruct (gd_response data); reflexivity.
    + destruct (_ && _)%bool; reflexivity.
  - destruct (status =? 200)%Z; simpl; [reflexivity|].
    destruct (_ && _)%bool; reflexivity.
Qed.

Lemma terminal_rewrite_fs text tone model base_url temperature max_tokens w :
  w_fs (snd (Terminal.rewrite_with_ollama L E text tone model base_url temperature
               max_tokens w))
  = w_fs w.
Proof.
  unfold Terminal.rewrite_with_ollama, rewrite_with. unfold_monad.
  destruct (terminal_ollama_models_run base_url) as [ms Hms].
  rewrite (terminal_ensure_run model base_url w _ ms) by (rewrite Hms; reflexivity).
  destruct (bool_decide (model ∈ ms)); [|reflexivity].
  destruct (http_post_generate E _) as [cause|status body [data|]]; simpl; try reflexivity.
  - destruct (status =? 200)%Z; simpl.
    + destruct (gd_response data); reflexivity.
    + destruct (_ && _)%bool; reflexivity.
  - destruct (status =? 200)%Z; simpl; [reflexivity|].
    destruct (_ && _)%bool; reflexivity.
Qed.

End ModelCheck.

(** The error message names the model and ends with the list of installed
    models. *)
Lemma core_not_found_msg_shape model base_url models :
  (exists pre post, Core.not_found_msg model base_url models = pre ++ model ++ post) /\
  (exists pre, Core.not_found_msg model base_url models = pre ++ installed_text models).
Proof.
  unfold Core.not_found_msg. split.
  - eexists _, _. reflexivity.
  - eexists. rewrite !app_assoc. reflexivity.
Qed.

Lemma terminal_not_found_msg_shape model base_url models :
  (exists pre post, Terminal.not_found_msg model base_url models = pre ++ model ++ post) /\
  (exists pre, Terminal.not_found_msg model base_url models = pre ++ installed_text models).
Proof.
  unfold Terminal.not_found_msg. split.
  - eexists _, _. reflexivity.
  - eexists. rewrite !app_assoc. reflexivity.
Qed.

(** [sep.join] puts the separator before every part but the first. *)
Lemma join_cons_concat sep p rest :
  join sep (p :: rest) = p ++ concat (map (fun x => sep ++ x) rest).
Proof.
  revert p. induction rest as [|q rest IH]; intros p.
  - simpl. rewrite app_nil_r. reflexivity.
  - change (join sep (p :: q :: rest)) with (p ++ sep ++ join sep (q :: rest)).
    rewrite IH. simpl. rewrite <- !app_assoc. reflexivity.
Qed.

(** Every part occurs in the joined text. *)
Lemma join_member sep parts m :
  m ∈ parts -> exists pre post, join sep parts = pre ++ m ++ post.
Proof.
  induction parts as [|p rest IH]; intros Hin; [inversion Hin|].
  apply elem_of_cons in Hin as [->|Hin].
  - exists [], (concat (map (fun x => sep ++ x) rest)). apply join_cons_concat.
  - destruct (IH Hin) as (pre & post & Heq).
    destruct rest as [|q rest]; [inversion Hin|].
    exists (p ++ sep ++ pre), post.
    change (join sep (p :: q :: rest)) with (p ++ sep ++ join sep (q :: rest)).
    rewrite Heq, <- !app_assoc. reflexivity.
Qed.

(** The text that stands for the installed models: the names in the order of
    the list, separated by a comma and a space, or "(none detected)". *)
Lemma installed_text_listing models :
  installed_text models
  = match models with
    | [] => lit "(none detected)"
    | m :: ms => m ++ concat (map (fun x => lit ", " ++ x) ms)
    end.
Proof.
  destruct models as [|m ms]; [reflexivity|].
  unfold installed_text. cbn [is_nil]. apply join_cons_concat.
Qed.

Lemma installed_text_member models m :
  m ∈ models -> exists pre post, installed_text models = pre ++ m ++ post.
Proof.
  intros Hin. destruct models as [|p rest]; [inversion Hin|].
  unfold installed_text. cbn [is_nil]. apply join_member, Hin.
Qed.

(** The message shows every installed name, in the order of the list. *)
Lemma core_not_found_msg_listing model base_url models :
  (forall m, m ∈ models ->
             exists pre post, Core.not_found_msg model base_url models = pre ++ m ++ post) /\
  (exists pre,
      Core.not_found_msg model base_url models
      = pre ++ lit "Installed models: "
        ++ match models with
           | [] => lit "(none detected)"
           | m :: ms => m ++ concat (map (fun x => lit ", " ++ x) ms)
           end).
Proof.
  split.
  - intros m Hin. destruct (installed_text_member models m Hin) as (pre & post & Heq).
    unfold Core.not_found_msg. rewrite Heq.
    eexists _, post. rewrite !app_assoc. reflexivity.
  - unfold Core.not_found_msg. rewrite installed_text_listing.
    eexists. rewrite !app_assoc. reflexivity.
Qed.

Lemma terminal_not_found_msg_listing model base_url models :
  (forall m, m ∈ models ->
             exists pre post,
               Terminal.not_found_msg model base_url models = pre ++ m ++ post) /\
  (exists pre,
      Terminal.not_found_msg model base_url models
      = pre ++ lit "Installed models I can see: "
        ++ match models with
           | [] => lit "(none detected)"
           | m :: ms => m ++ concat (map (fun x => lit ", " ++ x) ms)
           end).
Proof.
  split.
  - intros m Hin. destruct (installed_text_member models m Hin) as (pre & post & Heq).
    unfold Terminal.not_found_msg. rewrite Heq.
    eexists _, post. rewrite !app_assoc. reflexivity.
  - unfold Terminal.not_found_msg. rewrite installed_text_listing.
    eexists. rewrite !app_assoc. reflexivity.
Qed.

(** C5. When the requested model is not in the list that the model check
    obtains from the endpoint, the rewrite client (either copy) raises the
    "model not found" error; its message names the model and ends with the
    list of the installed models: every installed name occurs in it, and its
    last part is the names in the order of the list, separated by a comma and
    a space, or "(none detected)" when the list is empty. The only events of
    the call are its entry and the GET of the model list, so no generation
    request is posted. *)
Theorem model_absent_fails_before_generate
    (L : PyLib) (E : Env) (text tone model base_url : pystr)
    (temperature : Q) (max_tokens : Z) (w : World) (models : list pystr) :
  (fst (Core._ollama_models E base_url w) = Ret models ->
   model ∉ models ->
   Core.rewrite_with_ollama L E text tone model base_url temperature max_tokens w
   = (Raise (RuntimeError (Core.not_found_msg model base_url models)),
      logged w [EvRewriteCall text tone model; EvHttpGet (tags_url base_url)]) /\
   (exists pre post, Core.not_found_msg model base_url models = pre ++ model ++ post) /\
   (exists pre, Core.not_found_msg model base_url models = pre ++ installed_text models) /\
   (forall m, m ∈ models ->
              exists pre post, Core.not_found_msg model base_url models = pre ++ m ++ post) /\
   (exists pre,
       Core.not_found_msg model base_url models
       = pre ++ lit "Installed models: "
         ++ match models with
            | [] => lit "(none detected)"
            | m :: ms => m ++ concat (map (fun x => lit ", " ++ x) ms)
            end))
  /\
  (fst (Terminal.ollama_models E base_url w) = Ret models ->
   model ∉ models ->
   Terminal.rewrite_with_ollama L E text tone model base_url temperature max_tokens w
   = (Raise (RuntimeError (Terminal.not_found_msg model base_url models)),
      logged w [EvRewriteCall text tone model; EvHttpGet (tags_url base_url)]) /\
   (exists pre post, Terminal.not_found_msg model base_url models = pre ++ model ++ post) /\
   (exists pre, Terminal.not_found_msg model base_url models = pre ++ installed_text models) /\
   (forall m, m ∈ models ->
              exists pre post,
                Terminal.not_found_msg model base_url models = pre ++ m ++ post) /\
   (exists pre,
       Terminal.not_found_msg model base_url models
       = pre ++ lit "Installed models I can see: "
         ++ match models with
            | [] => lit "(none detected)"
            | m :: ms => m ++ concat (map (fun x => lit ", " ++ x) ms)
            end))
  /\
  (models <> [] -> installed_text models = join (lit ", ") models).
Proof.
  split; [|split].
  - intros Hm Habs. split.
    { unfold Core.rewrite_with_ollama.
      apply rewrite_with_ensure_raise.
      rewrite (core_ensure_run E model base_url w _ models Hm).
      rewrite bool_decide_eq_false_2 by exact Habs.
      rewrite logged_logged. reflexivity. }
    destruct (core_not_found_msg_shape model base_url models) as [H1 H2].
    destruct (core_not_found_msg_listing model base_url models) as [H3 H4].
    auto.
  - intros Hm Habs. split.
    { unfold Terminal.rewrite_with_ollama.
      apply rewrite_with_ensure_raise.
      rewrite (terminal_ensure_run E model base_url w _ models Hm).
      rewrite bool_decide_eq_false_2 by exact Habs.
      rewrite logged_logged. reflexivity. }
    destruct (terminal_not_found_msg_shape model base_url models) as [H1 H2].
    destruct (terminal_not_found_msg_listing model base_url models) as [H3 H4].
    auto.
  - intros Hne. destruct models; [congruence | reflexivity].
Qed.

(** C5, at a concrete run: "gemma3:4b" is requested from an endpoint that has
    "mistral" and "qwen2.5:7b" installed. *)
Lemma model_absent_fails_before_generate_witness :
  Core.rewrite_with_ollama Sample.lib Sample.env_other_model (lit "Hi.") (lit "Calm")
    (lit "gemma3:4b") (lit "http://localhost:11434") (7 # 10) 512 Sample.empty_world
  = (Raise (RuntimeError
              (lit "Ollama model 'gemma3:4b' not found at http://localhost:11434." ++ nl
               ++ lit "To fix:" ++ nl
               ++ lit "  1) Ensure Ollama is running." ++ nl
               ++ lit "  2) Pull the model:" ++ nl
               ++ lit "     ollama pull gemma3:4b" ++ nl
               ++ lit "Installed models: mistral, qwen2.5:7b")),
     logged Sample.empty_world
       [EvRewriteCall (lit "Hi.") (lit "Calm") (lit "gemma3:4b");
        EvHttpGet (tags_url (lit "http://localhost:11434"))])
  /\
  Terminal.rewrite_with_ollama Sample.lib Sample.env_other_model (lit "Hi.") (lit "Calm")
    (lit "gemma3:4b") (lit "http://localhost:11434") (7 # 10) 512 Sample.empty_world
  = (Raise (RuntimeError
              (lit "Ollama model 'gemma3:4b' not found at http://localhost:11434." ++ nl
               ++ lit "To fix:" ++ nl
               ++ lit "  1) Ensure Ollama is running." ++ nl
               ++ lit "  2) Pull the model:" ++ nl
               ++ lit "     ollama pull gemma3:4b" ++ nl
               ++ lit "  3) Retry this script (or pass --model to use another installed model)."
               ++ nl
               ++ lit "Installed models I can see: mistral, qwen2.5:7b")),
     logged Sample.empty_world
       [EvRewriteCall (lit "Hi.") (lit "Calm") (lit "gemma3:4b");
        EvHttpGet (tags_url (lit "http://localhost:11434"))])
  /\
  (exists pre post,
      Core.not_found_msg (lit "gemma3:4b") (lit "http://localhost:11434")
        [lit "mistral"; lit "qwen2.5:7b"]
      = pre ++ lit "qwen2.5:7b" ++ post).
Proof.
  destruct (model_absent_fails_before_generate Sample.lib Sample.env_other_model
              (lit "Hi.") (lit "Calm") (lit "gemma3:4b") (lit "http://localhost:11434")
              (7 # 10) 512 Sample.empty_world [lit "mistral"; lit "qwen2.5:7b"])
    as (Hc & Ht & _).
  assert (Habs : lit "gemma3:4b" ∉ [lit "mistral"; lit "qwen2.5:7b"]).
  { apply (bool_decide_unpack _). vm_compute. exact I. }
  destruct (Hc eq_refl Habs) as (Hrc & _ & _ & Hmem & _).
  destruct (Ht eq_refl Habs) as (Hrt & _).
  split; [|split].
  - rewrite Hrc. reflexivity.
  - rewrite Hrt. reflexivity.
  - apply Hmem. right. left.
Defined.

(** ** The stages of the terminal front-end *)

Section TerminalInput.
Variable L : PyLib.
Variable E : Env.

(** A turn of [input] either raises or consumes one pending line. *)
Lemma input_run prompt w :
  (exists e, Terminal.input prompt w = (Raise e, snd (Terminal.input prompt w))) \/
  (exists s, Terminal.input prompt w = (Ret s, snd (Terminal.input prompt w)) /\
             S (length (w_stdin (snd (Terminal.input prompt w)))) = length (w_stdin w)).
Proof.
  unfold Terminal.input, bind. rewrite emit_run. cbv beta iota.
  unfold readline. rewrite w_stdin_logged.
  destruct (w_stdin w) as [|l rest]; cbv beta iota.
  - left. eexists. reflexivity.
  - destruct l as [|c l']; cbn [is_nil].
    + left. eexists. reflexivity.
    + right. eexists. split; reflexivity.
Qed.

(** The loop of [pick_tone_interactive] does not depend on its fuel, once
    there is more of it than pending input: the fuel never runs out. *)
Lemma pick_loop_fuel fuel1 fuel2 tones w :
  (length (w_stdin w) < fuel1)%nat -> (length (w_stdin w) < fuel2)%nat ->
  Terminal.pick_loop L fuel1 tones w = Terminal.pick_loop L fuel2 tones w.
Proof.
  revert fuel2 w. induction fuel1 as [|f1 IH]; intros [|f2] w H1 H2; try lia.
  cbn [Terminal.pick_loop].
  destruct (input_run (nl ++ lit "Enter number: ") w) as [[e He]|[s [Hs Hlen]]].
  - rewrite !(bind_run _ _ _ _ _ He). reflexivity.
  - rewrite !(bind_run _ _ _ _ _ Hs). cbv beta iota.
    destruct (py_int L (strip s)) as [sel|].
    + destruct (sel =? 0)%Z; [reflexivity|].
      destruct (_ && _)%bool; [reflexivity|].
      unfold print. rewrite !(bind_run _ _ _ _ _ (emit_run _ _)). cbv beta iota.
      apply IH; rewrite w_stdin_logged; lia.
    + unfold print. rewrite !(bind_run _ _ _ _ _ (emit_run _ _)). cbv beta iota.
      apply IH; rewrite w_stdin_logged; lia.
Qed.

Lemma fs_pres_input prompt : fs_pres (Terminal.input prompt).
Proof.
  unfold Terminal.input. repeat fs_pres_step.
  destruct (is_nil _); auto with fs_pres.
Qed.

Lemma fs_pres_print_tones i tones : fs_pres (Terminal.print_tones i tones).
Proof.
  revert i. induction tones as [|t r IH]; intros i; simpl.
  - auto with fs_pres.
  - repeat fs_pres_step; try apply IH.
Qed.

Lemma fs_pres_pick_loop fuel tones : fs_pres (Terminal.pick_loop L fuel tones).
Proof.
  induction fuel as [|f IH]; simpl.
  - auto with fs_pres.
  - apply fs_pres_bind; [apply fs_pres_input|]. intros s.
    destruct (py_int L (strip s)) as [sel|].
    + destruct (sel =? 0)%Z.
      * apply fs_pres_bind; [apply fs_pres_input|]. intros c. auto with fs_pres.
      * destruct (_ && _)%bool.
        -- destruct (_ !! _); auto with fs_pres.
        -- repeat fs_pres_step; try exact IH.
    + repeat fs_pres_step; try exact IH.
Qed.

Lemma fs_pres_pick_tone_interactive tones :
  fs_pres (Terminal.pick_tone_interactive L tones).
Proof.
  unfold Terminal.pick_tone_interactive.
  apply fs_pres_bind; [unfold print; auto with fs_pres|]. intros _.
  apply fs_pres_bind; [apply fs_pres_print_tones|]. intros _.
  apply fs_pres_bind; [unfold print; auto with fs_pres|]. intros _.
  intros w. apply fs_pres_pick_loop.
Qed.

Lemma fs_pres_read_text_interactive : fs_pres Terminal.read_text_interactive.
Proof.
  unfold Terminal.read_text_interactive.
  apply fs_pres_bind; [unfold print; auto with fs_pres|]. intros _.
  intros w. destruct (Terminal.read_lines (w_stdin w) []). reflexivity.
Qed.

Lemma fs_pres_main_gather_text args : fs_pres (Terminal.main_gather_text L args).
Proof.
  unfold Terminal.main_gather_text.
  apply fs_pres_bind.
  - destruct (Terminal.truthy _) as [src|]; [|apply fs_pres_read_text_interactive].
    apply fs_pres_bind; [auto with fs_pres|]. intros present.
    destruct (negb present); repeat fs_pres_step.
  - intros t. destruct (is_nil t); repeat fs_pres_step.
Qed.

Lemma fs_pres_main_pick_tone args : fs_pres (Terminal.main_pick_tone L args).
Proof.
  unfold Terminal.main_pick_tone.
  destruct (Terminal.truthy _); [auto with fs_pres|].
  apply fs_pres_pick_tone_interactive.
Qed.

End TerminalInput.

Lemma last_app_some {A} (l1 l2 : list A) c : last l2 = Some c -> last (l1 ++ l2) = Some c.
Proof. intros H. rewrite last_app, H. reflexivity. Qed.

Lemma last_rewritten_name safe ts : last (path_str (out_file (rewritten_name safe ts))) = Some 116.
Proof.
  unfold path_str, out_file, rewritten_name. cbn [p_dir p_name].
  repeat apply last_app_some. reflexivity.
Qed.

Lemma last_audio_name prefix safe ts :
  last (path_str (out_file (audio_name prefix safe ts))) = Some 51.
Proof.
  unfold path_str, out_file, audio_name. cbn [p_dir p_name].
  repeat apply last_app_some. reflexivity.
Qed.

Lemma last_meta_name safe ts : last (path_str (out_file (meta_name safe ts))) = Some 110.
Proof.
  unfold path_str, out_file, meta_name. cbn [p_dir p_name].
  repeat apply last_app_some. reflexivity.
Qed.

Lemma last_wav_sibling p : last (path_str (path_sibling p (lit ".wav"))) = Some 118.
Proof.
  unfold path_str, path_sibling. cbn [p_dir p_name].
  repeat apply last_app_some. reflexivity.
Qed.

Lemma paths_differ_by_last (a b : pystr) x y :
  last a = Some x -> last b = Some y -> x <> y -> a <> b.
Proof. intros Ha Hb Hne ->. congruence. Qed.

Section Persist.
Variable L : PyLib.
Variable E : Env.

Lemma save_text_run text tone w :
  save_text L E text tone w
  = (Ret (out_file (rewritten_name (_safe_name L tone) (strftime (clock E (w_tick w))))),
     logged (with_fs (with_tick w (S (w_tick w)))
               (<[path_str (out_file (rewritten_name (_safe_name L tone)
                                        (strftime (clock E (w_tick w))))) := FText text]>
                  (w_fs w)))
            [EvWrite (path_str (out_file (rewritten_name (_safe_name L tone)
                                            (strftime (clock E (w_tick w))))))]).
Proof. reflexivity. Qed.

Lemma main_save_text_run args rewritten tone w :
  exists w4,
    Terminal.main_save_text L E args rewritten tone w
    = (Ret (out_file (audio_name (Terminal.a_out_prefix args) (_safe_name L tone)
                        (strftime (clock E (S (w_tick w)))))), w4) /\
    w_fs w4 = <[path_str (out_file (rewritten_name (_safe_name L tone)
                                      (strftime (clock E (w_tick w))))) := FText rewritten]>
                (w_fs w).
Proof. eexists. split; reflexivity. Qed.

End Persist.

Section ExitsOfMain.
Variable L : PyLib.
Variable E : Env.

Lemma exits_in_input codes prompt : exits_in codes (Terminal.input prompt).
Proof.
  unfold Terminal.input. repeat exits_step.
  destruct (is_nil _); auto with exits.
Qed.

Lemma exits_in_print_tones codes i tones : exits_in codes (Terminal.print_tones i tones).
Proof.
  revert i. induction tones as [|t r IH]; intros i; simpl.
  - auto with exits.
  - repeat exits_step; try apply IH.
Qed.

Lemma exits_in_pick_loop codes fuel tones : exits_in codes (Terminal.pick_loop L fuel tones).
Proof.
  induction fuel as [|f IH]; simpl.
  - auto with exits.
  - apply exits_in_bind; [apply exits_in_input|]. intros s.
    destruct (py_int L (strip s)) as [sel|].
    + destruct (sel =? 0)%Z.
      * apply exits_in_bind; [apply exits_in_input|]. intros c. auto with exits.
      * destruct (_ && _)%bool.
        -- destruct (_ !! _); auto with exits.
        -- repeat exits_step; try exact IH.
    + repeat exits_step; try exact IH.
Qed.

Lemma exits_in_main_pick_tone args : exits_in [] (Terminal.main_pick_tone L args).
Proof.
  unfold Terminal.main_pick_tone.
  destruct (Terminal.truthy _); [auto with exits|].
  unfold Terminal.pick_tone_interactive.
  apply exits_in_bind; [unfold print; auto with exits|]. intros _.
  apply exits_in_bind; [apply exits_in_print_tones|]. intros _.
  apply exits_in_bind; [unfold print; auto with exits|]. intros _.
  intros w. apply exits_in_pick_loop.
Qed.

Lemma exits_in_main_gather_text args : exits_in [1%Z] (Terminal.main_gather_text L args).
Proof.
  unfold Terminal.main_gather_text.
  apply exits_in_bind.
  - destruct (Terminal.truthy _) as [src|].
    + apply exits_in_bind; [auto with exits|]. intros present.
      destruct (negb present); repeat exits_step.
    + unfold Terminal.read_text_interactive.
      apply exits_in_bind; [unfold print; auto with exits|]. intros _.
      intros w c w'. destruct (Terminal.read_lines _ _). discriminate.
  - intros t. destruct (is_nil t); repeat exits_step.
Qed.

Lemma exits_in_rewrite_with codes ensure text tone model base_url temperature max_tokens :
  (forall m u, exits_in codes (ensure m u)) ->
  exits_in codes (rewrite_with L E ensure text tone model base_url temperature max_tokens).
Proof.
  intros He. unfold rewrite_with.
  exits_step; [exits_step|]. exits_step; [apply He|]. exits_step; [exits_step|].
  destruct (http_post_generate E _) as [cause|status body [data|]]; [auto with exits| |].
  - destruct (negb _).
    + destruct (_ && _)%bool; auto with exits.
    + destruct (gd_response data); auto with exits.
  - destruct (negb _).
    + destruct (_ && _)%bool; auto with exits.
    + auto with exits.
Qed.

Lemma exits_in_terminal_ensure codes model base_url :
  exits_in codes (Terminal.ensure_model_present E model base_url).
Proof.
  intros w c w'.
  destruct (terminal_ollama_models_run E base_url) as [ms Hms].
  rewrite (terminal_ensure_run E model base_url w w ms) by (rewrite Hms; reflexivity).
  destruct (bool_decide _); discriminate.
Qed.

Lemma exits_in_main_rewrite args text tone :
  exits_in [2%Z] (Terminal.main_rewrite L E args text tone).
Proof.
  unfold Terminal.main_rewrite. exits_step; [exits_step; exits_step|].
  apply exits_in_try_except.
  - apply exits_in_rewrite_with. intros m u. apply exits_in_terminal_ensure.
  - intros e. repeat exits_step.
Qed.

Lemma exits_in_main_save_text args rewritten tone :
  exits_in [] (Terminal.main_save_text L E args rewritten tone).
Proof.
  intros w c w'.
  destruct (main_save_text_run L E args rewritten tone w) as (w4 & -> & _).
  discriminate.
Qed.

(** The stages of a run of [main] that gets as far as the synthesis stage:
    its result is neither an exception nor exit status 1 or 2. *)
Lemma terminal_main_stages args w r w' :
  Terminal.main L E args w = (r, w') ->
  (r = Ret tt \/ r = Exit 3%Z) ->
  exists text w1 tone w2 rewritten w3 mp3_path w4,
    Terminal.main_gather_text L args w = (Ret text, w1) /\
    Terminal.main_pick_tone L args w1 = (Ret tone, w2) /\
    Terminal.main_rewrite L E args text tone w2 = (Ret rewritten, w3) /\
    Terminal.main_save_text L E args rewritten tone w3 = (Ret mp3_path, w4) /\
    (Terminal.main_tts E args rewritten mp3_path >> print (nl ++ lit "Done.")) w4 = (r, w').
Proof.
  unfold Terminal.main. intros H Hr.
  destruct (Terminal.main_gather_text L args w) as [[text|e|c] w1] eqn:Hg;
    rewrite (bind_run _ _ _ _ _ Hg) in H; cbv beta iota in H.
  2: { destruct Hr; subst; discriminate. }
  2: { apply exits_in_main_gather_text in Hg. injection H as <- _.
       destruct Hr as [Hr|Hr]; [discriminate|]. injection Hr as ->.
       apply list_elem_of_singleton in Hg. discriminate. }
  destruct (Terminal.main_pick_tone L args w1) as [[tone|e|c] w2] eqn:Hp;
    rewrite (bind_run _ _ _ _ _ Hp) in H; cbv beta iota in H.
  2: { destruct Hr; subst; discriminate. }
  2: { apply exits_in_main_pick_tone in Hp. inversion Hp. }
  destruct (Terminal.main_rewrite L E args text tone w2) as [[rewritten|e|c] w3] eqn:Hrw;
    rewrite (bind_run _ _ _ _ _ Hrw) in H; cbv beta iota in H.
  2: { destruct Hr; subst; discriminate. }
  2: { apply exits_in_main_rewrite in Hrw. injection H as <- _.
       destruct Hr as [Hr|Hr]; [discriminate|]. injection Hr as ->.
       apply list_elem_of_singleton in Hrw. discriminate. }
  destruct (main_save_text_run L E args rewritten tone w3) as (w4 & Hs & _).
  rewrite (bind_run _ _ _ _ _ Hs) in H. cbv beta iota in H.
  eexists text, w1, tone, w2, rewritten, w3, _, w4.
  split; [first [exact Hg | reflexivity]|].
  split; [exact Hp|]. split; [exact Hrw|].
  split; [exact Hs | exact H].
Qed.

End ExitsOfMain.

(** ** A failing rewrite stage in the two front-ends *)

Section RewriteFailure.
Variable L : PyLib.
Variable E : Env.

Lemma core_rewrite_tags_netfail text tone model base_url temperature max_tokens w cause :
  http_get_tags E (tags_url base_url) = NetFail cause ->
  Core.rewrite_with_ollama L E text tone model base_url temperature max_tokens w
  = (Raise (RuntimeError (Core.not_found_msg model base_url [])),
     logged w [EvRewriteCall text tone model; EvHttpGet (tags_url base_url)]).
Proof.
  intros H. apply rewrite_with_ensure_raise.
  rewrite (core_ensure_run E model base_url w _ []).
  - rewrite logged_logged. reflexivity.
  - rewrite (core_ollama_models_netfail E base_url cause w H). reflexivity.
Qed.

Lemma terminal_rewrite_tags_netfail text tone model base_url temperature max_tokens w cause :
  http_get_tags E (tags_url base_url) = NetFail cause ->
  Terminal.rewrite_with_ollama L E text tone model base_url temperature max_tokens w
  = (Raise (RuntimeError (Terminal.not_found_msg model base_url [])),
     logged w [EvRewriteCall text tone model; EvHttpGet (tags_url base_url)]).
Proof.
  intros H. apply rewrite_with_ensure_raise.
  rewrite (terminal_ensure_run E model base_url w _ []).
  - rewrite logged_logged. reflexivity.
  - rewrite (terminal_ollama_models_netfail E base_url cause w H). reflexivity.
Qed.

Lemma core_rewrite_post_netfail text tone model base_url temperature max_tokens w
    models cause :
  fst (Core._ollama_models E base_url w) = Ret models ->
  model ∈ models ->
  http_post_generate E (generate_request text tone model base_url temperature max_tokens)
    = NetFail cause ->
  Core.rewrite_with_ollama L E text tone model base_url temperature max_tokens w
  = (Raise (RuntimeError (failed_to_reach_msg base_url cause)),
     logged w [EvRewriteCall text tone model; EvHttpGet (tags_url base_url);
               EvHttpPost (generate_url base_url)]).
Proof.
  intros Hm Hin Hp. unfold Core.rewrite_with_ollama.
  rewrite (rewrite_with_post_netfail L E _ text tone model base_url temperature max_tokens
             w (logged w [EvRewriteCall text tone model; EvHttpGet (tags_url base_url)])
             cause).
  - rewrite logged_logged. reflexivity.
  - rewrite (core_ensure_run E model base_url w _ models Hm).
    rewrite bool_decide_eq_true_2 by exact Hin.
    rewrite logged_logged. reflexivity.
  - exact Hp.
Qed.

Lemma terminal_rewrite_post_netfail text tone model base_url temperature max_tokens w
    models cause :
  fst (Terminal.ollama_models E base_url w) = Ret models ->
  model ∈ models ->
  http_post_generate E (generate_request text tone model base_url temperature max_tokens)
    = NetFail cause ->
  Terminal.rewrite_with_ollama L E text tone model base_url temperature max_tokens w
  = (Raise (RuntimeError (failed_to_reach_msg base_url cause)),
     logged w [EvRewriteCall text tone model; EvHttpGet (tags_url base_url);
               EvHttpPost (generate_url base_url)]).
Proof.
  intros Hm Hin Hp. unfold Terminal.rewrite_with_ollama.
  rewrite (rewrite_with_post_netfail L E _ text tone model base_url temperature max_tokens
             w (logged w [EvRewriteCall text tone model; EvHttpGet (tags_url base_url)])
             cause).
  - rewrite logged_logged. reflexivity.
  - rewrite (terminal_ensure_run E model base_url w _ models Hm).
    rewrite bool_decide_eq_true_2 by exact Hin.
    rewrite logged_logged. reflexivity.
  - exact Hp.
Qed.

(** The handler runs its [try] block when the button was pressed and the text
    is not blank. *)
Lemma app_generate_nonblank i w :
  App.in_gen i = true -> strip (App.in_text i) <> [] ->
  App.generate L E i w
  = try_except (App.generate_job L E i) (fun e => emit (EvError (exn_str e))) w.
Proof.
  intros Hg Hs. unfold App.generate. rewrite Hg.
  destruct (App.in_text i) as [|c r] eqn:Ht; [exfalso; apply Hs; reflexivity|].
  destruct (strip (c :: r)); [congruence | reflexivity].
Qed.

(** An exception of the rewrite stage is reported by [st.error], and nothing
    else happens. *)
Lemma app_generate_rewrite_raise i w e w1 :
  App.in_gen i = true -> strip (App.in_text i) <> [] ->
  Core.rewrite_with_ollama L E (strip (App.in_text i)) (App.in_tone i) (App.in_model i)
    (App.in_ollama_url i) (App.in_temperature i) (App.in_max_tokens i) w = (Raise e, w1) ->
  App.generate L E i w = (Ret tt, logged w1 [EvError (exn_str e)]).
Proof.
  intros Hg Hs Hr. rewrite app_generate_nonblank by assumption.
  unfold try_except, App.generate_job, bind. rewrite Hr. reflexivity.
Qed.

(** [main] up to the rewrite stage. *)
Lemma terminal_main_upto_rewrite args w text w1 tone w2 :
  Terminal.main_gather_text L args w = (Ret text, w1) ->
  Terminal.main_pick_tone L args w1 = (Ret tone, w2) ->
  w_fs w2 = w_fs w /\
  forall e w3,
    Terminal.rewrite_with_ollama L E text tone (Terminal.a_model args)
      (Terminal.a_ollama_url args) (Terminal.a_temperature args) (Terminal.a_max_tokens args)
      (logged w2 [EvStdout (Terminal.rewriting_line args tone)]) = (Raise e, w3) ->
    Terminal.main L E args w
    = (Exit 2, logged w3 [EvStderr (Terminal.rewrite_failed_line e)]).
Proof.
  intros Hg Hp. split.
  - pose proof (fs_pres_main_gather_text L args w) as H1.
    pose proof (fs_pres_main_pick_tone L args w1) as H2.
    rewrite Hg in H1. rewrite Hp in H2. simpl in *. congruence.
  - intros e w3 Hr.
    unfold Terminal.main, bind. rewrite Hg, Hp.
    unfold Terminal.main_rewrite. unfold_monad. cbv beta iota.
    rewrite Hr. reflexivity.
Qed.

End RewriteFailure.

(** C4 (as amended). When the model-listing call fails at the network level,
    the rewrite stage fails with the "model not found" error (an empty list of
    installed models) and posts no generation request; when the listing
    succeeds with the model installed and the generation call fails at the
    network level, it fails with the "Failed to reach Ollama" error that
    carries the cause. In both cases and both front-ends the job ends there:
    the browser handler reports the error, the terminal front-end exits with
    status 2, and the file system is unchanged. *)
Theorem unreachable_endpoint_failure (L : PyLib) (E : Env) :
  (forall i w cause,
      App.in_gen i = true -> strip (App.in_text i) <> [] ->
      http_get_tags E (tags_url (App.in_ollama_url i)) = NetFail cause ->
      App.generate L E i w
      = (Ret tt,
         logged w [EvRewriteCall (strip (App.in_text i)) (App.in_tone i) (App.in_model i);
                   EvHttpGet (tags_url (App.in_ollama_url i));
                   EvError (Core.not_found_msg (App.in_model i) (App.in_ollama_url i) [])]))
  /\
  (forall i w models cause,
      App.in_gen i = true -> strip (App.in_text i) <> [] ->
      fst (Core._ollama_models E (App.in_ollama_url i) w) = Ret models ->
      App.in_model i ∈ models ->
      http_post_generate E
        (generate_request (strip (App.in_text i)) (App.in_tone i) (App.in_model i)
           (App.in_ollama_url i) (App.in_temperature i) (App.in_max_tokens i))
        = NetFail cause ->
      App.generate L E i w
      = (Ret tt,
         logged w [EvRewriteCall (strip (App.in_text i)) (App.in_tone i) (App.in_model i);
                   EvHttpGet (tags_url (App.in_ollama_url i));
                   EvHttpPost (generate_url (App.in_ollama_url i));
                   EvError (failed_to_reach_msg (App.in_ollama_url i) cause)]))
  /\
  (forall args w text w1 tone w2 cause,
      Terminal.main_gather_text L args w = (Ret text, w1) ->
      Terminal.main_pick_tone L args w1 = (Ret tone, w2) ->
      http_get_tags E (tags_url (Terminal.a_ollama_url args)) = NetFail cause ->
      w_fs w2 = w_fs w /\
      Terminal.main L E args w
      = (Exit 2,
         logged w2 [EvStdout (Terminal.rewriting_line args tone);
                    EvRewriteCall text tone (Terminal.a_model args);
                    EvHttpGet (tags_url (Terminal.a_ollama_url args));
                    EvStderr (Terminal.rewrite_failed_line
                                (RuntimeError (Terminal.not_found_msg (Terminal.a_model args)
                                                 (Terminal.a_ollama_url args) [])))]))
  /\
  (forall args w text w1 tone w2 models cause,
      Terminal.main_gather_text L args w = (Ret text, w1) ->
      Terminal.main_pick_tone L args w1 = (Ret tone, w2) ->
      fst (Terminal.ollama_models E (Terminal.a_ollama_url args) w) = Ret models ->
      Terminal.a_model args ∈ models ->
      http_post_generate E
        (generate_request text tone (Terminal.a_model args) (Terminal.a_ollama_url args)
           (Terminal.a_temperature args) (Terminal.a_max_tokens args))
        = NetFail cause ->
      w_fs w2 = w_fs w /\
      Terminal.main L E args w
      = (Exit 2,
         logged w2 [EvStdout (Terminal.rewriting_line args tone);
                    EvRewriteCall text tone (Terminal.a_model args);
                    EvHttpGet (tags_url (Terminal.a_ollama_url args));
                    EvHttpPost (generate_url (Terminal.a_ollama_url args));
                    EvStderr (Terminal.rewrite_failed_line
                                (RuntimeError (failed_to_reach_msg
                                                 (Terminal.a_ollama_url args) cause)))])).
Proof.
  repeat split.
  - intros i w cause Hg Hs Ht.
    erewrite app_generate_rewrite_raise; [| assumption | assumption |].
    2: { eapply core_rewrite_tags_netfail, Ht. }
    rewrite logged_logged. reflexivity.
  - intros i w models cause Hg Hs Hm Hin Hp.
    erewrite app_generate_rewrite_raise; [| assumption | assumption |].
    2: { eapply core_rewrite_post_netfail; eassumption. }
    rewrite logged_logged. reflexivity.
  - eapply terminal_main_upto_rewrite; eassumption.
  - destruct (terminal_main_upto_rewrite L E args w text w1 tone w2 H H0) as [_ Hmain].
    erewrite Hmain.
    2: { eapply terminal_rewrite_tags_netfail; eassumption. }
    rewrite !logged_logged. reflexivity.
  - eapply terminal_main_upto_rewrite; eassumption.
  - destruct (terminal_main_upto_rewrite L E args w text w1 tone w2 H H0) as [_ Hmain].
    erewrite Hmain.
    2: { destruct (terminal_ollama_models_run E (Terminal.a_ollama_url args)) as [ms Hms].
         eapply terminal_rewrite_post_netfail; [|eassumption|eassumption].
         rewrite Hms in *. simpl in *. eassumption. }
    rewrite !logged_logged. reflexivity.
Qed.

(** C4, at concrete runs: with every HTTP call refused, both front-ends report
    the "model not found" error and leave the (empty) file system as it was. *)
Lemma unreachable_endpoint_failure_witness :
  App.generate Sample.lib Sample.env_unreachable
    (Sample.inputs (lit "Hi.") (lit "Calm")) Sample.empty_world
  = (Ret tt,
     logged Sample.empty_world
       [EvRewriteCall (lit "Hi.") (lit "Calm") (lit "gemma3:4b");
        EvHttpGet (tags_url (lit "http://localhost:11434"));
        EvError (Core.not_found_msg (lit "gemma3:4b") (lit "http://localhost:11434") [])])
  /\
  App.generate Sample.lib Sample.env_generate_unreachable
    (Sample.inputs (lit "Hi.") (lit "Calm")) Sample.empty_world
  = (Ret tt,
     logged Sample.empty_world
       [EvRewriteCall (lit "Hi.") (lit "Calm") (lit "gemma3:4b");
        EvHttpGet (tags_url (lit "http://localhost:11434"));
        EvHttpPost (generate_url (lit "http://localhost:11434"));
        EvError (failed_to_reach_msg (lit "http://localhost:11434") (lit "Read timed out"))]).
Proof.
  split.
  - destruct (unreachable_endpoint_failure Sample.lib Sample.env_unreachable)
      as (Ha & _).
    apply (Ha (Sample.inputs (lit "Hi.") (lit "Calm")) Sample.empty_world
              (lit "Connection refused")).
    + reflexivity.
    + vm_compute. discriminate.
    + reflexivity.
  - destruct (unreachable_endpoint_failure Sample.lib Sample.env_generate_unreachable)
      as (_ & Hb & _).
    apply (Hb (Sample.inputs (lit "Hi.") (lit "Calm")) Sample.empty_world
              [lit "gemma3:4b"] (lit "Read timed out")).
    + reflexivity.
    + vm_compute. discriminate.
    + reflexivity.
    + apply (bool_decide_unpack _). vm_compute. exact I.
    + reflexivity.
Defined.

(** C4 (as stated) fails when the whole endpoint is unreachable: the rewrite
    client raises the "model not found" error, which is not the "Failed to
    reach" error and does not mention the cause of the network failure. *)
Lemma unreachable_endpoint_reports_model_not_found :
  fst (Core.rewrite_with_ollama Sample.lib Sample.env_unreachable (lit "Hi.") (lit "Calm")
         (lit "gemma3:4b") (lit "http://localhost:11434") (7 # 10) 512 Sample.empty_world)
  = Raise (RuntimeError (Core.not_found_msg (lit "gemma3:4b")
                           (lit "http://localhost:11434") [])) /\
  Core.not_found_msg (lit "gemma3:4b") (lit "http://localhost:11434") []
  <> failed_to_reach_msg (lit "http://localhost:11434") (lit "Connection refused") /\
  contains (Core.not_found_msg (lit "gemma3:4b") (lit "http://localhost:11434") [])
           (lit "Connection refused") = false.
Proof. split; [|split]; [reflexivity | discriminate | reflexivity]. Qed.

(** ** Blank input *)

Lemma strip_blank s : blank s -> strip s = [].
Proof. apply strip_by_all. Qed.

Section BlankInput.
Variable L : PyLib.
Variable E : Env.

Lemma app_generate_blank i w :
  App.in_gen i = true -> blank (App.in_text i) ->
  App.generate L E i w = (Ret tt, logged w [EvWarning App.warning_msg]).
Proof.
  intros Hg Hb. unfold App.generate. rewrite Hg.
  rewrite (strip_blank _ Hb). rewrite orb_true_r. reflexivity.
Qed.

Lemma terminal_main_blank_file args w src s :
  Terminal.truthy (Terminal.a_input_file args) = Some src ->
  read_text L src w = (Ret s, w) -> blank s ->
  Terminal.main L E args w = (Exit 1, logged w [EvStderr Terminal.no_input_line]).
Proof.
  intros Hsrc Hread Hb.
  unfold Terminal.main, Terminal.main_gather_text. rewrite Hsrc.
  unfold bind at 1 2 3. unfold file_exists.
  assert (Hex : bool_decide (is_Some (w_fs w !! src)) = true).
  { apply bool_decide_eq_true_2. unfold read_text in Hread.
    destruct (w_fs w !! src); [eauto | discriminate]. }
  rewrite Hex. cbv beta iota. unfold negb. unfold bind at 1. rewrite Hread.
  unfold ret at 1. cbv beta iota.
  rewrite (strip_blank _ Hb). reflexivity.
Qed.

Lemma terminal_main_blank_stdin args w :
  Terminal.truthy (Terminal.a_input_file args) = None ->
  blank (concat (fst (Terminal.read_lines (w_stdin w) []))) ->
  Terminal.main L E args w
  = (Exit 1,
     logged (with_stdin w (snd (Terminal.read_lines (w_stdin w) [])))
            [EvStdout Terminal.paste_prompt; EvStderr Terminal.no_input_line]).
Proof.
  intros Hsrc Hb.
  unfold Terminal.main, Terminal.main_gather_text. rewrite Hsrc.
  unfold bind at 1 2 3. unfold Terminal.read_text_interactive.
  unfold bind at 1. unfold print at 1. unfold emit at 1. cbv beta iota.
  change (w_stdin (logged w [EvStdout Terminal.paste_prompt])) with (w_stdin w).
  destruct (Terminal.read_lines (w_stdin w) []) as [lines rest] eqn:Hl.
  simpl in Hb. rewrite (strip_blank _ Hb).
  unfold is_nil, eprint, bind, emit, sys_exit. cbv beta iota.
  unfold logged, with_log, with_stdin. simpl. rewrite <- app_assoc. reflexivity.
Qed.

End BlankInput.

(** C6. For an input text that is empty or white space only, the browser
    handler only shows the input warning, and the terminal front-end only
    prints "No input text provided." and exits with status 1: the rewrite and
    synthesis stages are not entered (no such event is logged) and the file
    system is unchanged. *)
Theorem blank_input_rejected (L : PyLib) (E : Env) :
  (forall i w,
      App.in_gen i = true -> blank (App.in_text i) ->
      App.generate L E i w = (Ret tt, logged w [EvWarning App.warning_msg]))
  /\
  (forall args w src s,
      Terminal.truthy (Terminal.a_input_file args) = Some src ->
      read_text L src w = (Ret s, w) -> blank s ->
      Terminal.main L E args w = (Exit 1, logged w [EvStderr Terminal.no_input_line]))
  /\
  (forall args w,
      Terminal.truthy (Terminal.a_input_file args) = None ->
      blank (concat (fst (Terminal.read_lines (w_stdin w) []))) ->
      Terminal.main L E args w
      = (Exit 1,
         logged (with_stdin w (snd (Terminal.read_lines (w_stdin w) [])))
                [EvStdout Terminal.paste_prompt; EvStderr Terminal.no_input_line])).
Proof.
  split; [|split].
  - apply app_generate_blank.
  - apply terminal_main_blank_file.
  - apply terminal_main_blank_stdin.
Qed.

(** C6, at concrete runs: a text of blanks in the browser form, in the input
    file, and pasted on standard input. *)
Lemma blank_input_rejected_witness :
  App.generate Sample.lib Sample.env_ok (Sample.inputs (lit "   ") (lit "Calm"))
    Sample.empty_world
  = (Ret tt, logged Sample.empty_world [EvWarning App.warning_msg])
  /\
  Terminal.main Sample.lib Sample.env_ok (Sample.args (lit "Calm") (Some (lit "story.txt")))
    (Sample.world {[ lit "story.txt" := FText (lit "  " ++ nl) ]} [])
  = (Exit 1,
     logged (Sample.world {[ lit "story.txt" := FText (lit "  " ++ nl) ]} [])
            [EvStderr Terminal.no_input_line])
  /\
  Terminal.main Sample.lib Sample.env_ok (Sample.args (lit "Calm") None)
    (Sample.world ∅ [lit "  " ++ nl; nl])
  = (Exit 1,
     logged (Sample.world ∅ []) [EvStdout Terminal.paste_prompt;
                                 EvStderr Terminal.no_input_line]).
Proof.
  destruct (blank_input_rejected Sample.lib Sample.env_ok) as (Ha & Hf & Hi).
  split; [|split].
  - apply Ha; reflexivity.
  - apply (Hf _ _ (lit "story.txt") (lit "  " ++ nl)); reflexivity.
  - apply (Hi (Sample.args (lit "Calm") None) (Sample.world ∅ [lit "  " ++ nl; nl]));
      reflexivity.
Defined.

(** ** Exit status of the terminal front-end *)

Section ExitStatus.
Variable L : PyLib.
Variable E : Env.

Lemma terminal_main_gather_missing args w src :
  Terminal.truthy (Terminal.a_input_file args) = Some src ->
  w_fs w !! src = None ->
  Terminal.main_gather_text L args w
  = (Exit 1, logged w [EvStderr (lit "Input file not found: " ++ src)]).
Proof.
  intros Hsrc Hnone. unfold Terminal.main_gather_text. rewrite Hsrc.
  unfold bind at 1 2. unfold file_exists.
  rewrite bool_decide_eq_false_2.
  - reflexivity.
  - rewrite Hnone. intros [x Hx]. discriminate.
Qed.

Lemma terminal_main_rewrite_run args text tone w r w1 :
  Terminal.rewrite_with_ollama L E text tone (Terminal.a_model args)
    (Terminal.a_ollama_url args) (Terminal.a_temperature args) (Terminal.a_max_tokens args)
    (logged w [EvStdout (Terminal.rewriting_line args tone)]) = (r, w1) ->
  Terminal.main_rewrite L E args text tone w
  = match r with
    | Ret s => (Ret s, w1)
    | Raise e => (Exit 2, logged w1 [EvStderr (Terminal.rewrite_failed_line e)])
    | Exit c => (Exit c, w1)
    end.
Proof.
  intros H. unfold Terminal.main_rewrite. unfold_monad. cbv beta iota.
  rewrite H. destruct r; reflexivity.
Qed.

Lemma terminal_main_tts_run args rewritten mp3_path w r w1 :
  Terminal.synthesize E args rewritten mp3_path w = (r, w1) ->
  Terminal.main_tts E args rewritten mp3_path w
  = match r with
    | Ret _ => (Ret tt, logged w1 [EvStdout ([10003] ++ lit " Audio saved to: "
                                              ++ path_str mp3_path)])
    | Raise e => (Exit 3, logged w1 [EvStderr (Terminal.tts_failed_line e)])
    | Exit c => (Exit c, w1)
    end.
Proof.
  intros H. unfold Terminal.main_tts. unfold_monad. cbv beta iota.
  rewrite H. destruct r; reflexivity.
Qed.

(** [main] after its first three steps. *)
Lemma terminal_main_from_rewrite args w text w1 tone w2 rewritten w3 mp3_path w4 :
  Terminal.main_gather_text L args w = (Ret text, w1) ->
  Terminal.main_pick_tone L args w1 = (Ret tone, w2) ->
  Terminal.main_rewrite L E args text tone w2 = (Ret rewritten, w3) ->
  Terminal.main_save_text L E args rewritten tone w3 = (Ret mp3_path, w4) ->
  Terminal.main L E args w
  = bind (Terminal.main_tts E args rewritten mp3_path)
         (fun _ => print (nl ++ lit "Done.")) w4.
Proof.
  intros Hg Hp Hr Hs. unfold Terminal.main.
  rewrite (bind_run _ _ _ _ _ Hg). cbv beta iota.
  rewrite (bind_run _ _ _ _ _ Hp). cbv beta iota.
  rewrite (bind_run _ _ _ _ _ Hr). cbv beta iota.
  rewrite (bind_run _ _ _ _ _ Hs). reflexivity.
Qed.

End ExitStatus.

(** C8. The terminal front-end ends with status 1 when the input file is
    missing or the input text is blank, with status 2 when the rewrite stage
    raises, with status 3 when the synthesis stage raises, and with status 0
    when every stage succeeds. *)
Theorem terminal_exit_codes (L : PyLib) (E : Env) (args : Terminal.Args) (w : World) :
  (forall src,
      Terminal.truthy (Terminal.a_input_file args) = Some src ->
      w_fs w !! src = None ->
      Terminal.exit_status (fst (Terminal.main L E args w)) = 1%Z)
  /\
  (forall src s,
      Terminal.truthy (Terminal.a_input_file args) = Some src ->
      read_text L src w = (Ret s, w) -> blank s ->
      Terminal.exit_status (fst (Terminal.main L E args w)) = 1%Z)
  /\
  (Terminal.truthy (Terminal.a_input_file args) = None ->
   blank (concat (fst (Terminal.read_lines (w_stdin w) []))) ->
   Terminal.exit_status (fst (Terminal.main L E args w)) = 1%Z)
  /\
  (forall text w1 tone w2 e,
      Terminal.main_gather_text L args w = (Ret text, w1) ->
      Terminal.main_pick_tone L args w1 = (Ret tone, w2) ->
      fst (Terminal.rewrite_with_ollama L E text tone (Terminal.a_model args)
             (Terminal.a_ollama_url args) (Terminal.a_temperature args)
             (Terminal.a_max_tokens args)
             (logged w2 [EvStdout (Terminal.rewriting_line args tone)])) = Raise e ->
      Terminal.exit_status (fst (Terminal.main L E args w)) = 2%Z)
  /\
  (forall text w1 tone w2 rewritten w3 mp3_path w4 e,
      Terminal.main_gather_text L args w = (Ret text, w1) ->
      Terminal.main_pick_tone L args w1 = (Ret tone, w2) ->
      Terminal.main_rewrite L E args text tone w2 = (Ret rewritten, w3) ->
      Terminal.main_save_text L E args rewritten tone w3 = (Ret mp3_path, w4) ->
      fst (Terminal.synthesize E args rewritten mp3_path w4) = Raise e ->
      Terminal.exit_status (fst (Terminal.main L E args w)) = 3%Z)
  /\
  (forall text w1 tone w2 rewritten w3 mp3_path w4,
      Terminal.main_gather_text L args w = (Ret text, w1) ->
      Terminal.main_pick_tone L args w1 = (Ret tone, w2) ->
      Terminal.main_rewrite L E args text tone w2 = (Ret rewritten, w3) ->
      Terminal.main_save_text L E args rewritten tone w3 = (Ret mp3_path, w4) ->
      fst (Terminal.synthesize E args rewritten mp3_path w4) = Ret tt ->
      Terminal.exit_status (fst (Terminal.main L E args w)) = 0%Z).
Proof.
  repeat apply conj.
  - intros src Hsrc Hnone. unfold Terminal.main.
    rewrite (bind_run _ _ _ _ _ (terminal_main_gather_missing L args w src Hsrc Hnone)).
    reflexivity.
  - intros src s Hsrc Hread Hb.
    rewrite (terminal_main_blank_file L E args w src s Hsrc Hread Hb). reflexivity.
  - intros Hsrc Hb. rewrite (terminal_main_blank_stdin L E args w Hsrc Hb). reflexivity.
  - intros text w1 tone w2 e Hg Hp Hr.
    destruct (Terminal.rewrite_with_ollama L E text tone _ _ _ _ _) as [r w3] eqn:Hrw.
    simpl in Hr. subst r.
    destruct (terminal_main_upto_rewrite L E args w text w1 tone w2 Hg Hp) as [_ Hmain].
    rewrite (Hmain e w3 Hrw). reflexivity.
  - intros text w1 tone w2 rewritten w3 mp3_path w4 e Hg Hp Hr Hs Hsyn.
    rewrite (terminal_main_from_rewrite L E args w text w1 tone w2 rewritten w3 mp3_path w4)
      by assumption.
    destruct (Terminal.synthesize E args rewritten mp3_path w4) as [r w5] eqn:Hsy.
    simpl in Hsyn. subst r.
    rewrite (bind_run _ _ _ _ _ (terminal_main_tts_run E args rewritten mp3_path w4 _ w5 Hsy)).
    reflexivity.
  - intros text w1 tone w2 rewritten w3 mp3_path w4 Hg Hp Hr Hs Hsyn.
    rewrite (terminal_main_from_rewrite L E args w text w1 tone w2 rewritten w3 mp3_path w4)
      by assumption.
    destruct (Terminal.synthesize E args rewritten mp3_path w4) as [r w5] eqn:Hsy.
    simpl in Hsyn. subst r.
    rewrite (bind_run _ _ _ _ _ (terminal_main_tts_run E args rewritten mp3_path w4 _ w5 Hsy)).
    reflexivity.
Qed.

(** C8, at concrete runs: a missing input file, an unreachable endpoint, a
    failing synthesis backend and a run in which everything works. *)
Lemma terminal_exit_codes_witness :
  Terminal.exit_status
    (fst (Terminal.main Sample.lib Sample.env_ok
            (Sample.args (lit "Calm") (Some (lit "missing.txt"))) Sample.empty_world)) = 1%Z
  /\
  Terminal.exit_status
    (fst (Terminal.main Sample.lib Sample.env_ok
            (Sample.args (lit "Calm") (Some (lit "story.txt")))
            (Sample.world {[ lit "story.txt" := FText (lit "  " ++ nl) ]} []))) = 1%Z
  /\
  Terminal.exit_status
    (fst (Terminal.main Sample.lib Sample.env_ok
            (Sample.args (lit "Calm") None) (Sample.world ∅ [lit "  " ++ nl; nl]))) = 1%Z
  /\
  Terminal.exit_status
    (fst (Terminal.main Sample.lib Sample.env_unreachable
            (Sample.args (lit "Calm") None) (Sample.world ∅ [lit "Hi." ++ nl; nl]))) = 2%Z
  /\
  Terminal.exit_status
    (fst (Terminal.main Sample.lib Sample.env_tts_down
            (Sample.args (lit "Calm") None) (Sample.world ∅ [lit "Hi." ++ nl; nl]))) = 3%Z
  /\
  Terminal.exit_status
    (fst (Terminal.main Sample.lib Sample.env_ok
            (Sample.args (lit "Calm") None) (Sample.world ∅ [lit "Hi." ++ nl; nl]))) = 0%Z.
Proof.
  repeat apply conj.
  - eapply (proj1 (terminal_exit_codes Sample.lib Sample.env_ok _ _)); reflexivity.
  - eapply (proj1 (proj2 (terminal_exit_codes Sample.lib Sample.env_ok _ _)));
      reflexivity.
  - eapply (proj1 (proj2 (proj2 (terminal_exit_codes Sample.lib Sample.env_ok _ _))));
      reflexivity.
  - eapply (proj1 (proj2 (proj2 (proj2
              (terminal_exit_codes Sample.lib Sample.env_unreachable _ _)))));
      reflexivity.
  - eapply (proj1 (proj2 (proj2 (proj2 (proj2
              (terminal_exit_codes Sample.lib Sample.env_tts_down _ _))))));
      reflexivity.
  - eapply (proj2 (proj2 (proj2 (proj2 (proj2
              (terminal_exit_codes Sample.lib Sample.env_ok _ _))))));
      reflexivity.
Defined.

(** ** Order of strings and the sorted listing *)

Lemma str_compare_refl a : str_compare a a = Eq.
Proof.
  induction a as [|x a IH]; simpl; [reflexivity|].
  rewrite N.compare_refl. exact IH.
Qed.

Lemma str_compare_eq a b : str_compare a b = Eq -> a = b.
Proof.
  revert b. induction a as [|x a IH]; intros [|y b]; simpl; try discriminate; auto.
  destruct (x ?= y) eqn:E; try discriminate.
  apply N.compare_eq in E. subst y. intros H. f_equal. auto.
Qed.

Lemma str_compare_antisym a b : str_compare b a = CompOpp (str_compare a b).
Proof.
  revert b. induction a as [|x a IH]; intros [|y b]; simpl; try reflexivity.
  rewrite (N.compare_antisym x y).
  destruct (x ?= y); simpl; auto.
Qed.

Lemma str_compare_lt_trans a b c :
  str_compare a b = Lt -> str_compare b c = Lt -> str_compare a c = Lt.
Proof.
  revert b c. induction a as [|x a IH]; intros [|y b] [|z c]; simpl;
    try discriminate; auto.
  destruct (x ?= y) eqn:Exy; try discriminate;
    destruct (y ?= z) eqn:Eyz; try discriminate; intros H1 H2.
  - apply N.compare_eq in Exy, Eyz. subst. rewrite N.compare_refl. eauto.
  - apply N.compare_eq in Exy. subst. rewrite Eyz. reflexivity.
  - apply N.compare_eq in Eyz. subst. rewrite Exy. reflexivity.
  - rewrite N.compare_lt_iff in *. replace (x ?= z) with Lt; [reflexivity|].
    symmetry. apply N.compare_lt_iff. lia.
Qed.

Lemma str_compare_app_same p a b : str_compare (p ++ a) (p ++ b) = str_compare a b.
Proof.
  induction p as [|x p IH]; simpl; [reflexivity|].
  rewrite N.compare_refl. exact IH.
Qed.

Lemma str_compare_app_len a b s t :
  length a = length b ->
  str_compare (a ++ s) (b ++ t)
  = match str_compare a b with Eq => str_compare s t | c => c end.
Proof.
  revert b. induction a as [|x a IH]; intros [|y b] Hl; simpl in *; try discriminate.
  - reflexivity.
  - destruct (x ?= y); try reflexivity. apply IH. congruence.
Qed.

Lemma str_ltb_asym a b : str_ltb a b = true -> str_ltb b a = false.
Proof.
  unfold str_ltb. rewrite (str_compare_antisym a b).
  destruct (str_compare a b); simpl; congruence.
Qed.

Lemma str_ge_trans a b c : str_ge a b -> str_ge b c -> str_ge a c.
Proof.
  unfold str_ge, str_ltb. intros Hab Hbc.
  destruct (str_compare a c) eqn:Hac; try reflexivity.
  destruct (str_compare a b) eqn:E1; try discriminate.
  - apply str_compare_eq in E1. subst b. rewrite Hac in Hbc. discriminate.
  - assert (Hba : str_compare b a = Lt).
    { rewrite (str_compare_antisym a b), E1. reflexivity. }
    rewrite (str_compare_lt_trans b a c Hba Hac) in Hbc. discriminate.
Qed.

Lemma path_ltb_same_dir a b :
  p_dir a = p_dir b -> path_ltb a b = str_ltb (p_name a) (p_name b).
Proof.
  intros H. unfold path_ltb. rewrite H, str_compare_refl. reflexivity.
Qed.

Lemma insert_desc_perm x l : Permutation (insert_desc x l) (x :: l).
Proof.
  induction l as [|y r IH]; simpl; [reflexivity|].
  destruct (path_ltb x y); [|reflexivity].
  rewrite IH. apply perm_swap.
Qed.

Lemma sorted_reverse_perm l : Permutation (sorted_reverse l) l.
Proof.
  induction l as [|x r IH]; simpl; [reflexivity|].
  rewrite insert_desc_perm. constructor. exact IH.
Qed.

Lemma insert_desc_sorted out x l :
  p_dir x = out -> Forall (fun f => p_dir f = out) l ->
  names_desc l -> names_desc (insert_desc x l).
Proof.
  intros Hx Hd Hs. induction Hs as [|y r Hr IH Hy]; simpl.
  - repeat constructor.
  - apply Forall_cons in Hd as [Hyd Hrd].
    rewrite path_ltb_same_dir by congruence.
    destruct (str_ltb (p_name x) (p_name y)) eqn:Hlt.
    + constructor; [apply IH, Hrd|].
      rewrite (insert_desc_perm x r). constructor; [|exact Hy].
      apply str_ltb_asym, Hlt.
    + constructor; [constructor; assumption|].
      constructor; [exact Hlt|].
      eapply List.Forall_impl; [|exact Hy].
      intros z Hz. eapply str_ge_trans; [exact Hlt | exact Hz].
Qed.

Lemma sorted_reverse_sorted out l :
  Forall (fun f => p_dir f = out) l -> names_desc (sorted_reverse l).
Proof.
  induction l as [|x r IH]; simpl; intros Hd.
  - constructor.
  - apply Forall_cons in Hd as [Hx Hr].
    apply (insert_desc_sorted out); [exact Hx | | apply IH, Hr].
    rewrite (sorted_reverse_perm r). exact Hr.
Qed.

Lemma names_desc_take n l : names_desc l -> names_desc (take n l).
Proof.
  intros H. revert n. induction H as [|x r Hr IH Hx]; intros [|n]; simpl;
    try constructor.
  - apply IH.
  - eapply Forall_take in Hx. exact Hx.
Qed.

Lemma names_desc_map l :
  names_desc l -> StronglySorted str_ge (map p_name l).
Proof.
  induction 1 as [|x r Hr IH Hx]; simpl; constructor; [exact IH|].
  apply Forall_map. exact Hx.
Qed.

(** Of two different members of a list, one comes before the other. *)
Lemma two_members_ordered {A} (x y : A) (l : list A) :
  x ∈ l -> y ∈ l -> x <> y ->
  (exists l1 l2 l3, l = l1 ++ x :: l2 ++ y :: l3) \/
  (exists l1 l2 l3, l = l1 ++ y :: l2 ++ x :: l3).
Proof.
  induction l as [|z r IH]; intros Hx Hy Hne; [inversion Hx|].
  apply elem_of_cons in Hx as [->|Hx]; apply elem_of_cons in Hy as [->|Hy].
  - congruence.
  - left. apply list_elem_of_split in Hy as (l2 & l3 & ->).
    exists [], l2, l3. reflexivity.
  - right. apply list_elem_of_split in Hx as (l2 & l3 & ->).
    exists [], l2, l3. reflexivity.
  - destruct (IH Hx Hy Hne) as [(l1 & l2 & l3 & ->)|(l1 & l2 & l3 & ->)].
    + left. exists (z :: l1), l2, l3. reflexivity.
    + right. exists (z :: l1), l2, l3. reflexivity.
Qed.

Lemma strongly_sorted_app_r {A} (R : A -> A -> Prop) (l1 l2 : list A) :
  StronglySorted R (l1 ++ l2) -> StronglySorted R l2.
Proof.
  induction l1 as [|x l1 IH]; simpl; [auto|].
  intros H. apply StronglySorted_inv in H as [H _]. auto.
Qed.

(** In a list in descending order the strictly greater member comes first. *)
Lemma sorted_desc_greater_first (x y : pystr) (l : list pystr) :
  StronglySorted str_ge l -> x ∈ l -> y ∈ l -> str_ltb y x = true ->
  exists l1 l2 l3, l = l1 ++ x :: l2 ++ y :: l3.
Proof.
  intros Hs Hx Hy Hlt.
  assert (Hne : x <> y).
  { intros ->. unfold str_ltb in Hlt. rewrite str_compare_refl in Hlt. discriminate. }
  destruct (two_members_ordered x y l Hx Hy Hne) as [H|(l1 & l2 & l3 & ->)]; [exact H|].
  exfalso.
  apply strongly_sorted_app_r in Hs.
  apply StronglySorted_inv in Hs as [_ Hall].
  rewrite List.Forall_forall in Hall.
  assert (Hin : List.In x (l2 ++ x :: l3)) by (apply in_or_app; right; left; reflexivity).
  specialize (Hall x Hin). unfold str_ge in Hall. congruence.
Qed.

(** ** Time stamps sort like the clock readings they print *)

Lemma cmp_digit (a b : N) :
  (48 + a mod 10 ?= 48 + b mod 10) = (a mod 10 ?= b mod 10).
Proof.
  destruct (N.compare_spec (a mod 10) (b mod 10)) as [H|H|H].
  - rewrite H. apply N.compare_refl.
  - apply N.compare_lt_iff. lia.
  - apply N.compare_gt_iff. lia.
Qed.

Lemma div10_digit (n : N) : n < 100 -> (n / 10) mod 10 = n / 10.
Proof.
  intros Hn. apply N.mod_small.
  pose proof (N.div_mod n 10 ltac:(lia)) as H. revert H.
  generalize (n / 10) (n mod 10). intros q r H. lia.
Qed.

Lemma fmt2_compare (n m : N) (s t : pystr) :
  n < 100 -> m < 100 ->
  str_compare (fmt2 n ++ s) (fmt2 m ++ t)
  = match n ?= m with Eq => str_compare s t | c => c end.
Proof.
  intros Hn Hm. unfold fmt2, digit. simpl. rewrite !cmp_digit.
  rewrite (div10_digit n Hn), (div10_digit m Hm).
  pose proof (N.div_mod n 10 ltac:(lia)) as Hdn.
  pose proof (N.div_mod m 10 ltac:(lia)) as Hdm.
  pose proof (N.mod_lt n 10 ltac:(lia)) as Hrn.
  pose proof (N.mod_lt m 10 ltac:(lia)) as Hrm.
  revert Hdn Hdm Hrn Hrm.
  generalize (n / 10) (n mod 10) (m / 10) (m mod 10).
  intros qn rn qm rm Hdn Hdm Hrn Hrm.
  destruct (N.compare_spec qn qm) as [H1|H1|H1];
    destruct (N.compare_spec rn rm) as [H2|H2|H2];
    destruct (N.compare_spec n m) as [H|H|H]; try reflexivity; exfalso; lia.
Qed.

Lemma fmt4_compare (n m : N) (s t : pystr) :
  n < 10000 -> m < 10000 ->
  str_compare (fmt4 n ++ s) (fmt4 m ++ t)
  = match n ?= m with Eq => str_compare s t | c => c end.
Proof.
  intros Hn Hm. unfold fmt4. rewrite <- !app_assoc.
  pose proof (N.div_mod n 100 ltac:(lia)) as Hdn.
  pose proof (N.div_mod m 100 ltac:(lia)) as Hdm.
  pose proof (N.mod_lt n 100 ltac:(lia)) as Hrn.
  pose proof (N.mod_lt m 100 ltac:(lia)) as Hrm.
  assert (Hqn : n / 100 < 100).
  { revert Hdn. generalize (n / 100) (n mod 100). intros q r H. lia. }
  assert (Hqm : m / 100 < 100).
  { revert Hdm. generalize (m / 100) (m mod 100). intros q r H. lia. }
  rewrite fmt2_compare by assumption. rewrite fmt2_compare by assumption.
  revert Hdn Hdm Hrn Hrm. clear Hqn Hqm.
  generalize (n / 100) (n mod 100) (m / 100) (m mod 100).
  intros qn rn qm rm Hdn Hdm Hrn Hrm.
  destruct (N.compare_spec qn qm) as [H1|H1|H1];
    destruct (N.compare_spec rn rm) as [H2|H2|H2];
    destruct (N.compare_spec n m) as [H|H|H]; try reflexivity; exfalso; lia.
Qed.

Lemma strftime_length d : length (strftime d) = 15%nat.
Proof. reflexivity. Qed.

(** A later clock reading prints a greater time stamp. *)
Lemma strftime_mono (d1 d2 : datetime) :
  dt_wf d1 -> dt_wf d2 -> dt_key d1 < dt_key d2 ->
  str_compare (strftime d1) (strftime d2) = Lt.
Proof.
  intros ((_ & Hy1) & Hmo1 & Hd1 & Hh1 & Hmi1 & Hs1)
         ((_ & Hy2) & Hmo2 & Hd2 & Hh2 & Hmi2 & Hs2) Hk.
  unfold dt_key in Hk. unfold strftime.
  rewrite <- (app_nil_r (fmt2 (dt_second d1))), <- (app_nil_r (fmt2 (dt_second d2))).
  rewrite fmt4_compare by assumption.
  rewrite fmt2_compare by assumption.
  rewrite fmt2_compare by assumption.
  change ([ch_hyphen] ++ ?x) with (ch_hyphen :: x).
  cbn [str_compare app]. rewrite N.compare_refl.
  rewrite fmt2_compare by assumption.
  rewrite fmt2_compare by assumption.
  rewrite fmt2_compare by assumption.
  destruct (N.compare_spec (dt_year d1) (dt_year d2)) as [H1|H1|H1];
    [|reflexivity|exfalso; nia].
  destruct (N.compare_spec (dt_month d1) (dt_month d2)) as [H2|H2|H2];
    [|reflexivity|exfalso; nia].
  destruct (N.compare_spec (dt_day d1) (dt_day d2)) as [H3|H3|H3];
    [|reflexivity|exfalso; nia].
  destruct (N.compare_spec (dt_hour d1) (dt_hour d2)) as [H4|H4|H4];
    [|reflexivity|exfalso; nia].
  destruct (N.compare_spec (dt_minute d1) (dt_minute d2)) as [H5|H5|H5];
    [|reflexivity|exfalso; nia].
  destruct (N.compare_spec (dt_second d1) (dt_second d2)) as [H6|H6|H6];
    [exfalso; nia|reflexivity|exfalso; nia].
Qed.

(** Two audio files of the same prefix and tone sort by their time stamps. *)
Lemma audio_name_ltb prefix tone (d1 d2 : datetime) :
  dt_wf d1 -> dt_wf d2 -> dt_key d1 < dt_key d2 ->
  str_ltb (audio_name prefix tone (strftime d1)) (audio_name prefix tone (strftime d2)) = true.
Proof.
  intros H1 H2 Hk. unfold str_ltb, audio_name.
  rewrite !str_compare_app_same.
  rewrite str_compare_app_len by (rewrite !strftime_length; reflexivity).
  rewrite (strftime_mono d1 d2 H1 H2 Hk). reflexivity.
Qed.

(** ** The listing of past narrations *)

Lemma is_prefix_spec p s : is_prefix p s = true -> s = p ++ drop (length p) s.
Proof.
  revert s. induction p as [|a p IH]; intros [|b s]; simpl; try discriminate; auto.
  intros H. apply andb_true_iff in H as [H1 H2].
  apply N.eqb_eq in H1. subst b. f_equal. auto.
Qed.

Lemma is_prefix_app p s : is_prefix p (p ++ s) = true.
Proof.
  induction p as [|a p IH]; simpl; [reflexivity|].
  rewrite N.eqb_refl. exact IH.
Qed.

Lemma child_name_spec dir key n :
  child_name dir key = Some n ->
  key = path_str {| p_dir := dir; p_name := n |} /\ existsb (N.eqb ch_slash) n = false.
Proof.
  unfold child_name, path_str. simpl.
  destruct (is_prefix (dir ++ [ch_slash]) key) eqn:Hp; [|discriminate].
  destruct (existsb _ _) eqn:Hs; [discriminate|].
  intros [= <-]. split; [|exact Hs].
  apply is_prefix_spec in Hp. rewrite length_app in Hp. simpl in Hp.
  rewrite <- app_assoc in Hp. exact Hp.
Qed.

Lemma child_name_complete dir n :
  existsb (N.eqb ch_slash) n = false ->
  child_name dir (path_str {| p_dir := dir; p_name := n |}) = Some n.
Proof.
  intros Hs. unfold child_name, path_str. cbn [p_dir p_name].
  rewrite (app_assoc dir [ch_slash] n), is_prefix_app.
  rewrite drop_app_length' by (rewrite length_app; reflexivity).
  rewrite Hs. reflexivity.
Qed.

Lemma glob_speech_elem fs out f :
  f ∈ App.glob_speech fs out ->
  p_dir f = out /\ is_Some (fs !! path_str f) /\ match_speech_mp3 (p_name f) = true.
Proof.
  unfold App.glob_speech. rewrite list_elem_of_omap.
  intros ([k d] & Hin & Hf). simpl in Hf.
  destruct (child_name out k) as [n|] eqn:Hc; [|discriminate].
  destruct (match_speech_mp3 n) eqn:Hm; [|discriminate].
  injection Hf as <-. simpl.
  apply child_name_spec in Hc as [-> _].
  apply elem_of_map_to_list in Hin.
  repeat split; eauto.
Qed.

(** Every file of the output directory whose name matches the pattern is
    found. *)
Lemma glob_speech_complete fs out n d :
  fs !! path_str {| p_dir := out; p_name := n |} = Some d ->
  existsb (N.eqb ch_slash) n = false ->
  match_speech_mp3 n = true ->
  {| p_dir := out; p_name := n |} ∈ App.glob_speech fs out.
Proof.
  intros Hfs Hs Hm. unfold App.glob_speech. apply list_elem_of_omap.
  exists (path_str {| p_dir := out; p_name := n |}, d). split.
  - apply elem_of_map_to_list. exact Hfs.
  - simpl. rewrite (child_name_complete out n Hs), Hm. reflexivity.
Qed.

Lemma listed_files_elem fs f :
  f ∈ App.listed_files fs ->
  p_dir f = lit "outputs" /\ is_Some (fs !! path_str f) /\
  match_speech_mp3 (p_name f) = true.
Proof.
  unfold App.listed_files. intros H.
  apply glob_speech_elem.
  rewrite <- (sorted_reverse_perm (App.glob_speech fs (lit "outputs"))). exact H.
Qed.

Lemma listed_files_sorted fs : names_desc (App.listed_files fs).
Proof.
  apply (sorted_reverse_sorted (lit "outputs")).
  apply List.Forall_forall. intros f Hf.
  apply list_elem_of_In in Hf. apply glob_speech_elem in Hf. tauto.
Qed.

Lemma listed_files_length fs :
  length (App.listed_files fs) = length (App.glob_speech fs (lit "outputs")).
Proof. apply Permutation_length, sorted_reverse_perm. Qed.

Section Listing.
Variable L : PyLib.

(** Loading a caption never raises and never changes the world. *)
Lemma load_caption_run meta_path w :
  exists c, App.load_caption L meta_path w = (Ret c, w) /\
            App.caption_spec L (w_fs w) meta_path c.
Proof.
  unfold App.load_caption, App.caption_spec, bind, file_exists, try_except, read_text,
    ret, raise.
  destruct (w_fs w !! path_str meta_path) as [[s|b]|] eqn:Hfs.
  - rewrite bool_decide_eq_true_2 by eauto. cbv beta iota. rewrite Hfs.
    destruct (json_loads L s) as [[| | | | | |fields]|] eqn:Hj;
      (eexists; split; [reflexivity|]);
      (split; [discriminate|split]);
      intros s' **; simplify_eq; try reflexivity; congruence.
  - rewrite bool_decide_eq_true_2 by eauto. cbv beta iota. rewrite Hfs.
    destruct (utf8_decode L b) as [s|].
    + destruct (json_loads L s) as [[| | | | | |fields]|] eqn:Hj;
        (eexists; split; [reflexivity|]);
        (split; [discriminate|split]); intros s' **; discriminate.
    + eexists; split; [reflexivity|].
      split; [discriminate|split]; intros s' **; discriminate.
  - rewrite bool_decide_eq_false_2 by (intros [x Hx]; discriminate).
    eexists; split; [reflexivity|].
    split; [reflexivity|split]; intros s' **; discriminate.
Qed.

Lemma render_entry_run out f w :
  is_Some (w_fs w !! path_str f) ->
  exists e, App.render_entry L out f w = (Ret e, w) /\
            App.entry_spec L (w_fs w) out f e.
Proof.
  intros [d Hd]. unfold App.render_entry.
  destruct (load_caption_run (App.meta_path_of out f) w) as (c & Hc & Hspec).
  rewrite (bind_run _ _ _ _ _ Hc). cbv beta iota.
  unfold bind, read_bytes. rewrite Hd. cbv beta iota.
  eexists. split; [reflexivity|].
  unfold App.entry_spec. simpl. auto.
Qed.

Lemma render_entries_run out files w :
  Forall (fun f => is_Some (w_fs w !! path_str f)) files ->
  exists es, mapM (App.render_entry L out) files w = (Ret es, w) /\
             Forall2 (App.entry_spec L (w_fs w) out) files es.
Proof.
  induction 1 as [|f r Hf Hr IH]; simpl.
  - exists []. split; [reflexivity | constructor].
  - destruct (render_entry_run out f w Hf) as (e & He & Hspec).
    destruct IH as (es & Hes & Hall).
    rewrite (bind_run _ _ _ _ _ He). cbv beta iota.
    rewrite (bind_run _ _ _ _ _ Hes). cbv beta iota.
    exists (e :: es). split; [reflexivity | constructor; assumption].
Qed.

(** The expander never raises, leaves the world as it is, and shows one entry
    for each of the first twenty files of the sorted listing. *)
Lemma past_narrations_run w :
  exists listing,
    App.past_narrations L w = (Ret listing, w) /\
    Forall2 (App.entry_spec L (w_fs w) (lit "outputs"))
            (take 20 (App.listed_files (w_fs w))) (App.shown listing) /\
    (listing = App.NoNarrations <-> App.listed_files (w_fs w) = []).
Proof.
  unfold App.past_narrations, Core.ensure_outputs_dir, ensure_outputs_dir.
  unfold bind at 1 2. unfold ret at 1. unfold get_fs. cbv beta iota.
  fold (App.listed_files (w_fs w)).
  destruct (App.listed_files (w_fs w)) as [|f0 r] eqn:Hfiles.
  - exists App.NoNarrations. simpl. repeat split; auto; constructor.
  - unfold is_nil.
    destruct (render_entries_run (lit "outputs") (take 20 (f0 :: r)) w) as (es & Hes & Hall).
    { apply Forall_take. apply List.Forall_forall. intros f Hf.
      apply list_elem_of_In in Hf. rewrite <- Hfiles in Hf.
      apply listed_files_elem in Hf. tauto. }
    rewrite (bind_run _ _ _ _ _ Hes). cbv beta iota.
    exists (App.Narrations es). split; [reflexivity|]. split; [exact Hall|].
    split; discriminate.
Qed.

Lemma shown_names_take w listing :
  Forall2 (App.entry_spec L (w_fs w) (lit "outputs"))
          (take 20 (App.listed_files (w_fs w))) (App.shown listing) ->
  App.shown_names listing = map p_name (take 20 (App.listed_files (w_fs w))).
Proof.
  unfold App.shown_names. generalize (App.shown listing).
  generalize (take 20 (App.listed_files (w_fs w))).
  induction 1 as [|f e fs es [Hn _] _ IH]; simpl; [reflexivity|].
  rewrite Hn, IH. reflexivity.
Qed.

End Listing.

(** C10. The expander shows at most twenty entries: they are the first twenty
    audio files in the order of the listing, and when the output directory
    holds more than twenty audio files exactly twenty are shown; the others
    are left out without any message. *)
Theorem past_narrations_at_most_20 (L : PyLib) (w : World) :
  exists listing,
    App.past_narrations L w = (Ret listing, w) /\
    App.shown_names listing = map p_name (take 20 (App.listed_files (w_fs w))) /\
    (length (App.shown listing) <= 20)%nat /\
    ((20 < length (App.glob_speech (w_fs w) (lit "outputs")))%nat ->
     length (App.shown listing) = 20%nat).
Proof.
  destruct (past_narrations_run L w) as (listing & Hrun & Hall & _).
  exists listing. split; [exact Hrun|].
  split; [apply (shown_names_take L w listing Hall)|].
  apply Forall2_length in Hall. rewrite <- Hall, length_take, listed_files_length.
  split; lia.
Qed.

(** C10, at a concrete directory of twenty-one audio files: twenty are
    shown. *)
Lemma past_narrations_at_most_20_witness :
  exists listing,
    App.past_narrations Sample.lib (Sample.world Sample.many_narrations [])
    = (Ret listing, Sample.world Sample.many_narrations []) /\
    length (App.shown listing) = 20%nat.
Proof.
  destruct (past_narrations_at_most_20 Sample.lib (Sample.world Sample.many_narrations []))
    as (listing & Hrun & _ & _ & Hcap).
  exists listing. split; [exact Hrun|].
  apply Hcap. vm_compute. lia.
Defined.

(** C7 (as amended). The expander never raises. It lists the first twenty
    audio files in descending order of their file names; among files of the
    same tone this is newest first. Each of these files is listed with its
    name and data whatever the state of its metadata file, and its caption is
    left out when the metadata file is missing or cannot be parsed. *)
Theorem past_narrations_order_and_tolerance (L : PyLib) (w : World) :
  exists listing,
    App.past_narrations L w = (Ret listing, w) /\
    StronglySorted str_ge (App.shown_names listing) /\
    (forall tone d1 d2,
        dt_wf d1 -> dt_wf d2 -> dt_key d2 < dt_key d1 ->
        audio_name (lit "speech") tone (strftime d1) ∈ App.shown_names listing ->
        audio_name (lit "speech") tone (strftime d2) ∈ App.shown_names listing ->
        exists l1 l2 l3,
          App.shown_names listing
          = l1 ++ audio_name (lit "speech") tone (strftime d1)
               :: l2 ++ audio_name (lit "speech") tone (strftime d2) :: l3) /\
    Forall2 (App.entry_spec L (w_fs w) (lit "outputs"))
            (take 20 (App.listed_files (w_fs w))) (App.shown listing).
Proof.
  destruct (past_narrations_run L w) as (listing & Hrun & Hall & _).
  exists listing. split; [exact Hrun|].
  assert (Hsorted : StronglySorted str_ge (App.shown_names listing)).
  { rewrite (shown_names_take L w listing Hall).
    apply names_desc_map, names_desc_take, listed_files_sorted. }
  split; [exact Hsorted|]. split; [|exact Hall].
  intros tone d1 d2 Hw1 Hw2 Hk H1 H2.
  apply sorted_desc_greater_first; try assumption.
  apply audio_name_ltb; assumption.
Qed.

(** C7, at a concrete directory: two narrations of the same tone are listed
    newest first. *)
Lemma past_narrations_order_and_tolerance_witness :
  exists listing l1 l2 l3,
    App.past_narrations Sample.lib (Sample.world Sample.many_narrations [])
    = (Ret listing, Sample.world Sample.many_narrations []) /\
    App.shown_names listing
    = l1 ++ audio_name (lit "speech") (lit "Calm") (strftime (Sample.dt 2025 1 1 0 0 20))
         :: l2 ++ audio_name (lit "speech") (lit "Calm")
                    (strftime (Sample.dt 2025 1 1 0 0 5)) :: l3.
Proof.
  destruct (past_narrations_order_and_tolerance Sample.lib
              (Sample.world Sample.many_narrations []))
    as (listing & Hrun & _ & Horder & Hall).
  pose proof (shown_names_take Sample.lib _ listing Hall) as Hnames.
  destruct (Horder (lit "Calm") (Sample.dt 2025 1 1 0 0 20) (Sample.dt 2025 1 1 0 0 5))
    as (l1 & l2 & l3 & Heq).
  - unfold dt_wf. cbn. lia.
  - unfold dt_wf. cbn. lia.
  - vm_compute. reflexivity.
  - rewrite Hnames. apply (bool_decide_unpack _). vm_compute. exact I.
  - rewrite Hnames. apply (bool_decide_unpack _). vm_compute. exact I.
  - exists listing, l1, l2, l3. split; [exact Hrun | exact Heq].
Defined.

(** C7 (as stated) fails on the order: with an older narration in tone
    "Urgent" and a newer one in tone "Calm", the older one is listed first. *)
Lemma past_narrations_not_newest_first :
  fst (App.past_narrations Sample.lib (Sample.world Sample.two_narrations []))
  = Ret (App.Narrations
           [ {| App.n_name := audio_name (lit "speech") (lit "Urgent")
                                (strftime (Sample.dt 2024 1 1 0 0 0));
                App.n_caption := None; App.n_data := FBytes [Byte.x01] |};
             {| App.n_name := audio_name (lit "speech") (lit "Calm")
                                (strftime (Sample.dt 2025 1 2 0 0 0));
                App.n_caption := None; App.n_data := FBytes [Byte.x02] |} ]) /\
  dt_key (Sample.dt 2024 1 1 0 0 0) < dt_key (Sample.dt 2025 1 2 0 0 0).
Proof. split; vm_compute; reflexivity. Qed.

(** ** Which files a job writes *)

Section Synthesis.
Variable L : PyLib.
Variable E : Env.

Lemma fs_pres_core_tts text lang tld slow :
  fs_pres (Core.tts_with_gtts_to_bytes E text lang tld slow).
Proof.
  unfold Core.tts_with_gtts_to_bytes. apply fs_pres_bind; [auto with fs_pres|].
  intros _. destruct (negb _); [auto with fs_pres|].
  destruct (gtts E text lang tld slow); auto with fs_pres.
Qed.

Lemma fs_frame_tts_with_gtts text lang mp3_path wav :
  fs_frame [path_str mp3_path; wav] (Terminal.tts_with_gtts E text lang mp3_path).
Proof.
  unfold Terminal.tts_with_gtts. fs_frame_step. fs_frame_step.
  destruct (negb _); [fs_frame_step|].
  destruct (gtts E text lang (lit "com") false).
  - apply fs_frame_write_file. set_solver.
  - fs_frame_step; [|fs_frame_step]. apply fs_frame_leave_output. set_solver.
Qed.

Lemma fs_frame_tts_with_piper text model_path mp3_path :
  fs_frame [path_str mp3_path; path_str (path_sibling mp3_path (lit ".wav"))]
           (Terminal.tts_with_piper E text model_path mp3_path).
Proof.
  unfold Terminal.tts_with_piper. fs_frame_step. fs_frame_step.
  destruct (negb _); [fs_frame_step|].
  fs_frame_step. fs_frame_step.
  fs_frame_step. { apply fs_frame_leave_output. set_solver. }
  destruct (negb _); [fs_frame_step|].
  fs_frame_step. fs_frame_step.
  destruct (which E (lit "ffmpeg")).
  - fs_frame_step. fs_frame_step.
    fs_frame_step. { apply fs_frame_leave_output. set_solver. }
    destruct (negb _); [fs_frame_step|]. apply fs_frame_unlink. set_solver.
  - destruct (negb _); [fs_frame_step|].
    destruct (pydub_to_mp3 E _).
    + fs_frame_step. { apply fs_frame_write_file. set_solver. }
      apply fs_frame_unlink. set_solver.
    + fs_frame_step; [|fs_frame_step]. apply fs_frame_leave_output. set_solver.
Qed.

Lemma fs_frame_synthesize args rewritten mp3_path :
  fs_frame [path_str mp3_path; path_str (path_sibling mp3_path (lit ".wav"))]
           (Terminal.synthesize E args rewritten mp3_path).
Proof.
  unfold Terminal.synthesize. destruct (Terminal.truthy _).
  - fs_frame_step. fs_frame_step. fs_frame_step. apply fs_frame_tts_with_piper.
  - fs_frame_step. fs_frame_step. fs_frame_step. apply fs_frame_tts_with_gtts.
Qed.

Lemma fs_pres_main_rewrite args text tone :
  fs_pres (Terminal.main_rewrite L E args text tone).
Proof.
  unfold Terminal.main_rewrite. fs_pres_step. fs_pres_step. fs_pres_step.
  apply fs_pres_try_except.
  - intros w. apply terminal_rewrite_fs.
  - intros e. repeat fs_pres_step.
Qed.

End Synthesis.

Section AppSuccess.
Variable L : PyLib.
Variable E : Env.

(** The persisting part always runs to its end. *)
Lemma app_persist_run i rewritten audio w :
  let safe := _safe_name L (App.in_tone i) in
  let ts := strftime (clock E (w_tick w)) in
  let txt := out_file (rewritten_name safe (strftime (clock E (S (w_tick w))))) in
  let mp3 := out_file (audio_name (lit "speech") safe ts) in
  let meta := out_file (meta_name safe ts) in
  let record := App.meta_record i ts txt mp3 in
  exists w',
    App.persist L E i rewritten audio w = (Ret tt, w') /\
    w_fs w' = <[path_str meta := FText (json_dumps L record)]>
                (<[path_str mp3 := FBytes audio]>
                   (<[path_str txt := FText rewritten]> (w_fs w))) /\
    ss_last_meta (w_session w') = record /\
    w_log w' = w_log w ++ [EvWrite (path_str txt); EvWrite (path_str mp3);
                           EvWrite (path_str meta); EvSuccess App.success_msg].
Proof.
  cbv zeta. unfold App.persist.
  run_with ensure_outputs_dir_run.
  run_with now_run.
  unfold Core.save_text. run_with save_text_run.
  run_with write_file_run.
  run_with write_file_run.
  run_with set_last_meta_run.
  rewrite emit_run.
  eexists. split; [reflexivity|].
  cbn [w_fs w_log w_session w_tick logged with_log with_fs with_tick with_session
       ss_last_meta].
  split; [reflexivity|]. split; [reflexivity|].
  rewrite <- !app_assoc. reflexivity.
Qed.

(** A run of the [try] block that reaches its end went through a successful
    rewrite, a known voice preset, a successful synthesis and the persisting
    part. *)
Lemma app_generate_job_ret i w w' :
  App.generate_job L E i w = (Ret tt, w') ->
  exists rewritten w1 v audio w2 w3,
    Core.rewrite_with_ollama L E (strip (App.in_text i)) (App.in_tone i) (App.in_model i)
      (App.in_ollama_url i) (App.in_temperature i) (App.in_max_tokens i) w
    = (Ret rewritten, w1) /\
    App.preset_get (App.in_voice_name i) App.VOICE_PRESETS = Some v /\
    Core.tts_with_gtts_to_bytes E rewritten (App.vp_lang v) (App.vp_tld v) (App.vp_slow v)
      (snd (App.set_rewritten rewritten w1)) = (Ret audio, w2) /\
    w3 = snd (App.set_audio audio (lit "audio/mp3") w2) /\
    App.persist L E i rewritten audio w3 = (Ret tt, w').
Proof.
  unfold App.generate_job.
  destruct (Core.rewrite_with_ollama L E _ _ _ _ _ _ w) as [[rewritten|e|c] w1] eqn:Hrw;
    rewrite (bind_run _ _ _ _ _ Hrw); cbv beta iota; try discriminate.
  run_with set_rewritten_run.
  destruct (App.preset_get (App.in_voice_name i) App.VOICE_PRESETS) as [v|] eqn:Hv;
    [|discriminate].
  unfold bind at 1. unfold ret at 1. cbv beta iota.
  match goal with
  | |- context [Core.tts_with_gtts_to_bytes E ?t ?a ?b ?c] =>
      destruct (Core.tts_with_gtts_to_bytes E t a b c
                  (snd (App.set_rewritten rewritten w1))) as [[audio|e|c'] w2] eqn:Htts
  end; rewrite set_rewritten_run in Htts; cbn [snd] in Htts;
    rewrite (bind_run _ _ _ _ _ Htts); cbv beta iota; try discriminate.
  run_with set_audio_run.
  intros H. eexists rewritten, w1, v, audio, w2, _.
  split; [reflexivity|]. split; [reflexivity|].
  split; [rewrite set_rewritten_run; exact Htts|].
  split; [rewrite set_audio_run; reflexivity|]. exact H.
Qed.

End AppSuccess.

Section SynthesisStage.
Variable L : PyLib.
Variable E : Env.

Lemma exits_in_leave_output codes p o : exits_in codes (Terminal.leave_output p o).
Proof. destruct o; simpl; auto with exits. Qed.

Lemma exits_in_unlink codes key : exits_in codes (unlink_missing_ok key).
Proof. intros w c w' H. discriminate. Qed.

Lemma exits_in_synthesize args rewritten mp3_path :
  exits_in [] (Terminal.synthesize E args rewritten mp3_path).
Proof.
  unfold Terminal.synthesize. destruct (Terminal.truthy _).
  - exits_step; [exits_step; exits_step|].
    unfold Terminal.tts_with_piper. exits_step; [exits_step|].
    destruct (negb _); [exits_step|].
    exits_step; [exits_step|]. exits_step; [apply exits_in_leave_output|].
    destruct (negb _); [exits_step|].
    exits_step; [exits_step|].
    destruct (which E (lit "ffmpeg")).
    + exits_step; [exits_step|]. exits_step; [apply exits_in_leave_output|].
      destruct (negb _); [exits_step | apply exits_in_unlink].
    + destruct (negb _); [exits_step|].
      destruct (pydub_to_mp3 E _).
      * exits_step; [exits_step | apply exits_in_unlink].
      * exits_step; [apply exits_in_leave_output | exits_step].
  - exits_step; [exits_step; exits_step|].
    unfold Terminal.tts_with_gtts. exits_step; [exits_step|].
    destruct (negb _); [exits_step|].
    destruct (gtts E _ _ _ _); [exits_step|].
    exits_step; [apply exits_in_leave_output | exits_step].
Qed.

Lemma fs_frame_main_tts_done args rewritten mp3_path :
  fs_frame [path_str mp3_path; path_str (path_sibling mp3_path (lit ".wav"))]
           (Terminal.main_tts E args rewritten mp3_path >> print (nl ++ lit "Done.")).
Proof.
  apply fs_frame_bind.
  - unfold Terminal.main_tts. apply fs_frame_try_except.
    + apply fs_frame_bind; [apply fs_frame_synthesize|]. intros _. fs_frame_step.
      fs_frame_step.
    + intros e. fs_frame_step; fs_frame_step. fs_frame_step.
  - intros _. fs_frame_step. fs_frame_step.
Qed.

(** The synthesis stage of the browser front-end logs its entry and nothing
    else. *)
Lemma core_tts_world text lang tld slow w :
  snd (Core.tts_with_gtts_to_bytes E text lang tld slow w) = logged w [EvSynthCall text].
Proof.
  unfold Core.tts_with_gtts_to_bytes, bind. rewrite emit_run. cbv beta iota.
  destruct (negb _); [reflexivity|].
  destruct (gtts E text lang tld slow); reflexivity.
Qed.

(** What a run of [main] that reached the synthesis stage has done to the
    file system: the text file holds the rewritten text, and nothing but the
    text file, the audio path and its WAV sibling has changed. *)
Lemma terminal_main_files args w r w' :
  Terminal.main L E args w = (r, w') ->
  (r = Ret tt \/ r = Exit 3%Z) ->
  exists text w1 tone w2 rewritten w3 w4,
    Terminal.main_gather_text L args w = (Ret text, w1) /\
    Terminal.main_pick_tone L args w1 = (Ret tone, w2) /\
    Terminal.main_rewrite L E args text tone w2 = (Ret rewritten, w3) /\
    let safe := _safe_name L tone in
    let txt := out_file (rewritten_name safe (strftime (clock E (w_tick w3)))) in
    let mp3 := out_file (audio_name (Terminal.a_out_prefix args) safe
                           (strftime (clock E (S (w_tick w3))))) in
    Terminal.main_save_text L E args rewritten tone w3 = (Ret mp3, w4) /\
    (Terminal.main_tts E args rewritten mp3 >> print (nl ++ lit "Done.")) w4 = (r, w') /\
    w_fs w4 = <[path_str txt := FText rewritten]> (w_fs w) /\
    w_fs w' !! path_str txt = Some (FText rewritten) /\
    (forall k,
        k ∉ [path_str txt; path_str mp3; path_str (path_sibling mp3 (lit ".wav"))] ->
        w_fs w' !! k = w_fs w !! k) /\
    (forall safe' ts',
        w_fs w' !! path_str (out_file (meta_name safe' ts'))
        = w_fs w !! path_str (out_file (meta_name safe' ts'))).
Proof.
  intros H Hr.
  destruct (terminal_main_stages L E args w r w' H Hr)
    as (text & w1 & tone & w2 & rewritten & w3 & mp3 & w4 & Hg & Hp & Hrw & Hs & Htts).
  destruct (main_save_text_run L E args rewritten tone w3) as (w4' & Hs' & Hfs4).
  rewrite Hs in Hs'. injection Hs' as -> <-.
  assert (Hfs3 : w_fs w3 = w_fs w).
  { pose proof (fs_pres_main_gather_text L args w) as H1.
    pose proof (fs_pres_main_pick_tone L args w1) as H2.
    pose proof (fs_pres_main_rewrite L E args text tone w2) as H3.
    rewrite Hg in H1. rewrite Hp in H2. rewrite Hrw in H3. simpl in *. congruence. }
  rewrite Hfs3 in Hfs4.
  pose proof (fs_frame_main_tts_done args rewritten
                (out_file (audio_name (Terminal.a_out_prefix args) (_safe_name L tone)
                             (strftime (clock E (S (w_tick w3)))))) w4) as Hframe.
  rewrite Htts in Hframe. cbn [snd] in Hframe.
  exists text, w1, tone, w2, rewritten, w3, w4. cbv zeta.
  split; [exact Hg|]. split; [exact Hp|]. split; [exact Hrw|].
  split; [exact Hs|]. split; [exact Htts|]. split; [exact Hfs4|].
  assert (Htxt_mp3 : forall s1 t1 p s2 t2,
             path_str (out_file (rewritten_name s1 t1))
             <> path_str (out_file (audio_name p s2 t2))).
  { intros. eapply paths_differ_by_last;
      [apply last_rewritten_name | apply last_audio_name | discriminate]. }
  assert (Htxt_wav : forall s1 t1 p,
             path_str (out_file (rewritten_name s1 t1))
             <> path_str (path_sibling p (lit ".wav"))).
  { intros. eapply paths_differ_by_last;
      [apply last_rewritten_name | apply last_wav_sibling | discriminate]. }
  split; [|split].
  - rewrite Hframe.
    + rewrite Hfs4. apply lookup_insert_eq.
    + intros Hin. apply elem_of_cons in Hin as [Hin|Hin]; [eapply Htxt_mp3, Hin|].
      apply list_elem_of_singleton in Hin. eapply Htxt_wav, Hin.
  - intros k Hk. rewrite Hframe.
    + rewrite Hfs4. apply lookup_insert_ne. intros <-. apply Hk. left.
    + intros Hin. apply Hk. right. exact Hin.
  - intros safe' ts'. rewrite Hframe.
    + rewrite Hfs4. apply lookup_insert_ne.
      eapply paths_differ_by_last;
        [apply last_rewritten_name | apply last_meta_name | discriminate].
    + intros Hin. apply elem_of_cons in Hin as [Hin|Hin].
      * revert Hin. eapply paths_differ_by_last;
          [apply last_meta_name | apply last_audio_name | discriminate].
      * apply list_elem_of_singleton in Hin. revert Hin.
        eapply paths_differ_by_last;
          [apply last_meta_name | apply last_wav_sibling | discriminate].
Qed.

End SynthesisStage.

(** ** What the synthesizers of the terminal front-end leave *)

Section SynthesisResult.
Variable E : Env.

Lemma leave_output_run p o w :
  Terminal.leave_output p o w
  = (Ret tt,
     match o with
     | Some b => logged (with_fs w (<[path_str p := FBytes b]> (w_fs w))) [EvWrite (path_str p)]
     | None => w
     end).
Proof. destruct o; reflexivity. Qed.

Lemma unlink_run key w :
  unlink_missing_ok key w
  = (Ret tt, logged (with_fs w (delete key (w_fs w))) [EvUnlink key]).
Proof. reflexivity. Qed.

(** The file system that the Piper program leaves. *)
Lemma left_fs p o w :
  w_fs (match o with
        | Some b => logged (with_fs w (<[path_str p := FBytes b]> (w_fs w)))
                      [EvWrite (path_str p)]
        | None => w
        end)
  = match o with
    | Some b => <[path_str p := FBytes b]> (w_fs w)
    | None => w_fs w
    end.
Proof. destruct o; reflexivity. Qed.

(** The call up to the end of the Piper run, when the program is there. *)
Lemma tts_with_piper_started text model_path mp3 w :
  which E (lit "piper") = true ->
  let wav := path_sibling mp3 (lit ".wav") in
  let proc := run_piper E model_path text in
  let w1 := match pr_output proc with
            | Some b =>
                logged (with_fs (logged w [EvSynthCall text; EvRun (lit "piper")])
                          (<[path_str wav := FBytes b]> (w_fs w)))
                  [EvWrite (path_str wav)]
            | None => logged w [EvSynthCall text; EvRun (lit "piper")]
            end in
  Terminal.tts_with_piper E text model_path mp3 w
  = if negb (pr_rc proc =? 0)%Z then
      (Raise (RuntimeError (lit "Piper failed (rc=" ++ str_of_int (pr_rc proc)
                            ++ lit "). Stderr:" ++ nl ++ pr_stderr proc)), w1)
    else if which E (lit "ffmpeg") then
      (emit (EvRun (lit "ffmpeg")) >>
       Terminal.leave_output mp3 (pr_output (run_ffmpeg E (w_fs w1 !! path_str wav))) >>
       if negb (pr_rc (run_ffmpeg E (w_fs w1 !! path_str wav)) =? 0)%Z then
         raise (RuntimeError (lit "ffmpeg failed to convert WAV->MP3." ++ nl
                              ++ pr_stderr (run_ffmpeg E (w_fs w1 !! path_str wav))))
       else unlink_missing_ok (path_str wav)) w1
    else if negb (_HAS_PYDUB E) then
      (Raise (RuntimeError
                (lit "ffmpeg not found and pydub not installed. Install one to get MP3. "
                 ++ lit "WAV file at: " ++ path_str wav)), w1)
    else
      match pydub_to_mp3 E (w_fs w1 !! path_str wav) with
      | SynthOk audio =>
          (write_file (path_str mp3) (FBytes audio) >> unlink_missing_ok (path_str wav)) w1
      | SynthFail e partial => (Terminal.leave_output mp3 partial >> raise e) w1
      end.
Proof.
  intros Hp wav proc w1. unfold Terminal.tts_with_piper.
  rewrite (bind_run _ _ _ _ _ (emit_run _ _)). cbv beta iota.
  rewrite Hp. cbn [negb].
  rewrite (bind_run _ _ _ _ _ (emit_run _ _)). cbv beta iota.
  rewrite (bind_run _ _ _ _ _ (leave_output_run _ _ _)). cbv beta iota.
  rewrite logged_logged. cbn [app].
  fold wav. fold proc.
  assert (Hw1 : match pr_output proc with
                | Some b =>
                    logged (with_fs (logged w [EvSynthCall text; EvRun (lit "piper")])
                              (<[path_str wav := FBytes b]>
                                 (w_fs (logged w [EvSynthCall text; EvRun (lit "piper")]))))
                      [EvWrite (path_str wav)]
                | None => logged w [EvSynthCall text; EvRun (lit "piper")]
                end = w1).
  { subst w1. destruct (pr_output proc); reflexivity. }
  rewrite Hw1.
  destruct (negb (pr_rc proc =? 0)%Z); [reflexivity|].
  unfold get_fs. unfold bind at 1. cbv beta iota.
  destruct (which E (lit "ffmpeg")); [reflexivity|].
  destruct (negb (_HAS_PYDUB E)); [reflexivity|].
  destruct (pydub_to_mp3 E (w_fs w1 !! path_str wav)); reflexivity.
Qed.

(** A call of the gTTS synthesizer that returned has written the audio that
    gTTS delivered. *)
Lemma tts_with_gtts_ret text lang mp3 w w' :
  Terminal.tts_with_gtts E text lang mp3 w = (Ret tt, w') ->
  exists audio,
    gtts E text lang (lit "com") false = SynthOk audio /\
    w_fs w' = <[path_str mp3 := FBytes audio]> (w_fs w).
Proof.
  unfold Terminal.tts_with_gtts.
  rewrite (bind_run _ _ _ _ _ (emit_run _ _)). cbv beta iota.
  destruct (negb (_HAS_GTTS E)); [discriminate|].
  destruct (gtts E text lang (lit "com") false) as [audio|e partial].
  - rewrite write_file_run. intros [= <-]. exists audio. split; [reflexivity|].
    autorewrite with world. reflexivity.
  - rewrite (bind_run _ _ _ _ _ (leave_output_run _ _ _)). discriminate.
Qed.

Lemma tts_with_piper_ret text model_path mp3 w w' :
  Terminal.tts_with_piper E text model_path mp3 w = (Ret tt, w') ->
  let wav := path_str (path_sibling mp3 (lit ".wav")) in
  let wav_data := match pr_output (run_piper E model_path text) with
                  | Some b => Some (FBytes b)
                  | None => w_fs w !! wav
                  end in
  wav <> path_str mp3 ->
  w_fs w' !! wav = None /\
  (which E (lit "ffmpeg") = true ->
   w_fs w' !! path_str mp3
   = match pr_output (run_ffmpeg E wav_data) with
     | Some b => Some (FBytes b)
     | None => w_fs w !! path_str mp3
     end) /\
  (which E (lit "ffmpeg") = false ->
   exists audio,
     pydub_to_mp3 E wav_data = SynthOk audio /\
     w_fs w' !! path_str mp3 = Some (FBytes audio)).
Proof.
  intros Hrun wav wav_data Hne.
  destruct (which E (lit "piper")) eqn:Hp.
  2:{ unfold Terminal.tts_with_piper in Hrun.
      rewrite (bind_run _ _ _ _ _ (emit_run _ _)) in Hrun. cbv beta iota in Hrun.
      rewrite Hp in Hrun. discriminate. }
  rewrite (tts_with_piper_started text model_path mp3 w Hp) in Hrun.
  cbv zeta in Hrun. fold wav in Hrun.
  set (proc := run_piper E model_path text) in *.
  set (w1 := match pr_output proc with
             | Some b =>
                 logged (with_fs (logged w [EvSynthCall text; EvRun (lit "piper")])
                           (<[wav := FBytes b]> (w_fs w)))
                   [EvWrite wav]
             | None => logged w [EvSynthCall text; EvRun (lit "piper")]
             end) in *.
  assert (Hwav : w_fs w1 !! wav = wav_data).
  { subst w1 wav_data. destruct (pr_output proc); autorewrite with world.
    - apply lookup_insert_eq.
    - reflexivity. }
  assert (Hmp3 : w_fs w1 !! path_str mp3 = w_fs w !! path_str mp3).
  { subst w1. destruct (pr_output proc); autorewrite with world; [|reflexivity].
    apply lookup_insert_ne. exact Hne. }
  rewrite Hwav in Hrun.
  destruct (negb (pr_rc proc =? 0)%Z); [discriminate|].
  destruct (which E (lit "ffmpeg")).
  - rewrite (bind_run _ _ _ _ _ (emit_run _ _)) in Hrun. cbv beta iota in Hrun.
    rewrite (bind_run _ _ _ _ _ (leave_output_run _ _ _)) in Hrun. cbv beta iota in Hrun.
    destruct (negb (pr_rc (run_ffmpeg E wav_data) =? 0)%Z); [discriminate|].
    rewrite unlink_run in Hrun. injection Hrun as <-.
    autorewrite with world. split; [apply lookup_delete_eq|].
    split; [intros _ | discriminate].
    rewrite lookup_delete_ne by exact Hne.
    destruct (pr_output (run_ffmpeg E wav_data)); autorewrite with world.
    + apply lookup_insert_eq.
    + exact Hmp3.
  - destruct (negb (_HAS_PYDUB E)); [discriminate|].
    destruct (pydub_to_mp3 E wav_data) as [audio|e partial] eqn:Hd.
    + rewrite (bind_run _ _ _ _ _ (write_file_run _ _ _)) in Hrun. cbv beta iota in Hrun.
      rewrite unlink_run in Hrun. injection Hrun as <-.
      autorewrite with world. split; [apply lookup_delete_eq|].
      split; [discriminate | intros _].
      exists audio. split; [reflexivity|].
      rewrite lookup_delete_ne by exact Hne. apply lookup_insert_eq.
    + rewrite (bind_run _ _ _ _ _ (leave_output_run _ _ _)) in Hrun. discriminate.
Qed.

(** The last two steps of [main], when they return. *)
Lemma main_tts_done_ret args rewritten mp3 w w' :
  (Terminal.main_tts E args rewritten mp3 >> print (nl ++ lit "Done.")) w = (Ret tt, w') ->
  exists w5,
    Terminal.synthesize E args rewritten mp3 w = (Ret tt, w5) /\ w_fs w' = w_fs w5.
Proof.
  destruct (Terminal.synthesize E args rewritten mp3 w) as [[[]|e|c] w5] eqn:Hs;
    rewrite (bind_run _ _ _ _ _ (terminal_main_tts_run E args rewritten mp3 w _ _ Hs));
    try discriminate.
  unfold print. rewrite emit_run. intros [= <-]. exists w5. split; [reflexivity|].
  autorewrite with world. reflexivity.
Qed.

Lemma synthesize_gtts args rewritten mp3 w :
  Terminal.truthy (Terminal.a_piper_model args) = None ->
  Terminal.synthesize E args rewritten mp3 w
  = Terminal.tts_with_gtts E rewritten (Terminal.a_lang args) mp3
      (logged w [EvStdout ([8594] ++ lit " Using gTTS (simple). To use Piper offline, pass "
                           ++ lit "--piper-model /path/to/model.onnx")]).
Proof.
  intros H. unfold Terminal.synthesize. rewrite H. unfold print.
  rewrite (bind_run _ _ _ _ _ (emit_run _ _)). reflexivity.
Qed.

Lemma synthesize_piper args rewritten mp3 w model_path :
  Terminal.truthy (Terminal.a_piper_model args) = Some model_path ->
  Terminal.synthesize E args rewritten mp3 w
  = Terminal.tts_with_piper E rewritten model_path mp3
      (logged w [EvStdout ([8594] ++ lit " Using Piper (offline TTS).")]).
Proof.
  intros H. unfold Terminal.synthesize. rewrite H. unfold print.
  rewrite (bind_run _ _ _ _ _ (emit_run _ _)). reflexivity.
Qed.

End SynthesisResult.

(** ** The claims on persistence *)

Section HandlerSuccess.
Variable L : PyLib.
Variable E : Env.

Lemma exits_in_core_ensure codes model base_url :
  exits_in codes (Core.ensure_model_present E model base_url).
Proof.
  intros w c w'.
  destruct (core_ollama_models_run E base_url) as [ms Hms].
  rewrite (core_ensure_run E model base_url w w ms) by (rewrite Hms; reflexivity).
  destruct (bool_decide _); discriminate.
Qed.

Lemma exits_in_generate_job i : exits_in [] (App.generate_job L E i).
Proof.
  unfold App.generate_job.
  apply exits_in_bind.
  { apply exits_in_rewrite_with. intros m u. apply exits_in_core_ensure. }
  intros rewritten. apply exits_in_bind.
  { intros w c w'. rewrite set_rewritten_run. discriminate. }
  intros _. apply exits_in_bind.
  { destruct (App.preset_get _ _); auto with exits. }
  intros v. apply exits_in_bind.
  { unfold Core.tts_with_gtts_to_bytes. exits_step; [exits_step|].
    destruct (negb _); [exits_step|]. destruct (gtts E _ _ _ _); exits_step. }
  intros audio. apply exits_in_bind.
  { intros w c w'. rewrite set_audio_run. discriminate. }
  intros _ w c w'.
  destruct (app_persist_run L E i rewritten audio w) as (w'' & -> & _). discriminate.
Qed.

(** The handler shows [st.success] only at the end of its [try] block. *)
Lemma app_generate_success i w r w' :
  App.in_gen i = true ->
  App.generate L E i w = (r, w') ->
  last (w_log w') = Some (EvSuccess App.success_msg) ->
  r = Ret tt /\ App.generate_job L E i w = (Ret tt, w').
Proof.
  intros Hg. unfold App.generate. rewrite Hg.
  destruct (_ || _)%bool.
  - rewrite emit_run. intros [= <- <-]. rewrite w_log_logged, last_snoc. discriminate.
  - unfold try_except.
    destruct (App.generate_job L E i w) as [[[]|e|c] w1] eqn:Hjob.
    + intros [= <- <-] _. auto.
    + rewrite emit_run. intros [= <- <-].
      rewrite w_log_logged, last_snoc. discriminate.
    + apply exits_in_generate_job in Hjob. inversion Hjob.
Qed.

End HandlerSuccess.

(** C1 (as amended). A run of the browser handler that ends with
    [st.success] writes exactly three files: the text file
    [rewritten_<tone>_<t'>.txt], the audio file [speech_<tone>_<t>.mp3] and the
    metadata file [meta_<tone>_<t>.json], with the sanitized tone, [t] the
    clock reading of the handler and [t'] the next clock reading, taken inside
    [save_text]; the three paths differ, the ["text_file"] and ["audio_file"]
    fields of the metadata record are the paths of the text and audio files,
    and these files exist with the rewritten text and the audio bytes. A
    successful run of the terminal front-end writes the text file and leaves
    every metadata path, and every path other than the text file, the audio
    path and its WAV sibling, as it was; these three paths differ. With gTTS
    the run has written the text file and the audio file and nothing else,
    and the audio file holds the bytes that gTTS delivered for the rewritten
    text. With Piper the WAV sibling is gone, and the audio path holds what
    the converter left there: the output of [ffmpeg] run on the WAV file (or
    what was there before, when it wrote none), or else the MP3 that pydub
    exported from the WAV file. *)
Theorem successful_job_files (L : PyLib) (E : Env) :
  (forall i w r w',
      App.in_gen i = true ->
      App.generate L E i w = (r, w') ->
      last (w_log w') = Some (EvSuccess App.success_msg) ->
      exists rewritten audio n,
        let safe := _safe_name L (App.in_tone i) in
        let ts := strftime (clock E n) in
        let txt := out_file (rewritten_name safe (strftime (clock E (S n)))) in
        let mp3 := out_file (audio_name (lit "speech") safe ts) in
        let meta := out_file (meta_name safe ts) in
        let record := App.meta_record i ts txt mp3 in
        w_fs w' = <[path_str meta := FText (json_dumps L record)]>
                    (<[path_str mp3 := FBytes audio]>
                       (<[path_str txt := FText rewritten]> (w_fs w))) /\
        path_str txt <> path_str mp3 /\
        path_str txt <> path_str meta /\
        path_str mp3 <> path_str meta /\
        w_fs w' !! path_str txt = Some (FText rewritten) /\
        w_fs w' !! path_str mp3 = Some (FBytes audio) /\
        w_fs w' !! path_str meta = Some (FText (json_dumps L record)) /\
        ss_last_meta (w_session w') = record /\
        App.meta_field (lit "text_file") record = Some (JStr (path_str txt)) /\
        App.meta_field (lit "audio_file") record = Some (JStr (path_str mp3)) /\
        (strftime (clock E (S n)) = ts -> txt = out_file (rewritten_name safe ts)))
  /\
  (forall args w w',
      Terminal.main L E args w = (Ret tt, w') ->
      exists rewritten tone n,
        let safe := _safe_name L tone in
        let txt := out_file (rewritten_name safe (strftime (clock E n))) in
        let mp3 := out_file (audio_name (Terminal.a_out_prefix args) safe
                               (strftime (clock E (S n)))) in
        let wav := path_sibling mp3 (lit ".wav") in
        w_fs w' !! path_str txt = Some (FText rewritten) /\
        (forall k,
            k ∉ [path_str txt; path_str mp3; path_str (path_sibling mp3 (lit ".wav"))] ->
            w_fs w' !! k = w_fs w !! k) /\
        (forall safe' ts',
            w_fs w' !! path_str (out_file (meta_name safe' ts'))
            = w_fs w !! path_str (out_file (meta_name safe' ts'))) /\
        path_str txt <> path_str mp3 /\
        path_str txt <> path_str wav /\
        path_str mp3 <> path_str wav /\
        (Terminal.truthy (Terminal.a_piper_model args) = None ->
         exists audio,
           gtts E rewritten (Terminal.a_lang args) (lit "com") false = SynthOk audio /\
           w_fs w' = <[path_str mp3 := FBytes audio]>
                       (<[path_str txt := FText rewritten]> (w_fs w)) /\
           w_fs w' !! path_str mp3 = Some (FBytes audio)) /\
        (forall model_path,
            Terminal.truthy (Terminal.a_piper_model args) = Some model_path ->
            let wav_data := match pr_output (run_piper E model_path rewritten) with
                            | Some b => Some (FBytes b)
                            | None => w_fs w !! path_str wav
                            end in
            w_fs w' !! path_str wav = None /\
            (which E (lit "ffmpeg") = true ->
             w_fs w' !! path_str mp3
             = match pr_output (run_ffmpeg E wav_data) with
               | Some b => Some (FBytes b)
               | None => w_fs w !! path_str mp3
               end) /\
            (which E (lit "ffmpeg") = false ->
             exists audio,
               pydub_to_mp3 E wav_data = SynthOk audio /\
               w_fs w' !! path_str mp3 = Some (FBytes audio)))).
Proof.
  split.
  - intros i w r w' Hgen Hrun Hlast.
    destruct (app_generate_success L E i w r w' Hgen Hrun Hlast) as [_ H].
    destruct (app_generate_job_ret L E i w w' H)
      as (rewritten & w1 & v & audio & w2 & w3 & Hrw & Hv & Htts & -> & Hper).
    destruct (app_persist_run L E i rewritten audio
                (snd (App.set_audio audio (lit "audio/mp3") w2)))
      as (w'' & Hper' & Hfs & Hmeta & _).
    rewrite Hper in Hper'. injection Hper' as <-.
    rewrite set_audio_run in Hfs, Hmeta. cbn [snd] in Hfs, Hmeta.
    autorewrite with world in Hfs, Hmeta.
    assert (Hfs2 : w_fs w2 = w_fs w).
    { pose proof (fs_pres_core_tts E rewritten (App.vp_lang v) (App.vp_tld v)
                    (App.vp_slow v) (snd (App.set_rewritten rewritten w1))) as H2.
      rewrite Htts in H2. cbn [snd] in H2. rewrite set_rewritten_run in H2.
      cbn [snd] in H2. autorewrite with world in H2.
      pose proof (core_rewrite_fs L E (strip (App.in_text i)) (App.in_tone i)
                    (App.in_model i) (App.in_ollama_url i) (App.in_temperature i)
                    (App.in_max_tokens i) w) as H1.
      rewrite Hrw in H1. cbn [snd] in H1. congruence. }
    rewrite Hfs2 in Hfs.
    exists rewritten, audio, (w_tick w2). cbv zeta.
    assert (Hd1 : forall s1 t1 p s2 t2,
               path_str (out_file (rewritten_name s1 t1))
               <> path_str (out_file (audio_name p s2 t2))).
    { intros. eapply paths_differ_by_last;
        [apply last_rewritten_name | apply last_audio_name | discriminate]. }
    assert (Hd2 : forall s1 t1 s2 t2,
               path_str (out_file (rewritten_name s1 t1))
               <> path_str (out_file (meta_name s2 t2))).
    { intros. eapply paths_differ_by_last;
        [apply last_rewritten_name | apply last_meta_name | discriminate]. }
    assert (Hd3 : forall p s1 t1 s2 t2,
               path_str (out_file (audio_name p s1 t1))
               <> path_str (out_file (meta_name s2 t2))).
    { intros. eapply paths_differ_by_last;
        [apply last_audio_name | apply last_meta_name | discriminate]. }
    split; [exact Hfs|]. split; [apply Hd1|]. split; [apply Hd2|]. split; [apply Hd3|].
    split.
    { rewrite Hfs. rewrite lookup_insert_ne by (apply not_eq_sym, Hd2).
      rewrite lookup_insert_ne by (apply not_eq_sym, Hd1). apply lookup_insert_eq. }
    split.
    { rewrite Hfs. rewrite lookup_insert_ne by (apply not_eq_sym, Hd3).
      apply lookup_insert_eq. }
    split; [rewrite Hfs; apply lookup_insert_eq|].
    split; [exact Hmeta|].
    split; [reflexivity|]. split; [reflexivity|].
    intros ->. reflexivity.
  - intros args w w' H.
    destruct (terminal_main_files L E args w (Ret tt) w' H (or_introl eq_refl))
      as (text & w1 & tone & w2 & rewritten & w3 & w4
          & _ & _ & _ & _ & Hlast & Hfs4 & H1 & H2 & H3).
    cbv zeta in Hlast, Hfs4, H1, H2, H3.
    exists rewritten, tone, (w_tick w3). cbv zeta.
    set (txt := out_file (rewritten_name (_safe_name L tone)
                            (strftime (clock E (w_tick w3))))) in *.
    set (mp3 := out_file (audio_name (Terminal.a_out_prefix args) (_safe_name L tone)
                            (strftime (clock E (S (w_tick w3)))))) in *.
    set (wav := path_sibling mp3 (lit ".wav")) in *.
    assert (Htm : path_str txt <> path_str mp3).
    { eapply paths_differ_by_last;
        [apply last_rewritten_name | apply last_audio_name | discriminate]. }
    assert (Htw : path_str txt <> path_str wav).
    { eapply paths_differ_by_last;
        [apply last_rewritten_name | apply last_wav_sibling | discriminate]. }
    assert (Hmw : path_str mp3 <> path_str wav).
    { eapply paths_differ_by_last;
        [apply last_audio_name | apply last_wav_sibling | discriminate]. }
    destruct (main_tts_done_ret E args rewritten mp3 w4 w' Hlast) as (w5 & Hsyn & Hfs5).
    split; [exact H1|]. split; [exact H2|]. split; [exact H3|].
    split; [exact Htm|]. split; [exact Htw|]. split; [exact Hmw|].
    split.
    + intros Hg. rewrite (synthesize_gtts E args rewritten mp3 w4 Hg) in Hsyn.
      destruct (tts_with_gtts_ret E _ _ _ _ _ Hsyn) as (audio & Hau & Hfs).
      autorewrite with world in Hfs. rewrite Hfs4 in Hfs. rewrite <- Hfs5 in Hfs.
      exists audio. split; [exact Hau|]. split; [exact Hfs|].
      rewrite Hfs. apply lookup_insert_eq.
    + intros model_path Hp.
      rewrite (synthesize_piper E args rewritten mp3 w4 model_path Hp) in Hsyn.
      pose proof (tts_with_piper_ret E _ _ _ _ _ Hsyn (not_eq_sym Hmw)) as Hpi.
      cbv zeta in Hpi. fold wav in Hpi. autorewrite with world in Hpi.
      rewrite <- Hfs5 in Hpi. rewrite Hfs4 in Hpi.
      rewrite lookup_insert_ne in Hpi by exact Htw.
      rewrite lookup_insert_ne in Hpi by exact Htm.
      exact Hpi.
Qed.

(** C1, at a concrete run of the browser handler (the clock ticks between the
    two readings) and of the terminal front-end with gTTS. *)
Lemma successful_job_files_witness :
  (exists rewritten audio n,
      w_fs (snd (App.generate Sample.lib Sample.env_ok
                   (Sample.inputs (lit "Hi.") (lit "Calm")) Sample.empty_world))
      = <[path_str (out_file (meta_name (_safe_name Sample.lib (lit "Calm"))
                                (strftime (clock Sample.env_ok n))))
          := FText (json_dumps Sample.lib
                      (App.meta_record (Sample.inputs (lit "Hi.") (lit "Calm"))
                         (strftime (clock Sample.env_ok n))
                         (out_file (rewritten_name (_safe_name Sample.lib (lit "Calm"))
                                      (strftime (clock Sample.env_ok (S n)))))
                         (out_file (audio_name (lit "speech")
                                      (_safe_name Sample.lib (lit "Calm"))
                                      (strftime (clock Sample.env_ok n))))))]>
          (<[path_str (out_file (audio_name (lit "speech")
                                   (_safe_name Sample.lib (lit "Calm"))
                                   (strftime (clock Sample.env_ok n))))
             := FBytes audio]>
             (<[path_str (out_file (rewritten_name (_safe_name Sample.lib (lit "Calm"))
                                      (strftime (clock Sample.env_ok (S n)))))
                := FText rewritten]> ∅)))
  /\
  (exists rewritten tone n,
      w_fs (snd (Terminal.main Sample.lib Sample.env_ok (Sample.args (lit "Calm") None)
                   (Sample.world ∅ [lit "Hi." ++ nl; nl])))
      !! path_str (out_file (rewritten_name (_safe_name Sample.lib tone)
                               (strftime (clock Sample.env_ok n))))
      = Some (FText rewritten) /\
      exists audio,
        gtts Sample.env_ok rewritten (lit "en") (lit "com") false = SynthOk audio /\
        w_fs (snd (Terminal.main Sample.lib Sample.env_ok (Sample.args (lit "Calm") None)
                     (Sample.world ∅ [lit "Hi." ++ nl; nl])))
        !! path_str (out_file (audio_name (lit "speech") (_safe_name Sample.lib tone)
                                 (strftime (clock Sample.env_ok (S n)))))
        = Some (FBytes audio)).
Proof.
  destruct (successful_job_files Sample.lib Sample.env_ok) as [Happ Hterm].
  split.
  - destruct (Happ (Sample.inputs (lit "Hi.") (lit "Calm")) Sample.empty_world (Ret tt)
                (snd (App.generate Sample.lib Sample.env_ok
                        (Sample.inputs (lit "Hi.") (lit "Calm")) Sample.empty_world)))
      as (rewritten & audio & n & Hfs & _).
    + reflexivity.
    + vm_compute. reflexivity.
    + vm_compute. reflexivity.
    + exists rewritten, audio, n. exact Hfs.
  - destruct (Hterm (Sample.args (lit "Calm") None) (Sample.world ∅ [lit "Hi." ++ nl; nl])
                (snd (Terminal.main Sample.lib Sample.env_ok (Sample.args (lit "Calm") None)
                        (Sample.world ∅ [lit "Hi." ++ nl; nl]))))
      as (rewritten & tone & n & Htxt & _ & _ & _ & _ & _ & Hg & _).
    + vm_compute. reflexivity.
    + destruct (Hg eq_refl) as (audio & Hau & _ & Hmp3).
      exists rewritten, tone, n. split; [exact Htxt|].
      exists audio. split; [exact Hau | exact Hmp3].
Defined.

(** C1 (as stated) fails for the terminal front-end: a successful run leaves a
    text file and an audio file (here with different time stamps, the clock
    having ticked between the two readings) and no metadata file. *)
Lemma terminal_success_without_metadata :
  fst (Terminal.main Sample.lib Sample.env_ok (Sample.args (lit "Calm") None)
         (Sample.world ∅ [lit "Hi." ++ nl; nl])) = Ret tt /\
  w_fs (snd (Terminal.main Sample.lib Sample.env_ok (Sample.args (lit "Calm") None)
               (Sample.world ∅ [lit "Hi." ++ nl; nl])))
  = <[ lit "outputs/rewritten_Calm_20250309-140559.txt" := FText (lit "Hello there.") ]>
    (<[ lit "outputs/speech_Calm_20250309-140600.mp3"
        := FBytes [Byte.x49; Byte.x44; Byte.x33] ]> ∅).
Proof. split; vm_compute; reflexivity. Qed.

(** C2 (as amended). In the browser front-end, when the rewrite stage succeeds
    and the synthesis stage raises, the handler reports the error and the file
    system is as before: nothing is written between the entry of the synthesis
    stage and the error. In the terminal front-end a run that ends with status
    3 had its text file written before the synthesis stage was entered; the
    file stays, and every metadata path, and every path other than the text
    file, the audio path and its WAV sibling, is as before. *)
Theorem synthesis_failure_files (L : PyLib) (E : Env) :
  (forall i w rewritten w1 v e w2,
      App.in_gen i = true -> strip (App.in_text i) <> [] ->
      Core.rewrite_with_ollama L E (strip (App.in_text i)) (App.in_tone i) (App.in_model i)
        (App.in_ollama_url i) (App.in_temperature i) (App.in_max_tokens i) w
      = (Ret rewritten, w1) ->
      App.preset_get (App.in_voice_name i) App.VOICE_PRESETS = Some v ->
      Core.tts_with_gtts_to_bytes E rewritten (App.vp_lang v) (App.vp_tld v) (App.vp_slow v)
        (snd (App.set_rewritten rewritten w1)) = (Raise e, w2) ->
      App.generate L E i w = (Ret tt, logged w2 [EvError (exn_str e)]) /\
      w_fs w2 = w_fs w /\
      w_log w2 = w_log w1 ++ [EvSynthCall rewritten])
  /\
  (forall args w w',
      Terminal.main L E args w = (Exit 3, w') ->
      exists text tone w2 rewritten w3 w4 e w5,
        Terminal.main_rewrite L E args text tone w2 = (Ret rewritten, w3) /\
        let safe := _safe_name L tone in
        let txt := out_file (rewritten_name safe (strftime (clock E (w_tick w3)))) in
        let mp3 := out_file (audio_name (Terminal.a_out_prefix args) safe
                               (strftime (clock E (S (w_tick w3))))) in
        Terminal.main_save_text L E args rewritten tone w3 = (Ret mp3, w4) /\
        Terminal.synthesize E args rewritten mp3 w4 = (Raise e, w5) /\
        w_fs w4 = <[path_str txt := FText rewritten]> (w_fs w) /\
        w_fs w' !! path_str txt = Some (FText rewritten) /\
        (forall k,
            k ∉ [path_str txt; path_str mp3; path_str (path_sibling mp3 (lit ".wav"))] ->
            w_fs w' !! k = w_fs w !! k) /\
        (forall safe' ts',
            w_fs w' !! path_str (out_file (meta_name safe' ts'))
            = w_fs w !! path_str (out_file (meta_name safe' ts')))).
Proof.
  split.
  - intros i w rewritten w1 v e w2 Hg Hs Hrw Hv Htts.
    pose proof (core_tts_world E rewritten (App.vp_lang v) (App.vp_tld v) (App.vp_slow v)
                  (snd (App.set_rewritten rewritten w1))) as Hw2.
    rewrite Htts in Hw2. cbn [snd] in Hw2.
    rewrite set_rewritten_run in Hw2. cbn [snd] in Hw2.
    split; [|split].
    + rewrite app_generate_nonblank by assumption.
      unfold try_except, App.generate_job.
      rewrite (bind_run _ _ _ _ _ Hrw). cbv beta iota.
      run_with set_rewritten_run. rewrite Hv.
      unfold bind at 1. unfold ret at 1. cbv beta iota.
      rewrite set_rewritten_run in Htts. cbn [snd] in Htts.
      rewrite (bind_run _ _ _ _ _ Htts). reflexivity.
    + subst w2. autorewrite with world.
      pose proof (core_rewrite_fs L E (strip (App.in_text i)) (App.in_tone i)
                    (App.in_model i) (App.in_ollama_url i) (App.in_temperature i)
                    (App.in_max_tokens i) w) as H1.
      rewrite Hrw in H1. exact H1.
    + subst w2. autorewrite with world. reflexivity.
  - intros args w w' H.
    destruct (terminal_main_files L E args w (Exit 3) w' H (or_intror eq_refl))
      as (text & w1 & tone & w2 & rewritten & w3 & w4 & _ & _ & Hrw & Hs & Htts
          & Hfs4 & H1 & H2 & H3).
    cbv zeta in Hs, Htts.
    destruct (Terminal.synthesize E args rewritten
                (out_file (audio_name (Terminal.a_out_prefix args) (_safe_name L tone)
                             (strftime (clock E (S (w_tick w3)))))) w4)
      as [[[]|e|c] w5] eqn:Hsyn;
      rewrite (bind_run _ _ _ _ _ (terminal_main_tts_run E args rewritten _ w4 _ w5 Hsyn))
        in Htts; cbv beta iota in Htts.
    + discriminate.
    + exists text, tone, w2, rewritten, w3, w4, e, w5. cbv zeta.
      split; [exact Hrw|]. split; [exact Hs|]. split; [exact Hsyn|].
      split; [exact Hfs4|]. split; [exact H1|]. split; [exact H2 | exact H3].
    + apply exits_in_synthesize in Hsyn. inversion Hsyn.
Qed.

(** C2, at concrete runs in which the rewrite succeeds and gTTS raises. *)
Lemma synthesis_failure_files_witness :
  (App.generate Sample.lib Sample.env_tts_down
     (Sample.inputs (lit "Hi.") (lit "Calm")) Sample.empty_world
   = (Ret tt,
      logged (snd (Core.tts_with_gtts_to_bytes Sample.env_tts_down (lit "Hello there.")
                     (lit "en") (lit "co.uk") false
                     (snd (App.set_rewritten (lit "Hello there.")
                             (snd (Core.rewrite_with_ollama Sample.lib Sample.env_tts_down
                                     (lit "Hi.") (lit "Calm") (lit "gemma3:4b")
                                     (lit "http://localhost:11434") (7 # 10) 512
                                     Sample.empty_world))))))
             [EvError (lit "Connection error")]))
  /\
  (exists rewritten txt,
      w_fs (snd (Terminal.main Sample.lib Sample.env_tts_down
                   (Sample.args (lit "Calm") None)
                   (Sample.world ∅ [lit "Hi." ++ nl; nl]))) !! txt
      = Some (FText rewritten)).
Proof.
  destruct (synthesis_failure_files Sample.lib Sample.env_tts_down) as [Happ Hterm].
  split.
  - apply (Happ (Sample.inputs (lit "Hi.") (lit "Calm")) Sample.empty_world
             (lit "Hello there.")
             (snd (Core.rewrite_with_ollama Sample.lib Sample.env_tts_down
                     (lit "Hi.") (lit "Calm") (lit "gemma3:4b")
                     (lit "http://localhost:11434") (7 # 10) 512 Sample.empty_world))
             {| App.vp_lang := lit "en"; App.vp_tld := lit "co.uk"; App.vp_slow := false |}
             (PyError (lit "gTTSError") (lit "Connection error"))).
    + reflexivity.
    + vm_compute. discriminate.
    + vm_compute. reflexivity.
    + vm_compute. reflexivity.
    + vm_compute. reflexivity.
  - destruct (Hterm (Sample.args (lit "Calm") None) (Sample.world ∅ [lit "Hi." ++ nl; nl])
                (snd (Terminal.main Sample.lib Sample.env_tts_down
                        (Sample.args (lit "Calm") None)
                        (Sample.world ∅ [lit "Hi." ++ nl; nl]))))
      as (text & tone & w2 & rewritten & w3 & w4 & e & w5 & _ & _ & _ & _ & Htxt & _).
    + vm_compute. reflexivity.
    + eexists rewritten, _. exact Htxt.
Defined.

(** C2 (as stated) fails for the terminal front-end: the rewrite succeeds, the
    synthesis raises (exit status 3), and the text file was written before the
    synthesis stage was entered; it is the only file of the output store. *)
Lemma terminal_text_written_before_synthesis :
  fst (Terminal.main Sample.lib Sample.env_tts_down (Sample.args (lit "Calm") None)
         (Sample.world ∅ [lit "Hi." ++ nl; nl])) = Exit 3 /\
  stage_trace (w_log (snd (Terminal.main Sample.lib Sample.env_tts_down
                             (Sample.args (lit "Calm") None)
                             (Sample.world ∅ [lit "Hi." ++ nl; nl]))))
  = [ EvRewriteCall (lit "Hi.") (lit "Calm") (lit "gemma3:4b");
      EvWrite (lit "outputs/rewritten_Calm_20250309-140559.txt");
      EvSynthCall (lit "Hello there.") ] /\
  w_fs (snd (Terminal.main Sample.lib Sample.env_tts_down (Sample.args (lit "Calm") None)
               (Sample.world ∅ [lit "Hi." ++ nl; nl])))
  = <[ lit "outputs/rewritten_Calm_20250309-140559.txt" := FText (lit "Hello there.") ]> ∅.
Proof. repeat split; vm_compute; reflexivity. Qed.

(** * Further properties of the code *)

Lemma lstrip_by_replicate p c n s :
  p c = true -> lstrip_by p (replicate n c ++ s) = lstrip_by p s.
Proof. intros H. induction n as [|n IH]; simpl; [reflexivity|]. rewrite H. exact IH. Qed.

Lemma rev_replicate {A} (c : A) n : rev (replicate n c) = replicate n c.
Proof.
  induction n as [|n IH]; simpl; [reflexivity|].
  rewrite IH. clear IH. induction n as [|n IH]; simpl; [reflexivity|]. rewrite IH. reflexivity.
Qed.

Lemma rstrip_char_replicate c n s :
  rstrip_char c (s ++ replicate n c) = rstrip_char c s.
Proof.
  unfold rstrip_char, rstrip_by. rewrite rev_app_distr, rev_replicate.
  rewrite lstrip_by_replicate by apply N.eqb_refl. reflexivity.
Qed.

(** X5. Trailing slashes of the base URL do not matter: with any number of
    them added, the URLs of the model list and of the generation request are
    the same, and the part before [/api/...] never ends with a slash. *)
Theorem api_urls_ignore_trailing_slashes (base_url : pystr) (n : nat) :
  tags_url (base_url ++ replicate n ch_slash) = tags_url base_url /\
  generate_url (base_url ++ replicate n ch_slash) = generate_url base_url /\
  last (rstrip_char ch_slash base_url) <> Some ch_slash.
Proof.
  unfold tags_url, generate_url. rewrite rstrip_char_replicate.
  repeat split. intros H. apply rstrip_by_last in H.
  rewrite N.eqb_refl in H. discriminate.
Qed.

(** Sanitization *)

Lemma lstrip_by_sublist p s : sublist (lstrip_by p s) s.
Proof.
  induction s as [|c r IH]; simpl; [constructor|].
  destruct (p c); [apply sublist_cons, IH | reflexivity].
Qed.

Lemma sublist_rev {A} (l k : list A) : sublist l k -> sublist (rev l) (rev k).
Proof.
  induction 1; simpl.
  - constructor.
  - apply sublist_app; [assumption | reflexivity].
  - etrans; [eassumption|]. apply sublist_inserts_r. reflexivity.
Qed.

Lemma rstrip_by_sublist p s : sublist (rstrip_by p s) s.
Proof.
  unfold rstrip_by. rewrite <- (rev_involutive s) at 2.
  apply sublist_rev, lstrip_by_sublist.
Qed.

Lemma strip_by_sublist p s : sublist (strip_by p s) s.
Proof.
  unfold strip_by. etrans; [apply rstrip_by_sublist | apply lstrip_by_sublist].
Qed.

Lemma filter_sublist' {A} (f : A -> bool) (l : list A) : sublist (List.filter f l) l.
Proof.
  induction l as [|x l IH]; simpl; [constructor|].
  destruct (f x); [apply sublist_skip | apply sublist_cons]; exact IH.
Qed.

Lemma lstrip_by_nil_iff p s : lstrip_by p s = [] <-> forallb p s = true.
Proof.
  split; [|apply lstrip_by_all].
  induction s as [|c r IH]; simpl; [reflexivity|].
  destruct (p c); [exact IH | discriminate].
Qed.

Lemma strip_by_nil_iff p s : strip_by p s = [] <-> forallb p s = true.
Proof.
  split; [|apply strip_by_all].
  intros H. apply lstrip_by_nil_iff.
  destruct (lstrip_by p s) as [|c r] eqn:E; [reflexivity|exfalso].
  assert (Hc : p c = false) by (apply (lstrip_by_head p s); rewrite E; reflexivity).
  unfold strip_by in H. rewrite E in H.
  unfold rstrip_by in H. apply (f_equal (@rev N)) in H. rewrite rev_involutive in H.
  simpl in H. apply lstrip_by_nil_iff in H.
  rewrite forallb_app in H. apply andb_true_iff in H as [_ H]. simpl in H.
  rewrite Hc in H. discriminate.
Qed.

Section SafeNameMore.
Variable L : PyLib.

Lemma isalnum_underscore : isalnum L ch_underscore = false.
Proof. reflexivity. Qed.

Lemma safe_name_fixed_iff s :
  _safe_name L s = s <->
  Forall (fun c => keep_char L c = true) s /\
  head s <> Some ch_underscore /\ last s <> Some ch_underscore.
Proof.
  split.
  - intros H. rewrite <- H. split; [apply safe_name_chars|].
    split; [apply safe_name_head | apply safe_name_last].
  - intros (Hk & Hh & Hl). unfold _safe_name, strip_char.
    rewrite (filter_keep_id L s Hk). apply strip_by_id.
    + intros c Hc. apply N.eqb_neq. intros <-. contradiction.
    + intros c Hc. apply N.eqb_neq. intros <-. contradiction.
Qed.

Lemma safe_name_sublist s : sublist (_safe_name L s) s.
Proof.
  unfold _safe_name, strip_char.
  etrans; [apply strip_by_sublist | apply filter_sublist'].
Qed.

End SafeNameMore.

(** Time stamps and file names *)

Lemma base100_inj a b a' b' :
  b < 100 -> b' < 100 -> a * 100 + b = a' * 100 + b' -> a = a' /\ b = b'.
Proof. lia. Qed.

Lemma dt_key_inj d1 d2 : dt_wf d1 -> dt_wf d2 -> dt_key d1 = dt_key d2 -> d1 = d2.
Proof.
  destruct d1 as [y1 mo1 da1 h1 mi1 s1], d2 as [y2 mo2 da2 h2 mi2 s2].
  unfold dt_wf, dt_key. cbn [dt_year dt_month dt_day dt_hour dt_minute dt_second].
  intros (_ & Hmo1 & Hd1 & Hh1 & Hmi1 & Hs1) (_ & Hmo2 & Hd2 & Hh2 & Hmi2 & Hs2) Hk.
  apply base100_inj in Hk as [Hk ->]; [|assumption..].
  apply base100_inj in Hk as [Hk ->]; [|assumption..].
  apply base100_inj in Hk as [Hk ->]; [|assumption..].
  apply base100_inj in Hk as [Hk ->]; [|assumption..].
  apply base100_inj in Hk as [-> ->]; [|assumption..].
  reflexivity.
Qed.

Lemma strftime_inj d1 d2 : dt_wf d1 -> dt_wf d2 -> strftime d1 = strftime d2 -> d1 = d2.
Proof.
  intros H1 H2 He. apply dt_key_inj; [assumption..|].
  destruct (N.lt_trichotomy (dt_key d1) (dt_key d2)) as [Hlt|[Heq|Hgt]]; [|exact Heq|].
  - pose proof (strftime_mono d1 d2 H1 H2 Hlt) as H.
    rewrite He, str_compare_refl in H. discriminate.
  - pose proof (strftime_mono d2 d1 H2 H1 Hgt) as H.
    rewrite He, str_compare_refl in H. discriminate.
Qed.

Lemma rewritten_name_inj s1 t1 s2 t2 :
  length t1 = length t2 ->
  rewritten_name s1 t1 = rewritten_name s2 t2 -> s1 = s2 /\ t1 = t2.
Proof.
  unfold rewritten_name. intros Hl H.
  apply app_inv_head in H.
  apply app_inj_2 in H as [Hs H]; [|rewrite !length_app; simpl; lia].
  apply app_inv_head in H. apply app_inv_tail in H. auto.
Qed.

Lemma audio_name_inj p s1 t1 s2 t2 :
  length t1 = length t2 ->
  audio_name p s1 t1 = audio_name p s2 t2 -> s1 = s2 /\ t1 = t2.
Proof.
  unfold audio_name. intros Hl H.
  apply app_inv_head in H. apply app_inv_head in H.
  apply app_inj_2 in H as [Hs H]; [|rewrite !length_app; simpl; lia].
  apply app_inv_head in H. apply app_inv_tail in H. auto.
Qed.

Lemma meta_name_inj s1 t1 s2 t2 :
  length t1 = length t2 ->
  meta_name s1 t1 = meta_name s2 t2 -> s1 = s2 /\ t1 = t2.
Proof.
  unfold meta_name. intros Hl H.
  apply app_inv_head in H.
  apply app_inj_2 in H as [Hs H]; [|rewrite !length_app; simpl; lia].
  apply app_inv_head in H. apply app_inv_tail in H. auto.
Qed.

(** split and join *)
Lemma split_char_nonnil c s : split_char c s <> [].
Proof.
  destruct s as [|x r]; simpl; [discriminate|].
  destruct (x =? c); [discriminate|]. destruct (split_char c r); discriminate.
Qed.

Lemma join_cons_nonnil sep p ps : ps <> [] -> join sep (p :: ps) = p ++ sep ++ join sep ps.
Proof. destruct ps; [congruence | reflexivity]. Qed.

Lemma join_split_char c s : join [c] (split_char c s) = s.
Proof.
  induction s as [|x r IH]; [reflexivity|].
  cbn [split_char]. destruct (N.eqb_spec x c) as [->|Hne].
  - rewrite join_cons_nonnil by apply split_char_nonnil. rewrite IH. reflexivity.
  - destruct (split_char c r) as [|p ps] eqn:E; [exfalso; eapply split_char_nonnil, E|].
    destruct ps as [|q qs].
    + simpl in *. congruence.
    + change (join [c] ((x :: p) :: q :: qs)) with (x :: join [c] (p :: q :: qs)).
      rewrite IH. reflexivity.
Qed.

Lemma rfind_char_none c s : Forall (fun x => x <> c) s -> rfind_char c s = None.
Proof.
  induction 1 as [|x r Hx Hr IH]; simpl; [reflexivity|].
  rewrite IH. apply N.eqb_neq in Hx. rewrite Hx. reflexivity.
Qed.

Lemma rfind_char_app c s t i :
  rfind_char c t = Some i -> rfind_char c (s ++ t) = Some (length s + i)%nat.
Proof.
  intros H. induction s as [|x s IH]; simpl; [exact H|]. rewrite IH. reflexivity.
Qed.

Lemma path_stem_ext dir stem ext :
  stem <> [] -> ext <> [] -> Forall (fun x => x <> 46) ext ->
  path_stem {| p_dir := dir; p_name := stem ++ 46 :: ext |} = stem.
Proof.
  intros Hs He Hext. unfold path_stem. cbn [p_name].
  rewrite (rfind_char_app 46 stem (46 :: ext) 0).
  2:{ simpl. rewrite rfind_char_none by exact Hext. reflexivity. }
  rewrite Nat.add_0_r.
  assert (H1 : (0 <? length stem)%nat = true).
  { apply Nat.ltb_lt. destruct stem; [congruence | simpl; lia]. }
  assert (H2 : (length stem <? length (stem ++ 46%N :: ext) - 1)%nat = true).
  { apply Nat.ltb_lt. rewrite length_app. simpl. destruct ext; [congruence | simpl; lia]. }
  rewrite H1, H2. simpl. apply take_app_length.
Qed.

Lemma digit_range n : 48 <= digit n <= 57.
Proof.
  unfold digit. pose proof (N.mod_lt n 10 ltac:(lia)) as H. revert H.
  generalize (n mod 10). intros r H. lia.
Qed.

Lemma digit_plain n : digit n <> 46 /\ digit n <> ch_slash.
Proof. pose proof (digit_range n). unfold ch_slash. lia. Qed.

Lemma strftime_plain d : Forall (fun c => c <> 46 /\ c <> ch_slash) (strftime d).
Proof.
  unfold strftime, fmt4, fmt2. cbn [app].
  repeat (constructor; [first [ apply digit_plain | split; discriminate ] |]).
  constructor.
Qed.

Lemma safe_name_plain L s : Forall (fun c => c <> 46 /\ c <> ch_slash) (_safe_name L s).
Proof.
  eapply List.Forall_impl; [|apply safe_name_chars].
  intros c Hc. split; intros ->; discriminate Hc.
Qed.

Lemma existsb_slash_false n :
  Forall (fun c => c <> 46 /\ c <> ch_slash) n -> existsb (N.eqb ch_slash) n = false.
Proof.
  induction 1 as [|c r [_ Hc] Hr IH]; [reflexivity|].
  cbn [existsb]. rewrite IH.
  destruct (N.eqb_spec ch_slash c); [congruence | reflexivity].
Qed.

Lemma endswith_app s p : endswith (s ++ p) p = true.
Proof. unfold endswith. rewrite rev_app_distr. apply is_prefix_app. Qed.

Lemma speech_name_plain L tone d :
  Forall (fun c => c <> 46 /\ c <> ch_slash)
         (lit "speech_" ++ _safe_name L tone ++ lit "_" ++ strftime d).
Proof.
  apply Forall_app. split; [repeat constructor; discriminate|].
  apply Forall_app. split; [apply safe_name_plain|].
  apply Forall_app. split; [repeat constructor; discriminate | apply strftime_plain].
Qed.

Lemma audio_name_speech safe ts :
  audio_name (lit "speech") safe ts = (lit "speech_" ++ safe ++ lit "_" ++ ts) ++ 46 :: lit "mp3".
Proof. unfold audio_name. rewrite <- !app_assoc. reflexivity. Qed.

Lemma audio_name_no_slash L tone d :
  existsb (N.eqb ch_slash) (audio_name (lit "speech") (_safe_name L tone) (strftime d))
  = false.
Proof.
  rewrite audio_name_speech.
  rewrite existsb_app, (existsb_slash_false _ (speech_name_plain L tone d)). reflexivity.
Qed.

Lemma audio_name_matches safe ts :
  match_speech_mp3 (audio_name (lit "speech") safe ts) = true.
Proof.
  unfold match_speech_mp3. apply andb_true_iff. split; [reflexivity|].
  change (drop 7 (audio_name (lit "speech") safe ts))
    with (safe ++ lit "_" ++ ts ++ lit ".mp3").
  rewrite !app_assoc. apply endswith_app.
Qed.

Lemma meta_path_of_audio dir safe ts :
  App.meta_path_of dir {| p_dir := dir; p_name := audio_name (lit "speech") safe ts |}
  = {| p_dir := dir; p_name := meta_name safe ts |}.
Proof.
  unfold App.meta_path_of. f_equal.
  rewrite audio_name_speech, path_stem_ext.
  - change (split_char ch_underscore (lit "speech_" ++ safe ++ lit "_" ++ ts))
      with (lit "speech" :: split_char ch_underscore (safe ++ lit "_" ++ ts)).
    cbn [tail]. change (lit "_") with [ch_underscore] at 1.
    rewrite join_split_char. unfold meta_name. rewrite <- !app_assoc. reflexivity.
  - discriminate.
  - discriminate.
  - repeat constructor; discriminate.
Qed.

(** X9. The expander finds every audio file that the handler writes, and
    looks for its metadata exactly where the handler wrote it: for every
    tone and clock reading, [speech_<tone>_<ts>.mp3] is a direct child of the
    output directory that matches [speech_*.mp3], and the metadata path
    computed from its stem is [meta_<tone>_<ts>.json], also when the
    sanitized tone is empty or contains underscores. *)
Theorem listing_pairs_handler_files (L : PyLib) (dir tone : pystr) (d : datetime) :
  let safe := _safe_name L tone in
  let ts := strftime d in
  let f := {| p_dir := dir; p_name := audio_name (lit "speech") safe ts |} in
  child_name dir (path_str f) = Some (p_name f) /\
  match_speech_mp3 (p_name f) = true /\
  App.meta_path_of dir f = {| p_dir := dir; p_name := meta_name safe ts |}.
Proof.
  intros safe ts f. split; [|split].
  - apply child_name_complete, audio_name_no_slash.
  - apply audio_name_matches.
  - apply meta_path_of_audio.
Qed.

(** X6. The sanitized tone is the tone with characters removed: nothing is
    added, replaced or reordered. It is the tone itself exactly when every
    character of the tone is alphanumeric, a hyphen or an underscore and the
    tone neither starts nor ends with an underscore. *)
Theorem safe_name_removes_only (L : PyLib) (tone : pystr) :
  sublist (_safe_name L tone) tone /\
  (_safe_name L tone = tone <->
   Forall (fun c => isalnum L c = true \/ c = ch_hyphen \/ c = ch_underscore) tone /\
   head tone <> Some ch_underscore /\ last tone <> Some ch_underscore).
Proof.
  split; [apply safe_name_sublist|].
  rewrite safe_name_fixed_iff.
  assert (Hk : forall c, keep_char L c = true <->
                         isalnum L c = true \/ c = ch_hyphen \/ c = ch_underscore).
  { intros c. unfold keep_char. rewrite !orb_true_iff, !N.eqb_eq. tauto. }
  split; intros (H1 & H2 & H3); (split; [|split; assumption]);
    (eapply List.Forall_impl; [|exact H1]); intros c Hc; apply Hk, Hc.
Qed.

(** X7. The sanitized tone is empty exactly when the tone has no
    alphanumeric character and no hyphen (underscores alone do not count):
    the file names of such a tone have an empty tone segment. *)
Theorem safe_name_empty_iff (L : PyLib) (tone : pystr) :
  _safe_name L tone = [] <->
  Forall (fun c => isalnum L c = false /\ c <> ch_hyphen) tone.
Proof.
  unfold _safe_name, strip_char. rewrite strip_by_nil_iff.
  induction tone as [|c r IH].
  - split; [constructor | reflexivity].
  - rewrite Forall_cons. cbn [List.filter].
    destruct (keep_char L c) eqn:Hk.
    + cbn [forallb]. rewrite andb_true_iff, IH.
      unfold keep_char in Hk.
      destruct (N.eqb_spec ch_underscore c) as [<-|Hu].
      * rewrite (isalnum_underscore L). unfold ch_underscore, ch_hyphen. intuition congruence.
      * destruct (isalnum L c); simpl in Hk.
        -- intuition congruence.
        -- apply orb_true_iff in Hk as [Hk|Hk]; apply N.eqb_eq in Hk; subst c.
           ++ intuition congruence.
           ++ congruence.
    + rewrite IH. unfold keep_char in Hk.
      apply orb_false_iff in Hk as [Hk _]. apply orb_false_iff in Hk as [Ha Hh].
      apply N.eqb_neq in Hh. tauto.
Qed.

(** ** The rewrite client: outcomes and effects *)

Section RewriteOutcomes.
Variable L : PyLib.
Variable E : Env.

(** A reply with a status other than 200, after a model check that passed. *)
Lemma rewrite_with_status_error ensure text tone model base_url temperature max_tokens
    w w1 status body data :
  ensure model base_url (logged w [EvRewriteCall text tone model]) = (Ret tt, w1) ->
  http_post_generate E (generate_request text tone model base_url temperature max_tokens)
    = HttpReply status body data ->
  status <> 200%Z ->
  rewrite_with L E ensure text tone model base_url temperature max_tokens w
  = (Raise (RuntimeError
              (if ((status =? 404)%Z && contains (str_lower L body) (lit "not found"))%bool
               then lit "Ollama says the model '" ++ model ++ lit "' is not found." ++ nl
                    ++ lit "Run:  ollama pull " ++ model ++ nl
                    ++ lit "Raw response: " ++ body
               else lit "Ollama returned HTTP " ++ str_of_int status ++ lit ": " ++ body)),
     logged w1 [EvHttpPost (generate_url base_url)]).
Proof.
  intros Hens Hpost Hst. unfold rewrite_with. unfold_monad. rewrite Hens, Hpost.
  apply Z.eqb_neq in Hst. rewrite Hst. cbn [negb].
  destruct (_ && _)%bool; reflexivity.
Qed.

(** A 200 reply whose JSON body has no ["response"] key. *)
Lemma rewrite_with_no_field ensure text tone model base_url temperature max_tokens
    w w1 body data :
  ensure model base_url (logged w [EvRewriteCall text tone model]) = (Ret tt, w1) ->
  http_post_generate E (generate_request text tone model base_url temperature max_tokens)
    = HttpReply 200 body (Some data) ->
  gd_response data = None ->
  rewrite_with L E ensure text tone model base_url temperature max_tokens w
  = (Raise (RuntimeError (lit "Unexpected Ollama response: " ++ take 500 (gd_dump data))),
     logged w1 [EvHttpPost (generate_url base_url)]).
Proof.
  intros Hens Hpost Hresp. unfold rewrite_with. unfold_monad. rewrite Hens, Hpost.
  simpl. rewrite Hresp. reflexivity.
Qed.

(** Whatever the reply, the call after a model check that passed ends
    without [sys.exit] and adds the POST to the log, nothing else. *)
Lemma rewrite_with_posted ensure text tone model base_url temperature max_tokens :
  exists r, (forall c, r <> Exit c) /\
    forall w w1,
      ensure model base_url (logged w [EvRewriteCall text tone model]) = (Ret tt, w1) ->
      rewrite_with L E ensure text tone model base_url temperature max_tokens w
      = (r, logged w1 [EvHttpPost (generate_url base_url)]).
Proof.
  unfold rewrite_with. unfold_monad.
  destruct (http_post_generate E
              (generate_request text tone model base_url temperature max_tokens))
    as [cause|status text' [data|]] eqn:Hpost.
  - eexists. split; [|intros w w1 ->; reflexivity]. discriminate.
  - destruct (negb (status =? 200)%Z) eqn:Hst.
    + destruct ((status =? 404)%Z && contains (str_lower L text') (lit "not found"))%bool
        eqn:Hnf; (eexists; split; [|intros w w1 ->; reflexivity]);
        discriminate.
    + destruct (gd_response data) eqn:Hresp;
        (eexists; split; [|intros w w1 ->; reflexivity]); discriminate.
  - destruct (negb (status =? 200)%Z) eqn:Hst.
    + destruct ((status =? 404)%Z && contains (str_lower L text') (lit "not found"))%bool
        eqn:Hnf; (eexists; split; [|intros w w1 ->; reflexivity]);
        discriminate.
    + eexists; split; [|intros w w1 ->; reflexivity]. discriminate.
Qed.

(** The whole call: its result and its events do not depend on the world,
    and the events are the entry, the GET of the model list and, when the
    model is installed, the POST. *)
Lemma core_rewrite_shape text tone model base_url temperature max_tokens :
  exists r evs,
    (forall w,
        Core.rewrite_with_ollama L E text tone model base_url temperature max_tokens w
        = (r, logged w evs)) /\
    (evs = [EvRewriteCall text tone model; EvHttpGet (tags_url base_url)] \/
     evs = [EvRewriteCall text tone model; EvHttpGet (tags_url base_url);
            EvHttpPost (generate_url base_url)]) /\
    (forall s, r = Ret s ->
               evs = [EvRewriteCall text tone model; EvHttpGet (tags_url base_url);
                      EvHttpPost (generate_url base_url)]) /\
    (forall c, r <> Exit c).
Proof.
  destruct (core_ollama_models_run E base_url) as [ms Hms].
  assert (Hens : forall w,
             Core.ensure_model_present E model base_url w
             = (if bool_decide (model ∈ ms) then Ret tt
                else Raise (RuntimeError (Core.not_found_msg model base_url ms)),
                logged w [EvHttpGet (tags_url base_url)])).
  { intros w. apply (core_ensure_run E model base_url w). rewrite Hms. reflexivity. }
  destruct (bool_decide (model ∈ ms)) eqn:Hin.
  - destruct (rewrite_with_posted (Core.ensure_model_present E) text tone model base_url
                temperature max_tokens) as (r & Hr & Hrun).
    exists r, [EvRewriteCall text tone model; EvHttpGet (tags_url base_url);
               EvHttpPost (generate_url base_url)].
    split; [|split; [right; reflexivity | split; [reflexivity | exact Hr]]].
    intros w. unfold Core.rewrite_with_ollama.
    rewrite (Hrun w _ (Hens _)), !logged_logged. reflexivity.
  - eexists _, [EvRewriteCall text tone model; EvHttpGet (tags_url base_url)].
    split.
    { intros w. unfold Core.rewrite_with_ollama.
      rewrite (rewrite_with_ensure_raise L E _ _ _ _ _ _ _ _ _ _ (Hens _)), logged_logged.
      reflexivity. }
    split; [left; reflexivity|]. split; discriminate.
Qed.

Lemma terminal_rewrite_shape text tone model base_url temperature max_tokens :
  exists r evs,
    (forall w,
        Terminal.rewrite_with_ollama L E text tone model base_url temperature max_tokens w
        = (r, logged w evs)) /\
    (evs = [EvRewriteCall text tone model; EvHttpGet (tags_url base_url)] \/
     evs = [EvRewriteCall text tone model; EvHttpGet (tags_url base_url);
            EvHttpPost (generate_url base_url)]) /\
    (forall s, r = Ret s ->
               evs = [EvRewriteCall text tone model; EvHttpGet (tags_url base_url);
                      EvHttpPost (generate_url base_url)]) /\
    (forall c, r <> Exit c).
Proof.
  destruct (terminal_ollama_models_run E base_url) as [ms Hms].
  assert (Hens : forall w,
             Terminal.ensure_model_present E model base_url w
             = (if bool_decide (model ∈ ms) then Ret tt
                else Raise (RuntimeError (Terminal.not_found_msg model base_url ms)),
                logged w [EvHttpGet (tags_url base_url)])).
  { intros w. apply (terminal_ensure_run E model base_url w). rewrite Hms. reflexivity. }
  destruct (bool_decide (model ∈ ms)) eqn:Hin.
  - destruct (rewrite_with_posted (Terminal.ensure_model_present E) text tone model base_url
                temperature max_tokens) as (r & Hr & Hrun).
    exists r, [EvRewriteCall text tone model; EvHttpGet (tags_url base_url);
               EvHttpPost (generate_url base_url)].
    split; [|split; [right; reflexivity | split; [reflexivity | exact Hr]]].
    intros w. unfold Terminal.rewrite_with_ollama.
    rewrite (Hrun w _ (Hens _)), !logged_logged. reflexivity.
  - eexists _, [EvRewriteCall text tone model; EvHttpGet (tags_url base_url)].
    split.
    { intros w. unfold Terminal.rewrite_with_ollama.
      rewrite (rewrite_with_ensure_raise L E _ _ _ _ _ _ _ _ _ _ (Hens _)), logged_logged.
      reflexivity. }
    split; [left; reflexivity|]. split; discriminate.
Qed.

End RewriteOutcomes.

Section RewriteByModelList.
Variable L : PyLib.
Variable E : Env.

(** The events of the call are decided by the model list that the check has
    obtained: with the model in the list the request is posted, without it
    the call ends after the GET with the "model not found" error. *)
Lemma core_rewrite_by_models text tone model base_url temperature max_tokens :
  exists r evs models,
    (forall w,
        Core._ollama_models E base_url w
        = (Ret models, logged w [EvHttpGet (tags_url base_url)])) /\
    (forall w,
        Core.rewrite_with_ollama L E text tone model base_url temperature max_tokens w
        = (r, logged w evs)) /\
    (model ∈ models ->
     evs = [EvRewriteCall text tone model; EvHttpGet (tags_url base_url);
            EvHttpPost (generate_url base_url)]) /\
    (model ∉ models ->
     evs = [EvRewriteCall text tone model; EvHttpGet (tags_url base_url)] /\
     r = Raise (RuntimeError (Core.not_found_msg model base_url models))) /\
    (forall c, r <> Exit c).
Proof.
  destruct (core_ollama_models_run E base_url) as [ms Hms].
  assert (Hens : forall w,
             Core.ensure_model_present E model base_url w
             = (if bool_decide (model ∈ ms) then Ret tt
                else Raise (RuntimeError (Core.not_found_msg model base_url ms)),
                logged w [EvHttpGet (tags_url base_url)])).
  { intros w. apply (core_ensure_run E model base_url w). rewrite Hms. reflexivity. }
  destruct (decide (model ∈ ms)) as [Hin|Hin].
  - rewrite bool_decide_eq_true_2 in Hens by exact Hin.
    destruct (rewrite_with_posted L E (Core.ensure_model_present E) text tone model base_url
                temperature max_tokens) as (r & Hr & Hrun).
    exists r, [EvRewriteCall text tone model; EvHttpGet (tags_url base_url);
               EvHttpPost (generate_url base_url)], ms.
    split; [exact Hms|]. split.
    { intros w. unfold Core.rewrite_with_ollama.
      rewrite (Hrun w _ (Hens _)), !logged_logged. reflexivity. }
    split; [reflexivity|]. split; [contradiction | exact Hr].
  - rewrite bool_decide_eq_false_2 in Hens by exact Hin.
    exists (Raise (RuntimeError (Core.not_found_msg model base_url ms))),
      [EvRewriteCall text tone model; EvHttpGet (tags_url base_url)], ms.
    split; [exact Hms|]. split.
    { intros w. unfold Core.rewrite_with_ollama.
      rewrite (rewrite_with_ensure_raise L E _ _ _ _ _ _ _ _ _ _ (Hens _)), logged_logged.
      reflexivity. }
    split; [contradiction|]. split; [split; reflexivity | discriminate].
Qed.

Lemma terminal_rewrite_by_models text tone model base_url temperature max_tokens :
  exists r evs models,
    (forall w,
        Terminal.ollama_models E base_url w
        = (Ret models, logged w [EvHttpGet (tags_url base_url)])) /\
    (forall w,
        Terminal.rewrite_with_ollama L E text tone model base_url temperature max_tokens w
        = (r, logged w evs)) /\
    (model ∈ models ->
     evs = [EvRewriteCall text tone model; EvHttpGet (tags_url base_url);
            EvHttpPost (generate_url base_url)]) /\
    (model ∉ models ->
     evs = [EvRewriteCall text tone model; EvHttpGet (tags_url base_url)] /\
     r = Raise (RuntimeError (Terminal.not_found_msg model base_url models))) /\
    (forall c, r <> Exit c).
Proof.
  destruct (terminal_ollama_models_run E base_url) as [ms Hms].
  assert (Hens : forall w,
             Terminal.ensure_model_present E model base_url w
             = (if bool_decide (model ∈ ms) then Ret tt
                else Raise (RuntimeError (Terminal.not_found_msg model base_url ms)),
                logged w [EvHttpGet (tags_url base_url)])).
  { intros w. apply (terminal_ensure_run E model base_url w). rewrite Hms. reflexivity. }
  destruct (decide (model ∈ ms)) as [Hin|Hin].
  - rewrite bool_decide_eq_true_2 in Hens by exact Hin.
    destruct (rewrite_with_posted L E (Terminal.ensure_model_present E) text tone model
                base_url temperature max_tokens) as (r & Hr & Hrun).
    exists r, [EvRewriteCall text tone model; EvHttpGet (tags_url base_url);
               EvHttpPost (generate_url base_url)], ms.
    split; [exact Hms|]. split.
    { intros w. unfold Terminal.rewrite_with_ollama.
      rewrite (Hrun w _ (Hens _)), !logged_logged. reflexivity. }
    split; [reflexivity|]. split; [contradiction | exact Hr].
  - rewrite bool_decide_eq_false_2 in Hens by exact Hin.
    exists (Raise (RuntimeError (Terminal.not_found_msg model base_url ms))),
      [EvRewriteCall text tone model; EvHttpGet (tags_url base_url)], ms.
    split; [exact Hms|]. split.
    { intros w. unfold Terminal.rewrite_with_ollama.
      rewrite (rewrite_with_ensure_raise L E _ _ _ _ _ _ _ _ _ _ (Hens _)), logged_logged.
      reflexivity. }
    split; [contradiction|]. split; [split; reflexivity | discriminate].
Qed.

End RewriteByModelList.

(** X1. A call of the rewrite client (either copy) changes nothing but the
    log, and its result and events do not depend on the state it is called
    in. With [models] the list that the model check obtains from the
    endpoint: when the model is in the list the events are the entry, the GET
    of the model list and one POST of the generation request, in this order;
    when it is not, the events are the entry and the GET only, and the result
    is the "model not found" error. So the request is posted exactly when the
    model is installed, a text is returned only after the POST and only for
    an installed model, and the call never ends in [sys.exit]. *)
Theorem rewrite_client_effects (L : PyLib) (E : Env) (text tone model base_url : pystr)
    (temperature : Q) (max_tokens : Z) :
  let short := [EvRewriteCall text tone model; EvHttpGet (tags_url base_url)] in
  let full := [EvRewriteCall text tone model; EvHttpGet (tags_url base_url);
               EvHttpPost (generate_url base_url)] in
  (exists r evs models,
      (forall w,
          Core._ollama_models E base_url w
          = (Ret models, logged w [EvHttpGet (tags_url base_url)])) /\
      (forall w,
          Core.rewrite_with_ollama L E text tone model base_url temperature max_tokens w
          = (r, logged w evs)) /\
      (evs = short \/ evs = full) /\
      (model ∈ models -> evs = full) /\
      (model ∉ models ->
       evs = short /\ r = Raise (RuntimeError (Core.not_found_msg model base_url models))) /\
      (EvHttpPost (generate_url base_url) ∈ evs <-> model ∈ models) /\
      (forall s, r = Ret s -> evs = full /\ model ∈ models) /\
      (forall c, r <> Exit c))
  /\
  (exists r evs models,
      (forall w,
          Terminal.ollama_models E base_url w
          = (Ret models, logged w [EvHttpGet (tags_url base_url)])) /\
      (forall w,
          Terminal.rewrite_with_ollama L E text tone model base_url temperature max_tokens w
          = (r, logged w evs)) /\
      (evs = short \/ evs = full) /\
      (model ∈ models -> evs = full) /\
      (model ∉ models ->
       evs = short /\
       r = Raise (RuntimeError (Terminal.not_found_msg model base_url models))) /\
      (EvHttpPost (generate_url base_url) ∈ evs <-> model ∈ models) /\
      (forall s, r = Ret s -> evs = full /\ model ∈ models) /\
      (forall c, r <> Exit c)).
Proof.
  intros short full.
  assert (Hpost_short : EvHttpPost (generate_url base_url) ∉ short).
  { intros Hin. apply elem_of_cons in Hin as [Hin|Hin]; [discriminate|].
    apply list_elem_of_singleton in Hin. discriminate. }
  assert (Hpost_full : EvHttpPost (generate_url base_url) ∈ full).
  { right. right. left. }
  split.
  - destruct (core_rewrite_by_models L E text tone model base_url temperature max_tokens)
      as (r & evs & models & Hms & Hrun & Hin & Hout & Hexit).
    exists r, evs, models.
    split; [exact Hms|]. split; [exact Hrun|].
    destruct (decide (model ∈ models)) as [Hm|Hm].
    + pose proof (Hin Hm) as ->.
      split; [right; reflexivity|]. split; [reflexivity|].
      split; [contradiction|]. split; [tauto|]. split; [auto | exact Hexit].
    + destruct (Hout Hm) as [-> ->].
      split; [left; reflexivity|]. split; [contradiction|].
      split; [auto|]. split; [tauto|]. split; [discriminate | exact Hexit].
  - destruct (terminal_rewrite_by_models L E text tone model base_url temperature max_tokens)
      as (r & evs & models & Hms & Hrun & Hin & Hout & Hexit).
    exists r, evs, models.
    split; [exact Hms|]. split; [exact Hrun|].
    destruct (decide (model ∈ models)) as [Hm|Hm].
    + pose proof (Hin Hm) as ->.
      split; [right; reflexivity|]. split; [reflexivity|].
      split; [contradiction|]. split; [tauto|]. split; [auto | exact Hexit].
    + destruct (Hout Hm) as [-> ->].
      split; [left; reflexivity|]. split; [contradiction|].
      split; [auto|]. split; [tauto|]. split; [discriminate | exact Hexit].
Qed.

(** X1, at two concrete calls: with the model installed the request is
    posted, and with other models installed it is not. *)
Lemma rewrite_client_effects_witness :
  (exists r,
      Core.rewrite_with_ollama Sample.lib Sample.env_ok (lit "Hi.") (lit "Calm")
        (lit "gemma3:4b") (lit "http://localhost:11434") (7 # 10) 512 Sample.empty_world
      = (r, logged Sample.empty_world
              [EvRewriteCall (lit "Hi.") (lit "Calm") (lit "gemma3:4b");
               EvHttpGet (tags_url (lit "http://localhost:11434"));
               EvHttpPost (generate_url (lit "http://localhost:11434"))]))
  /\
  (exists r,
      Terminal.rewrite_with_ollama Sample.lib Sample.env_other_model (lit "Hi.")
        (lit "Calm") (lit "gemma3:4b") (lit "http://localhost:11434") (7 # 10) 512
        Sample.empty_world
      = (r, logged Sample.empty_world
              [EvRewriteCall (lit "Hi.") (lit "Calm") (lit "gemma3:4b");
               EvHttpGet (tags_url (lit "http://localhost:11434"))])).
Proof.
  split.
  - destruct (rewrite_client_effects Sample.lib Sample.env_ok (lit "Hi.") (lit "Calm")
                (lit "gemma3:4b") (lit "http://localhost:11434") (7 # 10) 512)
      as [(r & evs & models & Hms & Hrun & _ & Hin & _) _].
    pose proof (Hms Sample.empty_world) as Hm. injection Hm as Hm.
    exists r. rewrite Hrun. rewrite Hin; [reflexivity|].
    rewrite <- Hm. left.
  - destruct (rewrite_client_effects Sample.lib Sample.env_other_model (lit "Hi.")
                (lit "Calm") (lit "gemma3:4b") (lit "http://localhost:11434") (7 # 10) 512)
      as [_ (r & evs & models & Hms & Hrun & _ & _ & Hout & _)].
    pose proof (Hms Sample.empty_world) as Hm. injection Hm as Hm.
    exists r. rewrite Hrun.
    assert (Habs : lit "gemma3:4b" ∉ models).
    { rewrite <- Hm. apply (bool_decide_unpack _). vm_compute. exact I. }
    destruct (Hout Habs) as [-> _]. reflexivity.
Defined.

(** X2. When the model check has passed and the endpoint answers the
    generation request with a status other than 200, the rewrite client
    (either copy) raises a [RuntimeError]: for a 404 whose body contains
    "not found" in any letter case the message tells to pull the model and
    quotes the body, otherwise it is "Ollama returned HTTP <status>: <body>". *)
Theorem rewrite_http_error_status (L : PyLib) (E : Env) (text tone model base_url : pystr)
    (temperature : Q) (max_tokens : Z) (w : World) (models : list pystr)
    (status : Z) (body : pystr) (data : option GenData) :
  let msg :=
    if ((status =? 404)%Z && contains (str_lower L body) (lit "not found"))%bool
    then lit "Ollama says the model '" ++ model ++ lit "' is not found." ++ nl
         ++ lit "Run:  ollama pull " ++ model ++ nl
         ++ lit "Raw response: " ++ body
    else lit "Ollama returned HTTP " ++ str_of_int status ++ lit ": " ++ body in
  let evs := [EvRewriteCall text tone model; EvHttpGet (tags_url base_url);
              EvHttpPost (generate_url base_url)] in
  http_post_generate E (generate_request text tone model base_url temperature max_tokens)
    = HttpReply status body data ->
  status <> 200%Z ->
  (fst (Core._ollama_models E base_url w) = Ret models -> model ∈ models ->
   Core.rewrite_with_ollama L E text tone model base_url temperature max_tokens w
   = (Raise (RuntimeError msg), logged w evs))
  /\
  (fst (Terminal.ollama_models E base_url w) = Ret models -> model ∈ models ->
   Terminal.rewrite_with_ollama L E text tone model base_url temperature max_tokens w
   = (Raise (RuntimeError msg), logged w evs)).
Proof.
  intros msg evs Hpost Hst. split; intros Hms Hin.
  - unfold Core.rewrite_with_ollama.
    erewrite rewrite_with_status_error; [|  |exact Hpost|exact Hst].
    2:{ rewrite (core_ensure_run E model base_url w _ models Hms).
        rewrite bool_decide_eq_true_2 by exact Hin. reflexivity. }
    rewrite !logged_logged. reflexivity.
  - unfold Terminal.rewrite_with_ollama.
    erewrite rewrite_with_status_error; [|  |exact Hpost|exact Hst].
    2:{ rewrite (terminal_ensure_run E model base_url w _ models Hms).
        rewrite bool_decide_eq_true_2 by exact Hin. reflexivity. }
    rewrite !logged_logged. reflexivity.
Qed.

(** X2, at concrete calls: a 500 reply, and a 404 reply that says so. *)
Lemma rewrite_http_error_status_witness :
  fst (Core.rewrite_with_ollama Sample.lib
         (Cases.env_reply (HttpReply 500 (lit "boom") None))
         (lit "Hi.") (lit "Calm") (lit "gemma3:4b") (lit "http://localhost:11434")
         (7 # 10) 512 Sample.empty_world)
  = Raise (RuntimeError (lit "Ollama returned HTTP 500: boom")) /\
  fst (Terminal.rewrite_with_ollama Sample.lib
         (Cases.env_reply (HttpReply 404 (lit "model not found") None))
         (lit "Hi.") (lit "Calm") (lit "gemma3:4b") (lit "http://localhost:11434")
         (7 # 10) 512 Sample.empty_world)
  = Raise (RuntimeError (lit "Ollama says the model 'gemma3:4b' is not found." ++ nl
                         ++ lit "Run:  ollama pull gemma3:4b" ++ nl
                         ++ lit "Raw response: model not found")).
Proof.
  split.
  - destruct (rewrite_http_error_status Sample.lib
                (Cases.env_reply (HttpReply 500 (lit "boom") None))
                (lit "Hi.") (lit "Calm") (lit "gemma3:4b") (lit "http://localhost:11434")
                (7 # 10) 512 Sample.empty_world [lit "gemma3:4b"] 500 (lit "boom") None)
      as [Hc _]; [reflexivity | discriminate |].
    rewrite Hc; [reflexivity | reflexivity |].
    apply (bool_decide_unpack _). vm_compute. exact I.
  - destruct (rewrite_http_error_status Sample.lib
                (Cases.env_reply (HttpReply 404 (lit "model not found") None))
                (lit "Hi.") (lit "Calm") (lit "gemma3:4b") (lit "http://localhost:11434")
                (7 # 10) 512 Sample.empty_world [lit "gemma3:4b"] 404
                (lit "model not found") None)
      as [_ Ht]; [reflexivity | discriminate |].
    rewrite Ht; [reflexivity | reflexivity |].
    apply (bool_decide_unpack _). vm_compute. exact I.
Defined.

(** X3. When the model check has passed and the endpoint answers 200 with a
    JSON body that has no ["response"] key, the rewrite client (either copy)
    raises a [RuntimeError] whose message is "Unexpected Ollama response: "
    followed by the first 500 characters of the dumped body, so the message
    has at most 528 characters. *)
Theorem rewrite_malformed_response (L : PyLib) (E : Env) (text tone model base_url : pystr)
    (temperature : Q) (max_tokens : Z) (w : World) (models : list pystr)
    (body : pystr) (data : GenData) :
  let msg := lit "Unexpected Ollama response: " ++ take 500 (gd_dump data) in
  let evs := [EvRewriteCall text tone model; EvHttpGet (tags_url base_url);
              EvHttpPost (generate_url base_url)] in
  http_post_generate E (generate_request text tone model base_url temperature max_tokens)
    = HttpReply 200 body (Some data) ->
  gd_response data = None ->
  (fst (Core._ollama_models E base_url w) = Ret models -> model ∈ models ->
   Core.rewrite_with_ollama L E text tone model base_url temperature max_tokens w
   = (Raise (RuntimeError msg), logged w evs))
  /\
  (fst (Terminal.ollama_models E base_url w) = Ret models -> model ∈ models ->
   Terminal.rewrite_with_ollama L E text tone model base_url temperature max_tokens w
   = (Raise (RuntimeError msg), logged w evs))
  /\
  (length msg <= 528)%nat.
Proof.
  intros msg evs Hpost Hresp. split; [|split].
  - intros Hms Hin. unfold Core.rewrite_with_ollama.
    erewrite rewrite_with_no_field; [|  |exact Hpost|exact Hresp].
    2:{ rewrite (core_ensure_run E model base_url w _ models Hms).
        rewrite bool_decide_eq_true_2 by exact Hin. reflexivity. }
    rewrite !logged_logged. reflexivity.
  - intros Hms Hin. unfold Terminal.rewrite_with_ollama.
    erewrite rewrite_with_no_field; [|  |exact Hpost|exact Hresp].
    2:{ rewrite (terminal_ensure_run E model base_url w _ models Hms).
        rewrite bool_decide_eq_true_2 by exact Hin. reflexivity. }
    rewrite !logged_logged. reflexivity.
  - subst msg. rewrite length_app, length_take.
    change (length (lit "Unexpected Ollama response: ")) with 28%nat.
    pose proof (Nat.le_min_l 500 (length (gd_dump data))). lia.
Qed.

(** X3, at a concrete call: the reply is the JSON object [{"error": "x"}]. *)
Lemma rewrite_malformed_response_witness :
  fst (Core.rewrite_with_ollama Sample.lib
         (Cases.env_reply
            (HttpReply 200 (lit "{'error': 'x'}")
               (Some {| gd_response := None; gd_dump := lit "{'error': 'x'}" |})))
         (lit "Hi.") (lit "Calm") (lit "gemma3:4b") (lit "http://localhost:11434")
         (7 # 10) 512 Sample.empty_world)
  = Raise (RuntimeError (lit "Unexpected Ollama response: {'error': 'x'}")).
Proof.
  destruct (rewrite_malformed_response Sample.lib
              (Cases.env_reply
                 (HttpReply 200 (lit "{'error': 'x'}")
                    (Some {| gd_response := None; gd_dump := lit "{'error': 'x'}" |})))
              (lit "Hi.") (lit "Calm") (lit "gemma3:4b") (lit "http://localhost:11434")
              (7 # 10) 512 Sample.empty_world [lit "gemma3:4b"] (lit "{'error': 'x'}")
              {| gd_response := None; gd_dump := lit "{'error': 'x'}" |})
    as (Hc & _ & _); [reflexivity | reflexivity |].
  rewrite Hc; [reflexivity | reflexivity |].
  apply (bool_decide_unpack _). vm_compute. exact I.
Defined.

(** ** The model check: when it passes *)

Lemma core_model_names_elem model data :
  model ∈ Core.model_names data <->
  exists entries, td_models data = Some entries /\
                  {| me_name := Some model |} ∈ entries /\ model <> [].
Proof.
  unfold Core.model_names. rewrite list_elem_of_omap. split.
  - intros ([[n|]] & Hin & Hn); simpl in Hn; [|discriminate].
    destruct n as [|c n]; simpl in Hn; [discriminate|]. injection Hn as <-.
    destruct (td_models data) as [entries|]; simpl in Hin; [|inversion Hin].
    exists entries. split; [reflexivity|]. split; [exact Hin | discriminate].
  - intros (entries & He & Hin & Hne). rewrite He. simpl.
    exists {| me_name := Some model |}. split; [exact Hin|].
    simpl. destruct model; [congruence | reflexivity].
Qed.

Lemma terminal_model_names_elem model data :
  model ∈ Terminal.model_names data <->
  exists entries, td_models data = Some entries /\ {| me_name := Some model |} ∈ entries.
Proof.
  unfold Terminal.model_names. rewrite list_elem_of_omap. split.
  - intros ([[n|]] & Hin & Hn); simpl in Hn; [|discriminate]. injection Hn as ->.
    destruct (td_models data) as [entries|]; simpl in Hin; [|inversion Hin].
    exists entries. split; [reflexivity | exact Hin].
  - intros (entries & He & Hin). rewrite He. simpl.
    exists {| me_name := Some model |}. split; [exact Hin | reflexivity].
Qed.

Lemma model_names_filter data :
  Core.model_names data
  = List.filter (fun n => negb (is_nil n)) (Terminal.model_names data).
Proof.
  unfold Core.model_names, Terminal.model_names.
  induction (default [] (td_models data)) as [|[[n|]] r IH]; simpl.
  - reflexivity.
  - destruct n; simpl; [exact IH | f_equal; exact IH].
  - exact IH.
Qed.

(** X4. The model check of the browser back-end passes exactly when the
    model list is answered with status 200 and a JSON body whose ["models"]
    has an entry with the requested name, and the name is not empty; the
    check of the terminal front-end also accepts an empty name. The two
    copies see the same installed models, except that the browser back-end
    drops empty names. *)
Theorem model_check_passes_iff (E : Env) (model base_url : pystr) (w : World) :
  (fst (Core.ensure_model_present E model base_url w) = Ret tt <->
   exists text data entries,
     http_get_tags E (tags_url base_url) = HttpReply 200 text (Some data) /\
     td_models data = Some entries /\
     {| me_name := Some model |} ∈ entries /\ model <> [])
  /\
  (fst (Terminal.ensure_model_present E model base_url w) = Ret tt <->
   exists text data entries,
     http_get_tags E (tags_url base_url) = HttpReply 200 text (Some data) /\
     td_models data = Some entries /\
     {| me_name := Some model |} ∈ entries)
  /\
  (forall data,
      Core.model_names data
      = List.filter (fun n => negb (is_nil n)) (Terminal.model_names data)).
Proof.
  split; [|split; [|apply model_names_filter]].
  - unfold Core.ensure_model_present, Core._ollama_models. unfold_monad.
    destruct (http_get_tags E (tags_url base_url)) as [cause|status text [data|]] eqn:Hget.
    + simpl. split; [discriminate | intros (? & ? & ? & ? & _); discriminate].
    + destruct (Z.eqb_spec status 200) as [->|Hst]; simpl.
      * destruct (bool_decide_reflect (model ∈ Core.model_names data)) as [Hin|Hin]; simpl.
        -- split; [intros _|reflexivity].
           apply core_model_names_elem in Hin as (entries & He & Hin & Hne).
           exists text, data, entries. auto.
        -- split; [discriminate|]. intros (t & d & es & [= <- <-] & He & Hes & Hne).
           exfalso. apply Hin, core_model_names_elem. eauto.
      * split; [discriminate|]. intros (t & d & es & [= ? _ _] & _). congruence.
    + destruct (Z.eqb_spec status 200) as [->|Hst]; simpl.
      * split; [discriminate | intros (? & ? & ? & ? & _); discriminate].
      * split; [discriminate | intros (? & ? & ? & ? & _); discriminate].
  - unfold Terminal.ensure_model_present, Terminal.ollama_models. unfold_monad.
    destruct (http_get_tags E (tags_url base_url)) as [cause|status text [data|]] eqn:Hget.
    + simpl. split; [discriminate | intros (? & ? & ? & ? & _); discriminate].
    + destruct (Z.eqb_spec status 200) as [->|Hst]; simpl.
      * destruct (bool_decide_reflect (model ∈ Terminal.model_names data)) as [Hin|Hin];
          simpl.
        -- split; [intros _|reflexivity].
           apply terminal_model_names_elem in Hin as (entries & He & Hin).
           exists text, data, entries. auto.
        -- split; [discriminate|]. intros (t & d & es & [= <- <-] & He & Hes).
           exfalso. apply Hin, terminal_model_names_elem. eauto.
      * split; [discriminate|]. intros (t & d & es & [= ? _ _] & _). congruence.
    + destruct (Z.eqb_spec status 200) as [->|Hst]; simpl.
      * split; [discriminate | intros (? & ? & ? & ? & _); discriminate].
      * split; [discriminate | intros (? & ? & ? & ? & _); discriminate].
Qed.

(** X4, at concrete checks: "gemma3:4b" is installed, and the empty name is
    accepted by the terminal front-end only. *)
Lemma model_check_passes_iff_witness :
  fst (Core.ensure_model_present Sample.env_ok (lit "gemma3:4b")
         (lit "http://localhost:11434") Sample.empty_world) = Ret tt /\
  fst (Terminal.ensure_model_present
         (Cases.env_tags
            (HttpReply 200 [] (Some {| td_models := Some [ {| me_name := Some [] |} ] |})))
         [] (lit "http://localhost:11434") Sample.empty_world) = Ret tt /\
  fst (Core.ensure_model_present
         (Cases.env_tags
            (HttpReply 200 [] (Some {| td_models := Some [ {| me_name := Some [] |} ] |})))
         [] (lit "http://localhost:11434") Sample.empty_world) <> Ret tt.
Proof.
  split; [|split].
  - apply (proj1 (model_check_passes_iff Sample.env_ok (lit "gemma3:4b")
                    (lit "http://localhost:11434") Sample.empty_world)).
    eexists _, _, _. split; [reflexivity|]. split; [reflexivity|].
    split; [apply list_elem_of_singleton; reflexivity | discriminate].
  - apply (proj1 (proj2 (model_check_passes_iff _ [] (lit "http://localhost:11434")
                           Sample.empty_world))).
    eexists _, _, _. split; [reflexivity|]. split; [reflexivity|].
    apply list_elem_of_singleton. reflexivity.
  - intros H.
    apply (proj1 (model_check_passes_iff _ [] (lit "http://localhost:11434")
                    Sample.empty_world)) in H.
    destruct H as (_ & _ & _ & _ & _ & _ & Hne). congruence.
Defined.

(** ** The output store: collisions of file names *)

Lemma path_str_out_file_inj n1 n2 :
  path_str (out_file n1) = path_str (out_file n2) -> n1 = n2.
Proof.
  unfold path_str, out_file. cbn [p_dir p_name]. intros H.
  apply app_inv_head in H. apply app_inv_head in H. exact H.
Qed.

(** X8. Two calls of [save_text] in a row write to the same path exactly
    when the two tones have the same sanitized form and the two clock
    readings print the same time stamp; the second text then replaces the
    first and one file is left. Otherwise both files are kept. Two different
    clock readings with four-digit years never give the same path. *)
Theorem save_text_twice (L : PyLib) (E : Env) (text1 tone1 text2 tone2 : pystr)
    (w : World) :
  let d1 := clock E (w_tick w) in
  let d2 := clock E (S (w_tick w)) in
  let p1 := out_file (rewritten_name (_safe_name L tone1) (strftime d1)) in
  let p2 := out_file (rewritten_name (_safe_name L tone2) (strftime d2)) in
  exists w1 w2,
    save_text L E text1 tone1 w = (Ret p1, w1) /\
    save_text L E text2 tone2 w1 = (Ret p2, w2) /\
    w_fs w2 = <[path_str p2 := FText text2]> (<[path_str p1 := FText text1]> (w_fs w)) /\
    (path_str p1 = path_str p2 <->
     _safe_name L tone1 = _safe_name L tone2 /\ strftime d1 = strftime d2) /\
    (path_str p1 = path_str p2 ->
     w_fs w2 = <[path_str p1 := FText text2]> (w_fs w)) /\
    (path_str p1 <> path_str p2 ->
     w_fs w2 !! path_str p1 = Some (FText text1) /\
     w_fs w2 !! path_str p2 = Some (FText text2)) /\
    (dt_wf d1 -> dt_wf d2 -> d1 <> d2 -> path_str p1 <> path_str p2).
Proof.
  intros d1 d2 p1 p2.
  assert (Hiff : path_str p1 = path_str p2 <->
                 _safe_name L tone1 = _safe_name L tone2 /\ strftime d1 = strftime d2).
  { split.
    - intros H. apply path_str_out_file_inj in H.
      apply rewritten_name_inj in H; [exact H|]. rewrite !strftime_length. reflexivity.
    - intros [Hs Ht]. subst p1 p2. rewrite Hs, Ht. reflexivity. }
  eexists _, _. split; [apply save_text_run|]. split.
  { rewrite save_text_run. cbn [w_tick logged with_log with_fs with_tick]. reflexivity. }
  cbn [w_fs w_tick logged with_log with_fs with_tick].
  split; [reflexivity|]. split; [exact Hiff|]. split; [|split].
  - intros Heq. fold d1 d2 p1 p2. rewrite <- Heq. apply insert_insert_eq.
  - intros Hne. fold d1 d2 p1 p2. split.
    + rewrite lookup_insert_ne by (apply not_eq_sym, Hne). apply lookup_insert_eq.
    + apply lookup_insert_eq.
  - intros H1 H2 Hd Heq. apply Hiff in Heq as [_ Ht].
    apply Hd, strftime_inj; assumption.
Qed.

(** X8, with a clock that stands still: the second text replaces the first. *)
Lemma save_text_twice_witness :
  w_fs (snd (save_text Sample.lib Cases.env_frozen (lit "second") (lit "Calm!")
               (snd (save_text Sample.lib Cases.env_frozen (lit "first") (lit "Calm")
                       Sample.empty_world))))
  = <[ lit "outputs/rewritten_Calm_20250309-140600.txt" := FText (lit "second") ]> ∅.
Proof.
  destruct (save_text_twice Sample.lib Cases.env_frozen (lit "first") (lit "Calm")
              (lit "second") (lit "Calm!") Sample.empty_world)
    as (w1 & w2 & H1 & H2 & _ & _ & Hsame & _).
  rewrite H1. cbn [snd]. rewrite H2. cbn [snd].
  rewrite Hsame; reflexivity.
Defined.

(** ** The browser handler: every way a job can end *)

Lemma ret_bind_run {A B} (a : A) (k : A -> M B) w : bind (ret a) k w = k a w.
Proof. reflexivity. Qed.

Lemma raise_bind_run {A B} e (k : A -> M B) w : bind (raise e) k w = (Raise e, w).
Proof. reflexivity. Qed.

Section HandlerOutcomes.
Variable L : PyLib.
Variable E : Env.

(** The persisting part, with everything it leaves behind. *)
Lemma app_persist_world i rewritten audio w :
  let safe := _safe_name L (App.in_tone i) in
  let ts := strftime (clock E (w_tick w)) in
  let txt := out_file (rewritten_name safe (strftime (clock E (S (w_tick w))))) in
  let mp3 := out_file (audio_name (lit "speech") safe ts) in
  let meta := out_file (meta_name safe ts) in
  let record := App.meta_record i ts txt mp3 in
  exists w',
    App.persist L E i rewritten audio w = (Ret tt, w') /\
    w_fs w' = <[path_str meta := FText (json_dumps L record)]>
                (<[path_str mp3 := FBytes audio]>
                   (<[path_str txt := FText rewritten]> (w_fs w))) /\
    w_session w' = {| ss_rewritten := ss_rewritten (w_session w);
                      ss_audio_bytes := ss_audio_bytes (w_session w);
                      ss_audio_mime := ss_audio_mime (w_session w);
                      ss_last_meta := record |} /\
    w_stdin w' = w_stdin w /\
    w_tick w' = S (S (w_tick w)) /\
    w_log w' = w_log w ++ [EvWrite (path_str txt); EvWrite (path_str mp3);
                           EvWrite (path_str meta); EvSuccess App.success_msg].
Proof.
  cbv zeta. unfold App.persist.
  run_with ensure_outputs_dir_run.
  run_with now_run.
  unfold Core.save_text. run_with save_text_run.
  run_with write_file_run.
  run_with write_file_run.
  run_with set_last_meta_run.
  rewrite emit_run.
  eexists. split; [reflexivity|].
  cbn [w_fs w_log w_session w_tick w_stdin logged with_log with_fs with_tick with_session
       ss_last_meta ss_rewritten ss_audio_bytes ss_audio_mime].
  split; [reflexivity|]. split; [reflexivity|]. split; [reflexivity|].
  split; [reflexivity|].
  rewrite <- !app_assoc. reflexivity.
Qed.

(** A job ends in one of three ways: the rewrite raised and nothing but the
    log has changed; the rewrite returned and the voice lookup or the
    synthesis raised, with the rewritten text stored in the session; or it
    ran to its end. *)
Lemma app_generate_job_outcome i w :
  let short := [EvRewriteCall (strip (App.in_text i)) (App.in_tone i) (App.in_model i);
                EvHttpGet (tags_url (App.in_ollama_url i))] in
  let full := [EvRewriteCall (strip (App.in_text i)) (App.in_tone i) (App.in_model i);
               EvHttpGet (tags_url (App.in_ollama_url i));
               EvHttpPost (generate_url (App.in_ollama_url i))] in
  let safe := _safe_name L (App.in_tone i) in
  let ts := strftime (clock E (w_tick w)) in
  let txt := out_file (rewritten_name safe (strftime (clock E (S (w_tick w))))) in
  let mp3 := out_file (audio_name (lit "speech") safe ts) in
  let meta := out_file (meta_name safe ts) in
  let record := App.meta_record i ts txt mp3 in
  (exists e evs,
      Core.rewrite_with_ollama L E (strip (App.in_text i)) (App.in_tone i)
        (App.in_model i) (App.in_ollama_url i) (App.in_temperature i)
        (App.in_max_tokens i) w = (Raise e, logged w evs) /\
      App.generate_job L E i w = (Raise e, logged w evs) /\ (evs = short \/ evs = full))
  \/
  (exists rewritten e w' evs,
      Core.rewrite_with_ollama L E (strip (App.in_text i)) (App.in_tone i)
        (App.in_model i) (App.in_ollama_url i) (App.in_temperature i)
        (App.in_max_tokens i) w = (Ret rewritten, logged w full) /\
      App.generate_job L E i w = (Raise e, w') /\
      (evs = full \/ evs = full ++ [EvSynthCall rewritten]) /\
      w_log w' = w_log w ++ evs /\
      w_fs w' = w_fs w /\ w_stdin w' = w_stdin w /\ w_tick w' = w_tick w /\
      w_session w' = {| ss_rewritten := rewritten;
                        ss_audio_bytes := ss_audio_bytes (w_session w);
                        ss_audio_mime := ss_audio_mime (w_session w);
                        ss_last_meta := ss_last_meta (w_session w) |})
  \/
  (exists rewritten audio w',
      Core.rewrite_with_ollama L E (strip (App.in_text i)) (App.in_tone i)
        (App.in_model i) (App.in_ollama_url i) (App.in_temperature i)
        (App.in_max_tokens i) w = (Ret rewritten, logged w full) /\
      App.generate_job L E i w = (Ret tt, w') /\
      w_log w' = w_log w ++ full ++ [EvSynthCall rewritten; EvWrite (path_str txt);
                                     EvWrite (path_str mp3); EvWrite (path_str meta);
                                     EvSuccess App.success_msg] /\
      w_fs w' = <[path_str meta := FText (json_dumps L record)]>
                  (<[path_str mp3 := FBytes audio]>
                     (<[path_str txt := FText rewritten]> (w_fs w))) /\
      w_stdin w' = w_stdin w /\ w_tick w' = S (S (w_tick w)) /\
      w_session w' = {| ss_rewritten := rewritten;
                        ss_audio_bytes := audio;
                        ss_audio_mime := lit "audio/mp3";
                        ss_last_meta := record |}).
Proof.
  intros short full safe ts txt mp3 meta record.
  destruct (core_rewrite_shape L E (strip (App.in_text i)) (App.in_tone i) (App.in_model i)
              (App.in_ollama_url i) (App.in_temperature i) (App.in_max_tokens i))
    as (r0 & evs & Hrun & Hevs & Hret & Hexit).
  unfold App.generate_job.
  rewrite (bind_run _ _ _ _ _ (Hrun w)).
  destruct r0 as [rewritten|e|c]; [|left|exfalso; eapply Hexit; reflexivity].
  2:{ exists e, evs. split; [apply Hrun|]. split; [reflexivity | exact Hevs]. }
  right. rewrite (Hret rewritten eq_refl) in Hrun |- *. fold full in Hrun |- *.
  pose proof (Hrun w) as Hrw. clear Hrun Hevs Hret Hexit.
  run_with set_rewritten_run.
  destruct (App.preset_get (App.in_voice_name i) App.VOICE_PRESETS) as [v|] eqn:Hv.
  2:{ left. rewrite raise_bind_run. eexists rewritten, _, _, full. split; [exact Hrw|].
      split; [reflexivity|]. split; [left; reflexivity|].
      autorewrite with world. repeat split; reflexivity. }
  rewrite ret_bind_run.
  match goal with
  | |- context [Core.tts_with_gtts_to_bytes E ?t ?a ?b ?c] =>
      pose proof (core_tts_world E t a b c
                    (with_session (logged w full)
                       {| ss_rewritten := rewritten;
                          ss_audio_bytes := ss_audio_bytes (w_session (logged w full));
                          ss_audio_mime := ss_audio_mime (w_session (logged w full));
                          ss_last_meta := ss_last_meta (w_session (logged w full)) |}))
        as Hw2;
      destruct (Core.tts_with_gtts_to_bytes E t a b c
                  (with_session (logged w full)
                     {| ss_rewritten := rewritten;
                        ss_audio_bytes := ss_audio_bytes (w_session (logged w full));
                        ss_audio_mime := ss_audio_mime (w_session (logged w full));
                        ss_last_meta := ss_last_meta (w_session (logged w full)) |}))
        as [[audio|e|c'] w2] eqn:Htts
  end; cbn [snd] in Hw2; subst w2.
  - right. rewrite (bind_run _ _ _ _ _ Htts). cbv beta iota.
    run_with set_audio_run.
    match goal with
    | |- context [App.persist L E i rewritten audio ?w3] =>
        destruct (app_persist_world i rewritten audio w3)
          as (w' & Hper & Hfs & Hss & Hin & Htick & Hlog)
    end.
    exists rewritten, audio, w'. split; [exact Hrw|]. split; [exact Hper|].
    autorewrite with world in Hfs, Hss, Hin, Htick, Hlog.
    cbn [ss_rewritten ss_audio_bytes ss_audio_mime ss_last_meta] in Hss.
    split; [rewrite Hlog, <- !app_assoc; reflexivity|].
    split; [exact Hfs|]. split; [exact Hin|]. split; [exact Htick | exact Hss].
  - left. rewrite (bind_run _ _ _ _ _ Htts). cbv beta iota.
    eexists rewritten, e, _, (full ++ [EvSynthCall rewritten]).
    split; [exact Hrw|]. split; [reflexivity|]. split; [right; reflexivity|].
    autorewrite with world. rewrite <- !app_assoc. repeat split; reflexivity.
  - exfalso.
    assert (Hx : exits_in [] (Core.tts_with_gtts_to_bytes E rewritten (App.vp_lang v)
                                (App.vp_tld v) (App.vp_slow v))).
    { unfold Core.tts_with_gtts_to_bytes. exits_step; [exits_step|].
      destruct (negb _); [exits_step|]. destruct (gtts E _ _ _ _); exits_step. }
    apply Hx in Htts. inversion Htts.
Qed.

End HandlerOutcomes.

Lemma strip_nil_iff s : strip s = [] <-> blank s.
Proof. apply strip_by_nil_iff. Qed.

Lemma app_blank_test i :
  (is_nil (App.in_text i) || is_nil (strip (App.in_text i)))%bool = true
  <-> blank (App.in_text i).
Proof.
  rewrite <- strip_nil_iff, orb_true_iff. split.
  - intros [H|H].
    + destruct (App.in_text i); [reflexivity | discriminate].
    + destruct (strip (App.in_text i)); [reflexivity | discriminate].
  - intros ->. right. reflexivity.
Qed.

(** X12. Every click on "Generate Audiobook" ends normally with exactly one
    message, the last event of the run: the warning for a blank text, an
    error, or the success message. What comes before the message is a prefix
    of one fixed sequence: the entry of the rewrite stage, the GET of the
    model list, the POST of the generation request, the entry of the
    synthesis stage and the writes of the text, audio and metadata files.
    Nothing is done twice, no stage runs before the one ahead of it has
    finished, and success is reported only after the whole sequence. *)
Theorem handler_reports_once (L : PyLib) (E : Env) (i : App.Inputs) (w : World) :
  App.in_gen i = true ->
  exists w' evs msg rewritten txt mp3 meta,
    App.generate L E i w = (Ret tt, w') /\
    w_log w' = w_log w ++ evs ++ [msg] /\
    evs `prefix_of`
      [EvRewriteCall (strip (App.in_text i)) (App.in_tone i) (App.in_model i);
       EvHttpGet (tags_url (App.in_ollama_url i));
       EvHttpPost (generate_url (App.in_ollama_url i));
       EvSynthCall rewritten; EvWrite txt; EvWrite mp3; EvWrite meta] /\
    ((msg = EvWarning App.warning_msg /\ evs = [] /\ blank (App.in_text i))
     \/ (exists m, msg = EvError m /\ ~ blank (App.in_text i) /\
                   (2 <= length evs <= 4)%nat)
     \/ (msg = EvSuccess App.success_msg /\ ~ blank (App.in_text i) /\
         length evs = 7%nat)).
Proof.
  intros Hgen. unfold App.generate. rewrite Hgen.
  destruct (is_nil (App.in_text i) || is_nil (strip (App.in_text i)))%bool eqn:Hb.
  - apply app_blank_test in Hb.
    exists (logged w [EvWarning App.warning_msg]), [], (EvWarning App.warning_msg),
      [], [], [], [].
    split; [reflexivity|]. split; [reflexivity|].
    split; [apply prefix_nil|]. left. auto.
  - assert (Hnb : ~ blank (App.in_text i)).
    { intros H. apply app_blank_test in H. congruence. }
    unfold try_except.
    destruct (app_generate_job_outcome L E i w)
      as [(e & evs & _ & Hjob & Hevs)
         |[(rewritten & e & w' & evs & _ & Hjob & Hevs & Hlog & _)
          |(rewritten & audio & w' & _ & Hjob & Hlog & _)]]; rewrite Hjob.
    + rewrite emit_run.
      eexists _, evs, (EvError (exn_str e)), [], [], [], [].
      split; [reflexivity|]. split; [rewrite !w_log_logged, <- app_assoc; reflexivity|].
      split.
      * destruct Hevs as [->| ->]; eexists; reflexivity.
      * right. left. exists (exn_str e). split; [reflexivity|]. split; [exact Hnb|].
        destruct Hevs as [->| ->]; simpl; lia.
    + rewrite emit_run.
      eexists _, evs, (EvError (exn_str e)), rewritten, [], [], [].
      split; [reflexivity|].
      split; [rewrite w_log_logged, Hlog, <- app_assoc; reflexivity|].
      split.
      * destruct Hevs as [->| ->]; eexists; reflexivity.
      * right. left. exists (exn_str e). split; [reflexivity|]. split; [exact Hnb|].
        destruct Hevs as [->| ->]; simpl; lia.
    + cbv zeta in Hlog.
      set (txt := path_str (out_file (rewritten_name (_safe_name L (App.in_tone i))
                                        (strftime (clock E (S (w_tick w))))))) in *.
      set (mp3 := path_str (out_file (audio_name (lit "speech")
                                        (_safe_name L (App.in_tone i))
                                        (strftime (clock E (w_tick w)))))) in *.
      set (meta := path_str (out_file (meta_name (_safe_name L (App.in_tone i))
                                         (strftime (clock E (w_tick w)))))) in *.
      exists w',
        [EvRewriteCall (strip (App.in_text i)) (App.in_tone i) (App.in_model i);
         EvHttpGet (tags_url (App.in_ollama_url i));
         EvHttpPost (generate_url (App.in_ollama_url i));
         EvSynthCall rewritten; EvWrite txt; EvWrite mp3; EvWrite meta],
        (EvSuccess App.success_msg), rewritten, txt, mp3, meta.
      split; [reflexivity|].
      split; [rewrite Hlog; reflexivity|].
      split; [reflexivity|].
      right. right. auto.
Qed.

(** X12, at a concrete run in which everything works. *)
Lemma handler_reports_once_witness :
  exists w' evs,
    App.generate Sample.lib Sample.env_ok (Sample.inputs (lit "Hi.") (lit "Calm"))
      Sample.empty_world = (Ret tt, w') /\
    w_log w' = evs ++ [EvSuccess App.success_msg] /\
    length evs = 7%nat.
Proof.
  destruct (handler_reports_once Sample.lib Sample.env_ok
              (Sample.inputs (lit "Hi.") (lit "Calm")) Sample.empty_world eq_refl)
    as (w' & evs & msg & rewritten & txt & mp3 & meta & Hrun & Hlog & Hpre & Hcase).
  exists w', evs. split; [exact Hrun|].
  assert (Hlast : last (w_log w') = Some (EvSuccess App.success_msg)).
  { replace w' with (snd (App.generate Sample.lib Sample.env_ok
                            (Sample.inputs (lit "Hi.") (lit "Calm")) Sample.empty_world))
      by (rewrite Hrun; reflexivity).
    vm_compute. reflexivity. }
  rewrite Hlog in Hlast. cbn [Sample.empty_world Sample.world w_log app] in Hlast, Hlog.
  rewrite last_snoc in Hlast. injection Hlast as ->.
  split; [exact Hlog|].
  destruct Hcase as [(H & _)|[(m & H & _)|(_ & _ & H)]]; [discriminate H..|exact H].
Defined.

(** X13. What a run of the handler leaves in the session. When the rewrite
    stage raises, the session is as before. Once the rewrite stage has
    returned, the session holds the new rewritten text, whatever happens
    next; unless the run ends with the success message, the audio bytes, the
    audio format and the metadata of the session are still those of an
    earlier job, and after success they are the new audio bytes, "audio/mp3"
    and the metadata record that was written. A blank text leaves the
    session as it was. *)
Theorem handler_session_state (L : PyLib) (E : Env) (i : App.Inputs) (w : World) :
  App.in_gen i = true ->
  let s := w_session w in
  let w' := snd (App.generate L E i w) in
  (blank (App.in_text i) -> w_session w' = s) /\
  (~ blank (App.in_text i) ->
   match fst (Core.rewrite_with_ollama L E (strip (App.in_text i)) (App.in_tone i)
                (App.in_model i) (App.in_ollama_url i) (App.in_temperature i)
                (App.in_max_tokens i) w) with
   | Raise _ => w_session w' = s
   | Exit _ => False
   | Ret rewritten =>
       (last (w_log w') <> Some (EvSuccess App.success_msg) ->
        w_session w' = {| ss_rewritten := rewritten;
                          ss_audio_bytes := ss_audio_bytes s;
                          ss_audio_mime := ss_audio_mime s;
                          ss_last_meta := ss_last_meta s |}) /\
       (last (w_log w') = Some (EvSuccess App.success_msg) ->
        exists audio txt mp3,
          w_session w'
          = {| ss_rewritten := rewritten;
               ss_audio_bytes := audio;
               ss_audio_mime := lit "audio/mp3";
               ss_last_meta := App.meta_record i (strftime (clock E (w_tick w)))
                                 txt mp3 |} /\
          w_fs w' !! path_str mp3 = Some (FBytes audio))
   end).
Proof.
  intros Hgen s w'. subst s w'. unfold App.generate. rewrite Hgen. split.
  - intros Hb. apply app_blank_test in Hb. rewrite Hb. reflexivity.
  - intros Hnb.
    destruct (is_nil (App.in_text i) || is_nil (strip (App.in_text i)))%bool eqn:Hb.
    { apply app_blank_test in Hb. contradiction. }
    unfold try_except.
    destruct (app_generate_job_outcome L E i w)
      as [(e & evs & Hrw & Hjob & Hevs)
         |[(rewritten & e & w' & evs & Hrw & Hjob & Hevs & Hlog & _ & _ & _ & Hss)
          |(rewritten & audio & w' & Hrw & Hjob & Hlog & Hfs & _ & _ & Hss)]];
      rewrite Hrw, Hjob; cbn [fst snd].
    + rewrite emit_run. cbn [snd]. autorewrite with world. reflexivity.
    + rewrite emit_run. cbn [snd]. autorewrite with world. split.
      * intros _. exact Hss.
      * intros H. rewrite last_snoc in H. discriminate H.
    + split.
      * intros H. exfalso. apply H. rewrite Hlog. repeat apply last_app_some. reflexivity.
      * intros _. eexists audio, _, _. split; [exact Hss|].
        rewrite Hfs.
        rewrite lookup_insert_ne.
        -- apply lookup_insert_eq.
        -- eapply paths_differ_by_last;
             [apply last_meta_name | apply last_audio_name | discriminate].
Qed.

(** X13, at a concrete run: the rewrite returns "Hello there.", the
    synthesis raises, and the session has the new text and no audio. *)
Lemma handler_session_state_witness :
  w_session (snd (App.generate Sample.lib Sample.env_tts_down
                    (Sample.inputs (lit "Hi.") (lit "Calm")) Sample.empty_world))
  = {| ss_rewritten := lit "Hello there.";
       ss_audio_bytes := [];
       ss_audio_mime := lit "audio/mp3";
       ss_last_meta := JObj [] |}.
Proof.
  destruct (handler_session_state Sample.lib Sample.env_tts_down
              (Sample.inputs (lit "Hi.") (lit "Calm")) Sample.empty_world eq_refl)
    as [_ H].
  assert (Hnb : ~ blank (App.in_text (Sample.inputs (lit "Hi.") (lit "Calm")))).
  { unfold blank. vm_compute. discriminate. }
  specialize (H Hnb).
  assert (Hrw : fst (Core.rewrite_with_ollama Sample.lib Sample.env_tts_down
                       (strip (App.in_text (Sample.inputs (lit "Hi.") (lit "Calm"))))
                       (App.in_tone (Sample.inputs (lit "Hi.") (lit "Calm")))
                       (App.in_model (Sample.inputs (lit "Hi.") (lit "Calm")))
                       (App.in_ollama_url (Sample.inputs (lit "Hi.") (lit "Calm")))
                       (App.in_temperature (Sample.inputs (lit "Hi.") (lit "Calm")))
                       (App.in_max_tokens (Sample.inputs (lit "Hi.") (lit "Calm")))
                       Sample.empty_world)
                = Ret (lit "Hello there.")).
  { vm_compute. reflexivity. }
  rewrite Hrw in H. destruct H as [H _]. apply H.
  vm_compute. discriminate.
Defined.

(** ** The output section after a job *)

Section OutputSection.
Variable L : PyLib.
Variable E : Env.
Variable format_value : json -> pystr.

(** The output section with the session that a finished job leaves. *)
Lemma output_after_job i0 i w rewritten audio ts txt mp3 :
  w_session w = {| ss_rewritten := rewritten; ss_audio_bytes := audio;
                   ss_audio_mime := lit "audio/mp3";
                   ss_last_meta := App.meta_record i0 ts txt mp3 |} ->
  Page.output L E format_value i w
  = (Ret {| Page.o_cards := if is_nil rewritten then None
                            else Some (App.in_text i, rewritten);
            Page.o_audio := if is_nil audio then None else Some (audio, lit "audio/mp3");
            Page.o_download :=
              if is_nil audio then None
              else Some {| Page.dl_data := audio;
                           Page.dl_file_name :=
                             audio_name (lit "speech") (_safe_name L (App.in_tone i)) ts;
                           Page.dl_mime := lit "audio/mp3" |} |},
     if is_nil audio then w else with_tick w (S (w_tick w))).
Proof.
  intros Hs. unfold Page.output, get_session, bind at 1. rewrite Hs.
  cbn [ss_rewritten ss_audio_bytes ss_audio_mime ss_last_meta].
  destruct audio as [|b audio]; [reflexivity|]. cbn [is_nil].
  rewrite (bind_run _ _ _ _ _ (ensure_outputs_dir_run w)). cbv beta iota.
  unfold App.meta_record.
  rewrite (bind_run _ _ _ _ _ (now_run E w)). cbv beta iota.
  cbn [dict_get]. rewrite bool_decide_eq_true_2 by reflexivity.
  reflexivity.
Qed.

End OutputSection.

(** X14. After a job that ended with the success message, the output section
    shows the player and offers the audio bytes of the job for download under
    the name [speech_<tone>_<ts>.mp3], with the tone that is selected now and
    the time stamp of the job. While the selected tone has the sanitized form
    of the tone of the job, this is the name of the audio file the job wrote;
    with another tone it is the name of no file of the job. When the
    synthesis returned no bytes, the job still succeeded, but neither player
    nor button is shown. *)
Theorem download_after_success (L : PyLib) (E : Env) (format_value : json -> pystr)
    (i0 i : App.Inputs) (w : World) (r : Res unit) (w1 : World) :
  App.in_gen i0 = true ->
  App.generate L E i0 w = (r, w1) ->
  last (w_log w1) = Some (EvSuccess App.success_msg) ->
  let ts := strftime (clock E (w_tick w)) in
  let written := audio_name (lit "speech") (_safe_name L (App.in_tone i0)) ts in
  let offered := audio_name (lit "speech") (_safe_name L (App.in_tone i)) ts in
  exists audio o w2,
    Page.output L E format_value i w1 = (Ret o, w2) /\
    w_fs w2 = w_fs w1 /\
    w_fs w1 !! path_str (out_file written) = Some (FBytes audio) /\
    (audio <> [] ->
     Page.o_audio o = Some (audio, lit "audio/mp3") /\
     Page.o_download o = Some {| Page.dl_data := audio; Page.dl_file_name := offered;
                                 Page.dl_mime := lit "audio/mp3" |}) /\
    (audio = [] -> Page.o_audio o = None /\ Page.o_download o = None) /\
    (offered = written <-> _safe_name L (App.in_tone i) = _safe_name L (App.in_tone i0)).
Proof.
  intros Hgen Hrun Hlast ts written offered.
  destruct (app_generate_success L E i0 w r w1 Hgen Hrun Hlast) as [_ Hjob].
  destruct (app_generate_job_outcome L E i0 w)
    as [(e & evs & _ & Hjob' & _)
       |[(rewritten & e & w' & evs & _ & Hjob' & _)
        |(rewritten & audio & w' & _ & Hjob' & _ & Hfs & _ & _ & Hss)]];
    rewrite Hjob in Hjob'; try discriminate.
  injection Hjob' as <-.
  exists audio. eexists _, _.
  split; [apply (output_after_job L E format_value i0 i w1 _ _ _ _ _ Hss)|].
  split; [destruct audio; reflexivity|].
  split.
  { rewrite Hfs. rewrite lookup_insert_ne.
    - apply lookup_insert_eq.
    - eapply paths_differ_by_last;
        [apply last_meta_name | apply last_audio_name | discriminate]. }
  split; [intros Hne; destruct audio; [congruence | split; reflexivity]|].
  split; [intros ->; split; reflexivity|].
  subst offered written. split.
  - intros H. apply audio_name_inj in H; [apply H | reflexivity].
  - intros ->. reflexivity.
Qed.

(** X14, at a concrete run: the job ran with tone "Calm"; with "Urgent"
    selected afterwards the button offers the same bytes under a name that
    no file has. *)
Lemma download_after_success_witness :
  exists o w2,
    Page.output Sample.lib Sample.env_ok (fun _ => [])
      (Sample.inputs (lit "Hi.") (lit "Urgent"))
      (snd (App.generate Sample.lib Sample.env_ok (Sample.inputs (lit "Hi.") (lit "Calm"))
              Sample.empty_world))
    = (Ret o, w2) /\
    Page.o_download o
    = Some {| Page.dl_data := [Byte.x49; Byte.x44; Byte.x33];
              Page.dl_file_name := lit "speech_Urgent_20250309-140559.mp3";
              Page.dl_mime := lit "audio/mp3" |} /\
    w_fs w2 !! lit "outputs/speech_Urgent_20250309-140559.mp3" = None /\
    w_fs w2 !! lit "outputs/speech_Calm_20250309-140559.mp3"
    = Some (FBytes [Byte.x49; Byte.x44; Byte.x33]).
Proof.
  destruct (download_after_success Sample.lib Sample.env_ok (fun _ => [])
              (Sample.inputs (lit "Hi.") (lit "Calm"))
              (Sample.inputs (lit "Hi.") (lit "Urgent")) Sample.empty_world (Ret tt)
              (snd (App.generate Sample.lib Sample.env_ok
                      (Sample.inputs (lit "Hi.") (lit "Calm")) Sample.empty_world)))
    as (audio & o & w2 & Hout & Hfs & Haudio & Hshown & _).
  - reflexivity.
  - vm_compute. reflexivity.
  - vm_compute. reflexivity.
  - assert (Ha : audio = [Byte.x49; Byte.x44; Byte.x33]).
    { assert (H : w_fs (snd (App.generate Sample.lib Sample.env_ok
                               (Sample.inputs (lit "Hi.") (lit "Calm")) Sample.empty_world))
                  !! lit "outputs/speech_Calm_20250309-140559.mp3"
                  = Some (FBytes [Byte.x49; Byte.x44; Byte.x33]))
        by (vm_compute; reflexivity).
      change (path_str _) with (lit "outputs/speech_Calm_20250309-140559.mp3") in Haudio.
      rewrite H in Haudio. congruence. }
    subst audio. exists o, w2. split; [exact Hout|].
    split; [apply Hshown; discriminate|].
    rewrite Hfs. split; vm_compute; reflexivity.
Defined.

(** ** The expander after a job *)

Lemma listed_files_complete fs n d :
  fs !! path_str (out_file n) = Some d ->
  existsb (N.eqb ch_slash) n = false ->
  match_speech_mp3 n = true ->
  out_file n ∈ App.listed_files fs.
Proof.
  intros Hfs Hs Hm. unfold App.listed_files.
  rewrite (sorted_reverse_perm (App.glob_speech fs (lit "outputs"))).
  apply (glob_speech_complete fs (lit "outputs") n d); assumption.
Qed.

(** X10. The audio file of a job that ended with the success message is
    among the files the expander lists, its metadata path as the expander
    computes it holds the dumped metadata record of the job, and while the
    output directory has at most twenty audio files the expander shows the
    file with the audio bytes of the job. *)
Theorem new_narration_is_listed (L : PyLib) (E : Env) (i : App.Inputs) (w : World)
    (r : Res unit) (w1 : World) :
  App.in_gen i = true ->
  App.generate L E i w = (r, w1) ->
  last (w_log w1) = Some (EvSuccess App.success_msg) ->
  let safe := _safe_name L (App.in_tone i) in
  let ts := strftime (clock E (w_tick w)) in
  let f := out_file (audio_name (lit "speech") safe ts) in
  exists audio txt,
    f ∈ App.listed_files (w_fs w1) /\
    w_fs w1 !! path_str f = Some (FBytes audio) /\
    w_fs w1 !! path_str (App.meta_path_of (lit "outputs") f)
    = Some (FText (json_dumps L (App.meta_record i ts txt f))) /\
    ((length (App.listed_files (w_fs w1)) <= 20)%nat ->
     exists listing e,
       App.past_narrations L w1 = (Ret listing, w1) /\
       e ∈ App.shown listing /\
       App.n_name e = p_name f /\ App.n_data e = FBytes audio).
Proof.
  intros Hgen Hrun Hlast safe ts f.
  destruct (app_generate_success L E i w r w1 Hgen Hrun Hlast) as [_ Hjob].
  destruct (app_generate_job_outcome L E i w)
    as [(e & evs & _ & Hjob' & _)
       |[(rewritten & e & w' & evs & _ & Hjob' & _)
        |(rewritten & audio & w' & _ & Hjob' & _ & Hfs & _)]];
    rewrite Hjob in Hjob'; try discriminate.
  injection Hjob' as <-. fold safe ts f in Hfs.
  assert (Hmp3 : w_fs w1 !! path_str f = Some (FBytes audio)).
  { rewrite Hfs. rewrite lookup_insert_ne.
    - apply lookup_insert_eq.
    - eapply paths_differ_by_last;
        [apply last_meta_name | apply last_audio_name | discriminate]. }
  assert (Hin : f ∈ App.listed_files (w_fs w1)).
  { apply (listed_files_complete _ _ _ Hmp3).
    - apply audio_name_no_slash.
    - apply audio_name_matches. }
  exists audio. eexists. split; [exact Hin|]. split; [exact Hmp3|]. split.
  { unfold f, out_file. rewrite meta_path_of_audio. rewrite Hfs. apply lookup_insert_eq. }
  intros Hlen.
  destruct (past_narrations_run L w1) as (listing & Hpast & Hall & _).
  rewrite take_ge in Hall by exact Hlen.
  apply list_elem_of_lookup in Hin as [k Hk].
  destruct (Forall2_lookup_l _ _ _ _ _ Hall Hk) as (en & Hen & Hname & Hdata & _).
  exists listing, en. split; [exact Hpast|].
  split; [eapply list_elem_of_lookup_2, Hen|].
  split; [exact Hname|]. rewrite Hmp3 in Hdata. congruence.
Qed.

(** X10, at a concrete run into an empty output directory. *)
Lemma new_narration_is_listed_witness :
  exists listing e,
    App.past_narrations Sample.lib
      (snd (App.generate Sample.lib Sample.env_ok (Sample.inputs (lit "Hi.") (lit "Calm"))
              Sample.empty_world))
    = (Ret listing,
       snd (App.generate Sample.lib Sample.env_ok (Sample.inputs (lit "Hi.") (lit "Calm"))
              Sample.empty_world)) /\
    e ∈ App.shown listing /\
    App.n_name e = lit "speech_Calm_20250309-140559.mp3".
Proof.
  destruct (new_narration_is_listed Sample.lib Sample.env_ok
              (Sample.inputs (lit "Hi.") (lit "Calm")) Sample.empty_world (Ret tt)
              (snd (App.generate Sample.lib Sample.env_ok
                      (Sample.inputs (lit "Hi.") (lit "Calm")) Sample.empty_world)))
    as (audio & txt & _ & _ & _ & Hshown).
  - reflexivity.
  - vm_compute. reflexivity.
  - vm_compute. reflexivity.
  - destruct Hshown as (listing & e & Hpast & He & Hname & _).
    + vm_compute. lia.
    + exists listing, e. split; [exact Hpast|]. split; [exact He | exact Hname].
Defined.

(** X11. The expander shows "No previous narrations yet." exactly when no
    file directly in the output directory has a name that matches
    [speech_*.mp3]; files in other directories or below sub-directories and
    files with other names do not count. *)
Theorem no_narrations_iff (L : PyLib) (w : World) :
  exists listing,
    App.past_narrations L w = (Ret listing, w) /\
    (listing = App.NoNarrations <->
     forall n d,
       w_fs w !! path_str (out_file n) = Some d ->
       existsb (N.eqb ch_slash) n = false ->
       match_speech_mp3 n = false).
Proof.
  destruct (past_narrations_run L w) as (listing & Hpast & _ & Hnone).
  exists listing. split; [exact Hpast|]. rewrite Hnone. split.
  - intros Hnil n d Hfs Hs.
    destruct (match_speech_mp3 n) eqn:Hm; [|reflexivity].
    pose proof (listed_files_complete _ _ _ Hfs Hs Hm) as Hin.
    rewrite Hnil in Hin. inversion Hin.
  - intros H. destruct (App.listed_files (w_fs w)) as [|f l] eqn:Hl; [reflexivity|].
    exfalso.
    assert (Hin : f ∈ f :: l) by left.
    rewrite <- Hl in Hin. unfold App.listed_files in Hin.
    rewrite (sorted_reverse_perm (App.glob_speech (w_fs w) (lit "outputs"))) in Hin.
    unfold App.glob_speech in Hin. apply list_elem_of_omap in Hin as ([k d] & Hk & Hf).
    simpl in Hf.
    destruct (child_name (lit "outputs") k) as [n|] eqn:Hc; [|discriminate].
    destruct (match_speech_mp3 n) eqn:Hm; [|discriminate].
    apply child_name_spec in Hc as [-> Hs].
    apply elem_of_map_to_list in Hk.
    rewrite (H n d Hk Hs) in Hm. discriminate.
Qed.

(** ** Pasted text *)

Lemma is_nil_false {A} (l : list A) : l <> [] -> is_nil l = false.
Proof. destruct l; [congruence | reflexivity]. Qed.

(** Once a line has been collected, the loop collects the lines up to the
    first blank one. *)
Lemma read_lines_collect mid b rest acc :
  acc <> [] ->
  Forall (fun l => strip l <> []) mid ->
  b <> [] -> strip b = [] ->
  Terminal.read_lines (mid ++ b :: rest) acc = (acc ++ mid, rest).
Proof.
  intros Hacc Hmid Hb Hsb. revert acc Hacc.
  induction Hmid as [|l mid Hl Hmid IH]; intros acc Hacc.
  - cbn [app Terminal.read_lines]. rewrite (is_nil_false b Hb), Hsb. cbn [is_nil andb].
    destruct acc; [congruence|]. cbn. rewrite app_nil_r. reflexivity.
  - cbn [app Terminal.read_lines].
    assert (Hne : l <> []) by (intros ->; apply Hl; reflexivity).
    rewrite (is_nil_false l Hne), (is_nil_false _ Hl). cbn [andb].
    rewrite IH by (destruct acc; discriminate).
    rewrite <- app_assoc. reflexivity.
Qed.

Lemma read_lines_eof mid acc :
  Forall (fun l => strip l <> []) mid ->
  Terminal.read_lines mid acc = (acc ++ mid, []).
Proof.
  intros Hmid. revert acc.
  induction Hmid as [|l mid Hl Hmid IH]; intros acc.
  - cbn. rewrite app_nil_r. reflexivity.
  - cbn [Terminal.read_lines].
    assert (Hne : l <> []) by (intros ->; apply Hl; reflexivity).
    rewrite (is_nil_false l Hne), (is_nil_false _ Hl). cbn [andb].
    rewrite IH, <- app_assoc. reflexivity.
Qed.

Lemma read_lines_first first more :
  first <> [] ->
  Terminal.read_lines (first :: more) [] = Terminal.read_lines more [first].
Proof.
  intros H. cbn [Terminal.read_lines]. rewrite (is_nil_false first H).
  cbn [length Nat.ltb Nat.leb]. rewrite andb_false_r. reflexivity.
Qed.

Lemma read_text_interactive_run w :
  Terminal.read_text_interactive w
  = (Ret (strip (concat (fst (Terminal.read_lines (w_stdin w) [])))),
     with_stdin (logged w [EvStdout Terminal.paste_prompt])
       (snd (Terminal.read_lines (w_stdin w) []))).
Proof.
  unfold Terminal.read_text_interactive, print.
  rewrite (bind_run _ _ _ _ _ (emit_run _ _)). cbv beta iota.
  rewrite w_stdin_logged.
  destruct (Terminal.read_lines (w_stdin w) []). reflexivity.
Qed.

(** X15. [read_text_interactive] takes the first pending line whatever it
    holds, then the lines up to the first blank one, and returns them joined
    and stripped; the blank line is consumed and what follows it stays
    unread. Without a blank line it reads to the end of the input. It never
    raises. *)
Theorem read_text_interactive_spec (w : World) (first : pystr) (mid : list pystr) :
  first <> [] ->
  Forall (fun l => strip l <> []) mid ->
  (forall b rest,
      w_stdin w = first :: mid ++ b :: rest ->
      b <> [] -> strip b = [] ->
      Terminal.read_text_interactive w
      = (Ret (strip (concat (first :: mid))),
         with_stdin (logged w [EvStdout Terminal.paste_prompt]) rest))
  /\
  (w_stdin w = first :: mid ->
   Terminal.read_text_interactive w
   = (Ret (strip (concat (first :: mid))),
      with_stdin (logged w [EvStdout Terminal.paste_prompt]) [])).
Proof.
  intros Hfirst Hmid. split.
  - intros b rest Hin Hb Hsb. rewrite read_text_interactive_run, Hin.
    rewrite (read_lines_first first _ Hfirst).
    rewrite (read_lines_collect mid b rest [first]) by (assumption || discriminate).
    reflexivity.
  - intros Hin. rewrite read_text_interactive_run, Hin.
    rewrite (read_lines_first first _ Hfirst).
    rewrite (read_lines_eof mid [first] Hmid). reflexivity.
Qed.

(** X15, at a concrete input: two lines, a blank line, and a line that stays
    unread. *)
Lemma read_text_interactive_spec_witness :
  Terminal.read_text_interactive
    (Sample.world ∅ [lit "Once upon" ++ nl; lit "a time." ++ nl; nl; lit "more" ++ nl])
  = (Ret (lit "Once upon" ++ nl ++ lit "a time."),
     with_stdin (logged (Sample.world ∅ [lit "Once upon" ++ nl; lit "a time." ++ nl; nl;
                                         lit "more" ++ nl])
                   [EvStdout Terminal.paste_prompt])
       [lit "more" ++ nl]).
Proof.
  destruct (read_text_interactive_spec
              (Sample.world ∅ [lit "Once upon" ++ nl; lit "a time." ++ nl; nl;
                               lit "more" ++ nl])
              (lit "Once upon" ++ nl) [lit "a time." ++ nl]) as [H _].
  - discriminate.
  - constructor; [vm_compute; discriminate | constructor].
  - apply (H nl [lit "more" ++ nl]); [reflexivity | discriminate | reflexivity].
Defined.

(** ** The tone picker *)

Section TonePicker.
Variable L : PyLib.

Lemma input_ret prompt w l rest :
  w_stdin w = l :: rest -> l <> [] ->
  Terminal.input prompt w
  = (Ret (Terminal.chomp l), with_stdin (logged w [EvStdout prompt]) rest).
Proof.
  intros Hin Hl. unfold Terminal.input.
  rewrite (bind_run _ _ _ _ _ (emit_run _ _)). cbv beta iota.
  unfold readline, bind. rewrite w_stdin_logged, Hin.
  rewrite (is_nil_false l Hl). reflexivity.
Qed.

Lemma input_eof prompt w :
  w_stdin w = [] ->
  Terminal.input prompt w
  = (Raise (PyError (lit "EOFError") (lit "EOF when reading a line")),
     logged w [EvStdout prompt]).
Proof.
  intros Hin. unfold Terminal.input.
  rewrite (bind_run _ _ _ _ _ (emit_run _ _)). cbv beta iota.
  unfold readline, bind. rewrite w_stdin_logged, Hin. reflexivity.
Qed.


Lemma print_tones_run i tones :
  exists evs, forall w, Terminal.print_tones i tones w = (Ret tt, logged w evs).
Proof.
  revert i. induction tones as [|t r IH]; intros i.
  - exists []. intros w. unfold logged, with_log. cbn. rewrite app_nil_r.
    destruct w; reflexivity.
  - destruct (IH (i + 1)%Z) as [evs Hevs].
    eexists (_ :: evs). intros w. cbn [Terminal.print_tones]. unfold print.
    rewrite (bind_run _ _ _ _ _ (emit_run _ _)). cbv beta iota.
    rewrite Hevs, logged_logged. reflexivity.
Qed.

(** The picker is its loop, run after the menu has been printed. *)
Lemma pick_tone_interactive_run tones w :
  exists w0,
    w_stdin w0 = w_stdin w /\ w_fs w0 = w_fs w /\
    Terminal.pick_tone_interactive L tones w
    = Terminal.pick_loop L (S (length (w_stdin w))) tones w0.
Proof.
  unfold Terminal.pick_tone_interactive, print.
  destruct (print_tones_run 1 tones) as [evs Hevs].
  eexists. split; [|split]; cycle 2.
  - rewrite (bind_run _ _ _ _ _ (emit_run _ _)). cbv beta iota.
    rewrite (bind_run _ _ _ _ _ (Hevs _)). cbv beta iota.
    rewrite (bind_run _ _ _ _ _ (emit_run _ _)). cbv beta iota.
    rewrite !w_stdin_logged. reflexivity.
  - rewrite !w_stdin_logged. reflexivity.
  - rewrite !w_fs_logged. reflexivity.
Qed.

(** Rejected lines are consumed one by one; the loop goes on with what
    follows them. *)
Lemma pick_loop_skip tones bad :
  Forall (rejected L tones) bad ->
  forall fuel w tail,
    w_stdin w = bad ++ tail -> (length (w_stdin w) < fuel)%nat ->
    exists w1,
      w_stdin w1 = tail /\ w_fs w1 = w_fs w /\
      Terminal.pick_loop L fuel tones w = Terminal.pick_loop L fuel tones w1.
Proof.
  induction 1 as [|l bad [Hl Hrej] Hbad IH]; intros fuel w tail Hin Hfuel.
  - exists w. auto.
  - destruct fuel as [|fuel]; [lia|].
    cbn [Terminal.pick_loop].
    rewrite (bind_run _ _ _ _ _ (input_ret _ w l (bad ++ tail) Hin Hl)). cbv beta iota.
    assert (Hlen : (length (bad ++ tail) < fuel)%nat).
    { rewrite Hin in Hfuel. simpl in Hfuel. lia. }
    assert (Hnext : forall msg,
               exists w1,
                 w_stdin w1 = tail /\ w_fs w1 = w_fs w /\
                 (print msg >> Terminal.pick_loop L fuel tones)
                   (with_stdin (logged w [EvStdout (nl ++ lit "Enter number: ")])
                      (bad ++ tail))
                 = Terminal.pick_loop L (S fuel) tones w1).
    { intros msg. unfold print.
      rewrite (bind_run _ _ _ _ _ (emit_run _ _)). cbv beta iota.
      destruct (IH fuel (logged (with_stdin (logged w [EvStdout (nl ++ lit "Enter number: ")])
                                   (bad ++ tail)) [EvStdout msg]) tail)
        as (w1 & Hs1 & Hf1 & Hrun).
      - autorewrite with world. reflexivity.
      - autorewrite with world. exact Hlen.
      - exists w1. split; [exact Hs1|]. split.
        + rewrite Hf1. autorewrite with world. reflexivity.
        + rewrite Hrun. apply pick_loop_fuel; rewrite Hs1; rewrite length_app in Hlen; lia. }
    destruct (py_int L (strip (Terminal.chomp l))) as [z|].
    + destruct Hrej as [Hz Hrange].
      apply Z.eqb_neq in Hz. rewrite Hz.
      assert (Hr : ((1 <=? z)%Z && (z <=? Z.of_nat (length tones))%Z)%bool = false).
      { apply andb_false_iff.
        destruct (Z.leb_spec 1 z); [|left; reflexivity].
        destruct (Z.leb_spec z (Z.of_nat (length tones))); [|right; reflexivity].
        exfalso. apply Hrange. lia. }
      rewrite Hr. apply Hnext.
    + apply Hnext.
Qed.

End TonePicker.

(** X16. The tone picker asks again after every line that is not a number
    or is a number other than 0 and the numbers of the menu, and returns the
    tone whose number is entered first: entry [k] of the list, counted from
    1. It consumes the lines up to that one and leaves the others and the
    file system alone. *)
Theorem pick_tone_by_number (L : PyLib) (tones : list pystr) (w : World)
    (bad : list pystr) (good : pystr) (rest : list pystr) (k : Z) :
  w_stdin w = bad ++ good :: rest ->
  Forall (rejected L tones) bad ->
  good <> [] ->
  py_int L (strip (Terminal.chomp good)) = Some k ->
  (1 <= k <= Z.of_nat (length tones))%Z ->
  exists t w',
    Terminal.pick_tone_interactive L tones w = (Ret t, w') /\
    tones !! Z.to_nat (k - 1) = Some t /\
    w_stdin w' = rest /\ w_fs w' = w_fs w.
Proof.
  intros Hin Hbad Hgood Hint Hrange.
  destruct (pick_tone_interactive_run L tones w) as (w0 & Hs0 & Hf0 & Hrun).
  destruct (pick_loop_skip L tones bad Hbad (S (length (w_stdin w))) w0 (good :: rest))
    as (w1 & Hs1 & Hf1 & Hskip).
  { rewrite Hs0. exact Hin. }
  { rewrite Hs0. lia. }
  rewrite Hrun, Hskip. cbn [Terminal.pick_loop].
  rewrite (bind_run _ _ _ _ _ (input_ret _ w1 good rest Hs1 Hgood)). cbv beta iota.
  rewrite Hint.
  assert (Hz : (k =? 0)%Z = false) by (apply Z.eqb_neq; lia).
  assert (Hr : ((1 <=? k)%Z && (k <=? Z.of_nat (length tones))%Z)%bool = true).
  { apply andb_true_iff. split; apply Z.leb_le; lia. }
  rewrite Hz, Hr.
  destruct (lookup_lt_is_Some_2 tones (Z.to_nat (k - 1))) as [t Ht]; [lia|].
  rewrite Ht. exists t. eexists. split; [reflexivity|].
  split; [reflexivity|]. autorewrite with world. split; [reflexivity | congruence].
Qed.

(** X16, at a concrete input: a word, a number that is too large, then 2. *)
Lemma pick_tone_by_number_witness :
  exists w',
    Terminal.pick_tone_interactive Sample.lib (map lit ["Neutral"; "Calm"; "Urgent"]%string)
      (Sample.world ∅ [lit "calm" ++ nl; lit "7" ++ nl; lit " 2 " ++ nl; lit "x" ++ nl])
    = (Ret (lit "Calm"), w') /\
    w_stdin w' = [lit "x" ++ nl].
Proof.
  destruct (pick_tone_by_number Sample.lib (map lit ["Neutral"; "Calm"; "Urgent"]%string)
              (Sample.world ∅ [lit "calm" ++ nl; lit "7" ++ nl; lit " 2 " ++ nl;
                               lit "x" ++ nl])
              [lit "calm" ++ nl; lit "7" ++ nl] (lit " 2 " ++ nl) [lit "x" ++ nl] 2)
    as (t & w' & Hrun & Ht & Hs & _).
  - reflexivity.
  - constructor; [|constructor; [|constructor]].
    + split; [discriminate|].
      replace (py_int Sample.lib (strip (Terminal.chomp (lit "calm" ++ nl)))) with (@None Z)
        by reflexivity.
      exact I.
    + split; [discriminate|].
      replace (py_int Sample.lib (strip (Terminal.chomp (lit "7" ++ nl)))) with (Some 7%Z)
        by reflexivity.
      split; [discriminate | simpl; lia].
  - discriminate.
  - reflexivity.
  - vm_compute. split; discriminate.
  - injection Ht as <-. exists w'. split; [exact Hrun | exact Hs].
Defined.

(** X17. After the rejected lines, entering 0 makes the picker prompt for a
    custom tone and return the next line stripped, without any check: the
    custom tone can be empty. When the input ends before a choice has been
    made, or after the 0, the picker raises [EOFError]. *)
Theorem pick_tone_custom_or_eof (L : PyLib) (tones : list pystr) (w : World)
    (bad : list pystr) :
  Forall (rejected L tones) bad ->
  (forall zero custom rest,
      w_stdin w = bad ++ zero :: custom :: rest ->
      zero <> [] -> py_int L (strip (Terminal.chomp zero)) = Some 0%Z ->
      custom <> [] ->
      exists w',
        Terminal.pick_tone_interactive L tones w
        = (Ret (strip (Terminal.chomp custom)), w') /\
        w_stdin w' = rest /\ w_fs w' = w_fs w)
  /\
  (w_stdin w = bad ->
   exists w',
     Terminal.pick_tone_interactive L tones w
     = (Raise (PyError (lit "EOFError") (lit "EOF when reading a line")), w') /\
     w_stdin w' = [] /\ w_fs w' = w_fs w)
  /\
  (forall zero,
      w_stdin w = bad ++ [zero] ->
      zero <> [] -> py_int L (strip (Terminal.chomp zero)) = Some 0%Z ->
      exists w',
        Terminal.pick_tone_interactive L tones w
        = (Raise (PyError (lit "EOFError") (lit "EOF when reading a line")), w') /\
        w_stdin w' = [] /\ w_fs w' = w_fs w).
Proof.
  intros Hbad.
  destruct (pick_tone_interactive_run L tones w) as (w0 & Hs0 & Hf0 & Hrun).
  split; [|split].
  - intros zero custom rest Hin Hzero Hint Hcustom.
    destruct (pick_loop_skip L tones bad Hbad (S (length (w_stdin w))) w0
                (zero :: custom :: rest)) as (w1 & Hs1 & Hf1 & Hskip).
    { rewrite Hs0. exact Hin. }
    { rewrite Hs0. lia. }
    rewrite Hrun, Hskip. cbn [Terminal.pick_loop].
    rewrite (bind_run _ _ _ _ _ (input_ret _ w1 zero _ Hs1 Hzero)). cbv beta iota.
    rewrite Hint. cbn [Z.eqb].
    erewrite bind_run.
    2:{ apply (input_ret _ _ custom rest); [|exact Hcustom].
        autorewrite with world. reflexivity. }
    cbv beta iota. eexists. split; [reflexivity|].
    autorewrite with world. split; [reflexivity | congruence].
  - intros Hin.
    destruct (pick_loop_skip L tones bad Hbad (S (length (w_stdin w))) w0 [])
      as (w1 & Hs1 & Hf1 & Hskip).
    { rewrite Hs0, app_nil_r. exact Hin. }
    { rewrite Hs0. lia. }
    rewrite Hrun, Hskip. cbn [Terminal.pick_loop].
    rewrite (bind_run _ _ _ _ _ (input_eof _ w1 Hs1)). cbv beta iota.
    eexists. split; [reflexivity|].
    autorewrite with world. split; [exact Hs1 | congruence].
  - intros zero Hin Hzero Hint.
    destruct (pick_loop_skip L tones bad Hbad (S (length (w_stdin w))) w0 [zero])
      as (w1 & Hs1 & Hf1 & Hskip).
    { rewrite Hs0. exact Hin. }
    { rewrite Hs0. lia. }
    rewrite Hrun, Hskip. cbn [Terminal.pick_loop].
    rewrite (bind_run _ _ _ _ _ (input_ret _ w1 zero _ Hs1 Hzero)). cbv beta iota.
    rewrite Hint. cbn [Z.eqb].
    erewrite bind_run.
    2:{ apply input_eof. autorewrite with world. reflexivity. }
    cbv beta iota. eexists. split; [reflexivity|].
    autorewrite with world. split; [reflexivity | congruence].
Qed.

(** X17, at concrete inputs: a custom tone of blanks, and no input at all. *)
Lemma pick_tone_custom_or_eof_witness :
  (exists w',
      Terminal.pick_tone_interactive Sample.lib Terminal.DEFAULT_TONES
        (Sample.world ∅ [lit "0" ++ nl; lit "  " ++ nl])
      = (Ret [], w')) /\
  (exists w',
      Terminal.pick_tone_interactive Sample.lib Terminal.DEFAULT_TONES
        (Sample.world ∅ [])
      = (Raise (PyError (lit "EOFError") (lit "EOF when reading a line")), w')).
Proof.
  split.
  - destruct (pick_tone_custom_or_eof Sample.lib Terminal.DEFAULT_TONES
                (Sample.world ∅ [lit "0" ++ nl; lit "  " ++ nl]) [])
      as (H & _ & _); [constructor|].
    destruct (H (lit "0" ++ nl) (lit "  " ++ nl) [])
      as (w' & Hrun & _); [reflexivity | discriminate | reflexivity | discriminate |].
    exists w'. exact Hrun.
  - destruct (pick_tone_custom_or_eof Sample.lib Terminal.DEFAULT_TONES
                (Sample.world ∅ []) [])
      as (_ & H & _); [constructor|].
    destruct (H eq_refl) as (w' & Hrun & _). exists w'. exact Hrun.
Defined.

(** ** The offline synthesizer *)

(** X18. The failures of the offline synthesizer that leave no audio file.
    Without the [piper] program on the path it raises at once: no program is
    run and no file is touched. When [piper] ends with a status other than 0
    the error carries the status and the captured standard error, and the
    converter is not run. When [piper] succeeded but neither [ffmpeg] nor
    pydub is there, the error names the WAV file, which is kept. In the last
    two cases the only file that can have changed is the WAV file that
    [piper] left. *)
Theorem piper_failures (E : Env) (text model_path : pystr) (mp3 : Path) (w : World) :
  let wav := path_str (path_sibling mp3 (lit ".wav")) in
  let proc := run_piper E model_path text in
  let fs1 := match pr_output proc with
             | Some b => <[wav := FBytes b]> (w_fs w)
             | None => w_fs w
             end in
  let evs1 := [EvSynthCall text; EvRun (lit "piper")]
              ++ match pr_output proc with Some _ => [EvWrite wav] | None => [] end in
  (which E (lit "piper") = false ->
   Terminal.tts_with_piper E text model_path mp3 w
   = (Raise (RuntimeError
               (lit "Piper CLI not found in PATH. See: https://github.com/rhasspy/piper")),
      logged w [EvSynthCall text]))
  /\
  (which E (lit "piper") = true -> pr_rc proc <> 0%Z ->
   exists w',
     Terminal.tts_with_piper E text model_path mp3 w
     = (Raise (RuntimeError (lit "Piper failed (rc=" ++ str_of_int (pr_rc proc)
                             ++ lit "). Stderr:" ++ nl ++ pr_stderr proc)), w') /\
     w_fs w' = fs1 /\ w_log w' = w_log w ++ evs1)
  /\
  (which E (lit "piper") = true -> pr_rc proc = 0%Z ->
   which E (lit "ffmpeg") = false -> _HAS_PYDUB E = false ->
   exists w',
     Terminal.tts_with_piper E text model_path mp3 w
     = (Raise (RuntimeError
                 (lit "ffmpeg not found and pydub not installed. Install one to get MP3. "
                  ++ lit "WAV file at: " ++ wav)), w') /\
     w_fs w' = fs1 /\ w_log w' = w_log w ++ evs1).
Proof.
  intros wav proc fs1 evs1. split; [|split].
  - intros Hp. unfold Terminal.tts_with_piper.
    rewrite (bind_run _ _ _ _ _ (emit_run _ _)). cbv beta iota.
    rewrite Hp. reflexivity.
  - intros Hp Hrc. rewrite (tts_with_piper_started E text model_path mp3 w Hp).
    apply Z.eqb_neq in Hrc. fold proc. rewrite Hrc. cbn [negb].
    eexists. split; [reflexivity|].
    subst fs1 evs1 wav. destruct (pr_output proc); autorewrite with world;
      rewrite <- ?app_assoc; split; reflexivity.
  - intros Hp Hrc Hf Hd. rewrite (tts_with_piper_started E text model_path mp3 w Hp).
    fold proc. rewrite Hrc, Hf, Hd. cbn [negb Z.eqb].
    eexists. split; [reflexivity|].
    subst fs1 evs1 wav. destruct (pr_output proc); autorewrite with world;
      rewrite <- ?app_assoc; split; reflexivity.
Qed.

(** X18, at concrete setups: no [piper]; a [piper] that ends with status 2;
    a [piper] that works with no converter around. *)
Lemma piper_failures_witness :
  fst (Terminal.tts_with_piper (Cases.env_offline [] false Sample.quiet_proc Sample.quiet_proc
                                  (SynthOk []))
         (lit "Hi.") (lit "voice.onnx") (out_file (lit "speech_Calm_t.mp3"))
         Sample.empty_world)
  = Raise (RuntimeError
             (lit "Piper CLI not found in PATH. See: https://github.com/rhasspy/piper"))
  /\
  fst (Terminal.tts_with_piper
         (Cases.env_offline [lit "piper"] false (Cases.proc 2 (lit "bad model") None)
            Sample.quiet_proc (SynthOk []))
         (lit "Hi.") (lit "voice.onnx") (out_file (lit "speech_Calm_t.mp3"))
         Sample.empty_world)
  = Raise (RuntimeError (lit "Piper failed (rc=2). Stderr:" ++ nl ++ lit "bad model"))
  /\
  (exists w',
      Terminal.tts_with_piper
        (Cases.env_offline [lit "piper"] false (Cases.proc 0 [] (Some [Byte.x52]))
           Sample.quiet_proc (SynthOk []))
        (lit "Hi.") (lit "voice.onnx") (out_file (lit "speech_Calm_t.mp3"))
        Sample.empty_world
      = (Raise (RuntimeError
                  (lit "ffmpeg not found and pydub not installed. Install one to get MP3. "
                   ++ lit "WAV file at: outputs/speech_Calm_t.wav")), w') /\
      w_fs w' = <[ lit "outputs/speech_Calm_t.wav" := FBytes [Byte.x52] ]> ∅).
Proof.
  split; [|split].
  - destruct (piper_failures (Cases.env_offline [] false Sample.quiet_proc Sample.quiet_proc
                                (SynthOk []))
                (lit "Hi.") (lit "voice.onnx") (out_file (lit "speech_Calm_t.mp3"))
                Sample.empty_world) as (H & _ & _).
    rewrite H; reflexivity.
  - destruct (piper_failures
                (Cases.env_offline [lit "piper"] false (Cases.proc 2 (lit "bad model") None)
                   Sample.quiet_proc (SynthOk []))
                (lit "Hi.") (lit "voice.onnx") (out_file (lit "speech_Calm_t.mp3"))
                Sample.empty_world) as (_ & H & _).
    destruct H as (w' & Hrun & _); [reflexivity | discriminate |].
    rewrite Hrun. reflexivity.
  - destruct (piper_failures
                (Cases.env_offline [lit "piper"] false (Cases.proc 0 [] (Some [Byte.x52]))
                   Sample.quiet_proc (SynthOk []))
                (lit "Hi.") (lit "voice.onnx") (out_file (lit "speech_Calm_t.mp3"))
                Sample.empty_world) as (_ & _ & H).
    destruct H as (w' & Hrun & Hfs & _); [reflexivity..|].
    exists w'. split; [exact Hrun | exact Hfs].
Defined.

(** X19. The conversion step of the offline synthesizer, once [piper] has
    ended with status 0. With [ffmpeg] on the path it is [ffmpeg] that
    converts, whether pydub is installed or not: when it ends with status 0
    the call returns and the WAV file is removed, otherwise the call raises
    with the captured standard error and the WAV file is kept. Without
    [ffmpeg] and with pydub, a successful export leaves the audio at the MP3
    path and removes the WAV file. *)
Theorem piper_conversion (E : Env) (text model_path : pystr) (mp3 : Path) (w : World) :
  let wav := path_str (path_sibling mp3 (lit ".wav")) in
  let proc := run_piper E model_path text in
  let fs1 := match pr_output proc with
             | Some b => <[wav := FBytes b]> (w_fs w)
             | None => w_fs w
             end in
  let conv := run_ffmpeg E (fs1 !! wav) in
  which E (lit "piper") = true -> pr_rc proc = 0%Z ->
  wav <> path_str mp3 ->
  (which E (lit "ffmpeg") = true -> pr_rc conv = 0%Z ->
   exists w',
     Terminal.tts_with_piper E text model_path mp3 w = (Ret tt, w') /\
     w_fs w' !! wav = None /\
     w_fs w' !! path_str mp3 = match pr_output conv with
                               | Some b => Some (FBytes b)
                               | None => w_fs w !! path_str mp3
                               end)
  /\
  (which E (lit "ffmpeg") = true -> pr_rc conv <> 0%Z ->
   exists w',
     Terminal.tts_with_piper E text model_path mp3 w
     = (Raise (RuntimeError (lit "ffmpeg failed to convert WAV->MP3." ++ nl
                             ++ pr_stderr conv)), w') /\
     w_fs w' !! wav = fs1 !! wav)
  /\
  (which E (lit "ffmpeg") = false -> _HAS_PYDUB E = true ->
   forall audio,
     pydub_to_mp3 E (fs1 !! wav) = SynthOk audio ->
     exists w',
       Terminal.tts_with_piper E text model_path mp3 w = (Ret tt, w') /\
       w_fs w' !! wav = None /\
       w_fs w' !! path_str mp3 = Some (FBytes audio)).
Proof.
  intros wav proc fs1 conv Hp Hrc Hne.
  pose proof (tts_with_piper_started E text model_path mp3 w Hp) as Hrun.
  cbv zeta in Hrun. fold wav proc in Hrun. rewrite Hrc in Hrun. cbn [negb Z.eqb] in Hrun.
  set (w1 := match pr_output proc with
             | Some b =>
                 logged (with_fs (logged w [EvSynthCall text; EvRun (lit "piper")])
                           (<[wav := FBytes b]> (w_fs w)))
                   [EvWrite wav]
             | None => logged w [EvSynthCall text; EvRun (lit "piper")]
             end) in *.
  assert (Hfs1 : w_fs w1 = fs1).
  { subst w1 fs1. destruct (pr_output proc); reflexivity. }
  rewrite Hfs1 in Hrun. fold conv in Hrun.
  assert (Hmp3 : fs1 !! path_str mp3 = w_fs w !! path_str mp3).
  { subst fs1. destruct (pr_output proc); [|reflexivity].
    apply lookup_insert_ne. exact Hne. }
  split; [|split].
  - intros Hf Hc. rewrite Hrun, Hf, Hc. cbn [negb Z.eqb].
    rewrite (bind_run _ _ _ _ _ (emit_run _ _)). cbv beta iota.
    rewrite (bind_run _ _ _ _ _ (leave_output_run _ _ _)). cbv beta iota.
    rewrite unlink_run. eexists. split; [reflexivity|].
    autorewrite with world. split; [apply lookup_delete_eq|].
    rewrite lookup_delete_ne by exact Hne.
    destruct (pr_output conv); autorewrite with world.
    + apply lookup_insert_eq.
    + rewrite Hfs1. exact Hmp3.
  - intros Hf Hc. rewrite Hrun, Hf. apply Z.eqb_neq in Hc. rewrite Hc. cbn [negb].
    rewrite (bind_run _ _ _ _ _ (emit_run _ _)). cbv beta iota.
    rewrite (bind_run _ _ _ _ _ (leave_output_run _ _ _)). cbv beta iota.
    eexists. split; [reflexivity|].
    destruct (pr_output conv); autorewrite with world.
    + rewrite lookup_insert_ne by (apply not_eq_sym, Hne). rewrite Hfs1. reflexivity.
    + rewrite Hfs1. reflexivity.
  - intros Hf Hd audio Ha. rewrite Hrun, Hf, Hd, Ha. cbn [negb].
    rewrite (bind_run _ _ _ _ _ (write_file_run _ _ _)). cbv beta iota.
    rewrite unlink_run. eexists. split; [reflexivity|].
    autorewrite with world. split; [apply lookup_delete_eq|].
    rewrite lookup_delete_ne by exact Hne. apply lookup_insert_eq.
Qed.

(** X19, at a concrete setup: [piper] and [ffmpeg] both work. *)
Lemma piper_conversion_witness :
  exists w',
    Terminal.tts_with_piper
      (Cases.env_offline [lit "piper"; lit "ffmpeg"] true
         (Cases.proc 0 [] (Some [Byte.x52])) (Cases.proc 0 [] (Some [Byte.x49]))
         (SynthOk []))
      (lit "Hi.") (lit "voice.onnx") (out_file (lit "speech_Calm_t.mp3")) Sample.empty_world
    = (Ret tt, w') /\
    w_fs w' !! lit "outputs/speech_Calm_t.wav" = None /\
    w_fs w' !! lit "outputs/speech_Calm_t.mp3" = Some (FBytes [Byte.x49]).
Proof.
  destruct (piper_conversion
              (Cases.env_offline [lit "piper"; lit "ffmpeg"] true
                 (Cases.proc 0 [] (Some [Byte.x52])) (Cases.proc 0 [] (Some [Byte.x49]))
                 (SynthOk []))
              (lit "Hi.") (lit "voice.onnx") (out_file (lit "speech_Calm_t.mp3"))
              Sample.empty_world) as (H & _ & _).
  - reflexivity.
  - reflexivity.
  - vm_compute. discriminate.
  - destruct H as (w' & Hrun & Hwav & Hmp3); [reflexivity | reflexivity |].
    exists w'. split; [exact Hrun|]. split; [exact Hwav | exact Hmp3].
Defined.

(** ** Standard input of the terminal front-end *)

Lemma stdin_pres_ret {A} (a : A) : stdin_pres (ret a).
Proof. intros w. reflexivity. Qed.

Lemma stdin_pres_raise {A} e : stdin_pres (@raise A e).
Proof. intros w. reflexivity. Qed.

Lemma stdin_pres_sys_exit {A} c : stdin_pres (@sys_exit A c).
Proof. intros w. reflexivity. Qed.

Lemma stdin_pres_emit ev : stdin_pres (emit ev).
Proof. intros w. reflexivity. Qed.

Lemma stdin_pres_bind {A B} (m : M A) (k : A -> M B) :
  stdin_pres m -> (forall a, stdin_pres (k a)) -> stdin_pres (bind m k).
Proof.
  intros Hm Hk w. unfold bind. specialize (Hm w).
  destruct (m w) as [[a|e|c] w1]; simpl in *; [|assumption..].
  rewrite Hk. assumption.
Qed.

Lemma stdin_pres_try_except {A} (m : M A) (h : Exn -> M A) :
  stdin_pres m -> (forall e, stdin_pres (h e)) -> stdin_pres (try_except m h).
Proof.
  intros Hm Hh w. unfold try_except. specialize (Hm w).
  destruct (m w) as [[a|e|c] w1]; simpl in *; [assumption| |assumption].
  rewrite Hh. assumption.
Qed.

Lemma stdin_pres_file_exists key : stdin_pres (file_exists key).
Proof. intros w. reflexivity. Qed.

Lemma stdin_pres_get_fs : stdin_pres get_fs.
Proof. intros w. reflexivity. Qed.

Lemma stdin_pres_read_text L key : stdin_pres (read_text L key).
Proof.
  intros w. unfold read_text.
  destruct (w_fs w !! key) as [[s|b]|]; try reflexivity.
  destruct (utf8_decode L b); reflexivity.
Qed.

Lemma stdin_pres_now E : stdin_pres (now E).
Proof. intros w. reflexivity. Qed.

Lemma stdin_pres_write_file key d : stdin_pres (write_file key d).
Proof. intros w. reflexivity. Qed.

Lemma stdin_pres_unlink key : stdin_pres (unlink_missing_ok key).
Proof. intros w. reflexivity. Qed.

Lemma stdin_pres_leave_output p o : stdin_pres (Terminal.leave_output p o).
Proof. destruct o; [apply stdin_pres_write_file | apply stdin_pres_ret]. Qed.

Create HintDb stdin_pres.
#[export] Hint Resolve stdin_pres_ret stdin_pres_raise stdin_pres_sys_exit stdin_pres_emit
  stdin_pres_file_exists stdin_pres_get_fs stdin_pres_read_text stdin_pres_now
  stdin_pres_write_file stdin_pres_unlink stdin_pres_leave_output : stdin_pres.

Ltac stdin_pres_step :=
  first [ apply stdin_pres_bind; [|intros ?]
        | apply stdin_pres_try_except; [|intros ?]
        | progress (unfold print, eprint)
        | solve [auto with stdin_pres] ].

Section StdinOfMain.
Variable L : PyLib.
Variable E : Env.

Lemma stdin_pres_main_rewrite args text tone :
  stdin_pres (Terminal.main_rewrite L E args text tone).
Proof.
  unfold Terminal.main_rewrite. stdin_pres_step; [repeat stdin_pres_step|].
  apply stdin_pres_try_except.
  - intros w.
    destruct (terminal_rewrite_shape L E text tone (Terminal.a_model args)
                (Terminal.a_ollama_url args) (Terminal.a_temperature args)
                (Terminal.a_max_tokens args)) as (r & evs & Hrun & _).
    rewrite Hrun. reflexivity.
  - intros e. repeat stdin_pres_step.
Qed.

Lemma stdin_pres_main_save_text args rewritten tone :
  stdin_pres (Terminal.main_save_text L E args rewritten tone).
Proof.
  unfold Terminal.main_save_text, Terminal.save_text, save_text,
    Terminal.ensure_outputs_dir, ensure_outputs_dir.
  repeat stdin_pres_step.
Qed.

Lemma stdin_pres_synthesize args rewritten mp3 :
  stdin_pres (Terminal.synthesize E args rewritten mp3).
Proof.
  unfold Terminal.synthesize. destruct (Terminal.truthy _).
  - stdin_pres_step; [repeat stdin_pres_step|].
    unfold Terminal.tts_with_piper. stdin_pres_step; [stdin_pres_step|].
    destruct (negb _); [stdin_pres_step|].
    stdin_pres_step; [stdin_pres_step|]. stdin_pres_step; [stdin_pres_step|].
    destruct (negb _); [stdin_pres_step|].
    stdin_pres_step; [stdin_pres_step|].
    destruct (which E (lit "ffmpeg")).
    + stdin_pres_step; [stdin_pres_step|]. stdin_pres_step; [stdin_pres_step|].
      destruct (negb _); stdin_pres_step.
    + destruct (negb _); [stdin_pres_step|].
      destruct (pydub_to_mp3 E _); repeat stdin_pres_step.
  - stdin_pres_step; [repeat stdin_pres_step|].
    unfold Terminal.tts_with_gtts. stdin_pres_step; [stdin_pres_step|].
    destruct (negb _); [stdin_pres_step|].
    destruct (gtts E _ _ _ _); repeat stdin_pres_step.
Qed.

Lemma stdin_pres_main_tts args rewritten mp3 :
  stdin_pres (Terminal.main_tts E args rewritten mp3).
Proof.
  unfold Terminal.main_tts. apply stdin_pres_try_except.
  - stdin_pres_step; [apply stdin_pres_synthesize | repeat stdin_pres_step].
  - intros e. repeat stdin_pres_step.
Qed.

(** What follows the choice of the tone reads nothing. *)
Lemma stdin_pres_main_rest args text tone :
  stdin_pres (let* rewritten := Terminal.main_rewrite L E args text tone in
              let* mp3_path := Terminal.main_save_text L E args rewritten tone in
              Terminal.main_tts E args rewritten mp3_path >>
              print (nl ++ lit "Done.")).
Proof.
  apply stdin_pres_bind; [apply stdin_pres_main_rewrite|]. intros rewritten.
  apply stdin_pres_bind; [apply stdin_pres_main_save_text|]. intros mp3.
  apply stdin_pres_bind; [apply stdin_pres_main_tts|]. intros _.
  repeat stdin_pres_step.
Qed.

Lemma stdin_pres_gather_file args src :
  Terminal.truthy (Terminal.a_input_file args) = Some src ->
  stdin_pres (Terminal.main_gather_text L args).
Proof.
  intros Hsrc. unfold Terminal.main_gather_text. rewrite Hsrc.
  apply stdin_pres_bind.
  - stdin_pres_step; [stdin_pres_step|]. destruct (negb _); repeat stdin_pres_step.
  - intros t. destruct (is_nil t); repeat stdin_pres_step.
Qed.

Lemma gather_stdin_stdin args w :
  Terminal.truthy (Terminal.a_input_file args) = None ->
  w_stdin (snd (Terminal.main_gather_text L args w))
  = snd (Terminal.read_lines (w_stdin w) []).
Proof.
  intros Hsrc. unfold Terminal.main_gather_text. rewrite Hsrc.
  rewrite (bind_run _ _ _ _ _ (read_text_interactive_run w)). cbv beta iota.
  destruct (is_nil _).
  - unfold eprint. rewrite (bind_run _ _ _ _ _ (emit_run _ _)). cbv beta iota.
    unfold sys_exit. cbn [snd]. autorewrite with world. reflexivity.
  - unfold ret. cbn [snd]. autorewrite with world. reflexivity.
Qed.

End StdinOfMain.

(** X20. With a tone on the command line the tone picker is not run: a run
    with [--input-file] and [--tone] reads nothing from standard input,
    however it ends, and a run with [--tone] alone reads exactly the lines of
    the pasted text. *)
Theorem main_reads_stdin_only_when_asked (L : PyLib) (E : Env) (args : Terminal.Args)
    (w : World) (tone : pystr) :
  Terminal.truthy (Terminal.a_tone args) = Some tone ->
  (forall src,
      Terminal.truthy (Terminal.a_input_file args) = Some src ->
      w_stdin (snd (Terminal.main L E args w)) = w_stdin w)
  /\
  (Terminal.truthy (Terminal.a_input_file args) = None ->
   w_stdin (snd (Terminal.main L E args w)) = snd (Terminal.read_lines (w_stdin w) [])).
Proof.
  intros Htone.
  assert (Hrest : forall text,
             stdin_pres (let* t := Terminal.main_pick_tone L args in
                         let* rewritten := Terminal.main_rewrite L E args text t in
                         let* mp3_path := Terminal.main_save_text L E args rewritten t in
                         Terminal.main_tts E args rewritten mp3_path >>
                         print (nl ++ lit "Done."))).
  { intros text. apply stdin_pres_bind.
    - unfold Terminal.main_pick_tone. rewrite Htone. apply stdin_pres_ret.
    - intros t. apply stdin_pres_main_rest. }
  split.
  - intros src Hsrc. unfold Terminal.main.
    apply stdin_pres_bind; [apply (stdin_pres_gather_file L args src Hsrc) | exact Hrest].
  - intros Hsrc. unfold Terminal.main.
    rewrite <- (gather_stdin_stdin L args w Hsrc).
    unfold bind at 1.
    destruct (Terminal.main_gather_text L args w) as [[text|e|c] w1]; try reflexivity.
    apply Hrest.
Qed.

(** X20, at a concrete run: text from a file, tone "Calm", two pending lines
    that stay unread. *)
Lemma main_reads_stdin_only_when_asked_witness :
  w_stdin (snd (Terminal.main Sample.lib Sample.env_ok
                  (Sample.args (lit "Calm") (Some (lit "story.txt")))
                  (Sample.world (<[ lit "story.txt" := FText (lit "Hi.") ]> ∅)
                     [lit "1" ++ nl; lit "2" ++ nl])))
  = [lit "1" ++ nl; lit "2" ++ nl].
Proof.
  destruct (main_reads_stdin_only_when_asked Sample.lib Sample.env_ok
              (Sample.args (lit "Calm") (Some (lit "story.txt")))
              (Sample.world (<[ lit "story.txt" := FText (lit "Hi.") ]> ∅)
                 [lit "1" ++ nl; lit "2" ++ nl]) (lit "Calm") eq_refl) as [H _].
  apply (H (lit "story.txt")). reflexivity.
Defined.

(** ** Standard error and exit of the terminal front-end *)

Lemma quiet_app e1 e2 : quiet e1 -> quiet e2 -> quiet (e1 ++ e2).
Proof. intros H1 H2. apply Forall_app. auto. Qed.

(** A step that does not exit and logs quiet events. *)
Lemma ste_step {A} (Q : list Event -> Prop) (m : M A) :
  (forall w, exists evs,
      w_log (snd (m w)) = w_log w ++ evs /\ quiet evs /\
      match fst (m w) with
      | Exit _ => False
      | Ret _ => Q evs
      | Raise _ => True
      end) ->
  stderr_then_exit Q m.
Proof.
  intros H w. destruct (H w) as (evs & Hlog & Hq & Hr).
  exists evs. split; [exact Hlog|].
  destruct (fst (m w)); [auto | auto | contradiction].
Qed.

Lemma ste_ret {A} (Q : list Event -> Prop) (a : A) : Q [] -> stderr_then_exit Q (ret a).
Proof.
  intros HQ. apply ste_step. intros w. exists []. cbn. rewrite app_nil_r.
  repeat split; [constructor | exact HQ].
Qed.

Lemma ste_raise {A} (Q : list Event -> Prop) e : stderr_then_exit Q (@raise A e).
Proof.
  apply ste_step. intros w. exists []. cbn. rewrite app_nil_r.
  repeat split. constructor.
Qed.

Lemma ste_emit (Q : list Event -> Prop) ev :
  is_stderr ev = false -> Q [ev] -> stderr_then_exit Q (emit ev).
Proof.
  intros Hev HQ. apply ste_step. intros w. exists [ev]. cbn.
  repeat split; [repeat constructor; exact Hev | exact HQ].
Qed.

Lemma ste_weaken {A} (Q Q' : list Event -> Prop) (m : M A) :
  (forall evs, Q evs -> Q' evs) -> stderr_then_exit Q m -> stderr_then_exit Q' m.
Proof.
  intros HQ Hm w. destruct (Hm w) as (evs & Hlog & H). exists evs.
  split; [exact Hlog|]. destruct (fst (m w)); [|exact H..].
  destruct H. auto.
Qed.

Lemma ste_bind {A B} (Q : list Event -> Prop) (m : M A) (k : A -> M B) :
  stderr_then_exit (fun _ => True) m ->
  (forall a, stderr_then_exit Q (k a)) ->
  (forall e1 e2, Q e2 -> Q (e1 ++ e2)) ->
  stderr_then_exit Q (bind m k).
Proof.
  intros Hm Hk HQ w. unfold bind.
  destruct (Hm w) as (evs1 & Hlog1 & H1).
  destruct (m w) as [[a|e|c] w1]; cbn [fst snd] in *.
  - destruct H1 as [Hq1 _].
    destruct (Hk a w1) as (evs2 & Hlog2 & H2).
    exists (evs1 ++ evs2). split; [rewrite Hlog2, Hlog1, app_assoc; reflexivity|].
    destruct (fst (k a w1)).
    + destruct H2 as [Hq2 HQ2]. split; [apply quiet_app; assumption | apply HQ, HQ2].
    + apply quiet_app; assumption.
    + destruct H2 as (evs0 & msg & -> & Hq0).
      exists (evs1 ++ evs0), msg. split; [apply app_assoc | apply quiet_app; assumption].
  - exists evs1. auto.
  - exists evs1. auto.
Qed.

Lemma ste_try_except {A} (Q : list Event -> Prop) (m : M A) (h : Exn -> M A) :
  stderr_then_exit Q m ->
  (forall e, stderr_then_exit Q (h e)) ->
  (forall e1 e2, Q e2 -> Q (e1 ++ e2)) ->
  stderr_then_exit Q (try_except m h).
Proof.
  intros Hm Hh HQ w. unfold try_except.
  destruct (Hm w) as (evs1 & Hlog1 & H1).
  destruct (m w) as [[a|e|c] w1]; cbn [fst snd] in *.
  - exists evs1. auto.
  - destruct (Hh e w1) as (evs2 & Hlog2 & H2).
    exists (evs1 ++ evs2). split; [rewrite Hlog2, Hlog1, app_assoc; reflexivity|].
    destruct (fst (h e w1)).
    + destruct H2 as [Hq2 HQ2]. split; [apply quiet_app; assumption | apply HQ, HQ2].
    + apply quiet_app; assumption.
    + destruct H2 as (evs0 & msg & -> & Hq0).
      exists (evs1 ++ evs0), msg. split; [apply app_assoc | apply quiet_app; assumption].
  - exists evs1. auto.
Qed.

(** [print(msg, file=sys.stderr); sys.exit(code)] *)
Lemma ste_eprint_exit {A} (Q : list Event -> Prop) msg code :
  stderr_then_exit Q (eprint msg >> @sys_exit A code).
Proof.
  intros w. exists [EvStderr msg]. split; [reflexivity|].
  cbn. exists [], msg. split; [reflexivity | constructor].
Qed.

(** A step that leaves the log alone and does not exit. *)
Lemma ste_silent {A} (m : M A) :
  (forall w, w_log (snd (m w)) = w_log w /\ forall c, fst (m w) <> Exit c) ->
  stderr_then_exit (fun _ => True) m.
Proof.
  intros H. apply ste_step. intros w. destruct (H w) as [Hlog Hx].
  exists []. rewrite app_nil_r. split; [exact Hlog|]. split; [constructor|].
  destruct (fst (m w)); [exact I | exact I | eapply Hx; reflexivity].
Qed.

Lemma ste_print msg : stderr_then_exit (fun _ => True) (print msg).
Proof. apply ste_emit; [reflexivity | exact I]. Qed.

Lemma ste_file_exists key : stderr_then_exit (fun _ => True) (file_exists key).
Proof. apply ste_silent. intros w. split; [reflexivity | discriminate]. Qed.

Lemma ste_get_fs : stderr_then_exit (fun _ => True) get_fs.
Proof. apply ste_silent. intros w. split; [reflexivity | discriminate]. Qed.

Lemma ste_now E : stderr_then_exit (fun _ => True) (now E).
Proof. apply ste_silent. intros w. split; [reflexivity | discriminate]. Qed.

Lemma ste_read_text L key : stderr_then_exit (fun _ => True) (read_text L key).
Proof.
  apply ste_silent. intros w. unfold read_text.
  destruct (w_fs w !! key) as [[s|b]|]; try (split; [reflexivity | discriminate]).
  destruct (utf8_decode L b); split; (reflexivity || discriminate).
Qed.

Lemma ste_write_file key d : stderr_then_exit (fun _ => True) (write_file key d).
Proof.
  apply ste_step. intros w. exists [EvWrite key]. cbn.
  repeat split. repeat constructor.
Qed.

Lemma ste_unlink key : stderr_then_exit (fun _ => True) (unlink_missing_ok key).
Proof.
  apply ste_step. intros w. exists [EvUnlink key]. cbn.
  repeat split. repeat constructor.
Qed.

Lemma ste_leave_output p o : stderr_then_exit (fun _ => True) (Terminal.leave_output p o).
Proof. destruct o; [apply ste_write_file | apply ste_ret; exact I]. Qed.

Create HintDb ste.
#[export] Hint Resolve ste_raise ste_print ste_file_exists ste_get_fs ste_now ste_read_text
  ste_write_file ste_unlink ste_leave_output ste_eprint_exit : ste.

Ltac ste_step_tac :=
  first [ solve [auto with ste]
        | solve [apply ste_ret; exact I]
        | solve [apply ste_emit; [reflexivity | exact I]]
        | apply ste_bind; [ | intros ? | intros ? ? ?; exact I ]
        | apply ste_try_except; [ | intros ? | intros ? ? ?; exact I ] ].

Lemma exits_in_weaken {A} (c1 c2 : list Z) (m : M A) :
  c1 ⊆ c2 -> exits_in c1 m -> exits_in c2 m.
Proof. intros Hsub H w c w' Hrun. apply Hsub. eapply H, Hrun. Qed.

Section StderrOfMain.
Variable L : PyLib.
Variable E : Env.

Lemma ste_read_text_interactive :
  stderr_then_exit (fun _ => True) Terminal.read_text_interactive.
Proof.
  apply ste_step. intros w. rewrite read_text_interactive_run.
  exists [EvStdout Terminal.paste_prompt]. cbn [fst snd].
  autorewrite with world. repeat split. repeat constructor.
Qed.

Lemma ste_main_gather_text args :
  stderr_then_exit (fun _ => True) (Terminal.main_gather_text L args).
Proof.
  unfold Terminal.main_gather_text. ste_step_tac.
  - destruct (Terminal.truthy _) as [src|]; [|apply ste_read_text_interactive].
    ste_step_tac; [ste_step_tac|]. destruct (negb _); [ste_step_tac|].
    ste_step_tac; ste_step_tac.
  - destruct (is_nil _); ste_step_tac.
Qed.

Lemma ste_input prompt : stderr_then_exit (fun _ => True) (Terminal.input prompt).
Proof.
  unfold Terminal.input. ste_step_tac; [ste_step_tac|].
  ste_step_tac.
  - apply ste_silent. intros w. unfold readline.
    destruct (w_stdin w); split; (reflexivity || discriminate).
  - destruct (is_nil _); ste_step_tac.
Qed.

Lemma ste_print_tones i tones :
  stderr_then_exit (fun _ => True) (Terminal.print_tones i tones).
Proof.
  revert i. induction tones as [|t r IH]; intros i; cbn [Terminal.print_tones].
  - ste_step_tac.
  - ste_step_tac; [ste_step_tac | apply IH].
Qed.

Lemma ste_pick_loop fuel tones :
  stderr_then_exit (fun _ => True) (Terminal.pick_loop L fuel tones).
Proof.
  induction fuel as [|f IH]; cbn [Terminal.pick_loop].
  - ste_step_tac.
  - ste_step_tac; [apply ste_input|].
    destruct (py_int L (strip a)) as [sel|].
    + destruct (sel =? 0)%Z.
      * ste_step_tac; [apply ste_input | ste_step_tac].
      * destruct (_ && _)%bool.
        -- destruct (_ !! _); ste_step_tac.
        -- ste_step_tac; [ste_step_tac | exact IH].
    + ste_step_tac; [ste_step_tac | exact IH].
Qed.

Lemma ste_main_pick_tone args :
  stderr_then_exit (fun _ => True) (Terminal.main_pick_tone L args).
Proof.
  unfold Terminal.main_pick_tone. destruct (Terminal.truthy _); [ste_step_tac|].
  unfold Terminal.pick_tone_interactive.
  ste_step_tac; [ste_step_tac|]. ste_step_tac; [apply ste_print_tones|].
  ste_step_tac; [ste_step_tac|].
  intros w. apply ste_pick_loop.
Qed.

Lemma ste_main_rewrite args text tone :
  stderr_then_exit (fun _ => True) (Terminal.main_rewrite L E args text tone).
Proof.
  unfold Terminal.main_rewrite. ste_step_tac; [ste_step_tac|].
  ste_step_tac; [|ste_step_tac].
  apply ste_step. intros w.
  destruct (terminal_rewrite_shape L E text tone (Terminal.a_model args)
              (Terminal.a_ollama_url args) (Terminal.a_temperature args)
              (Terminal.a_max_tokens args)) as (r & evs & Hrun & Hevs & _ & Hx).
  rewrite Hrun. exists evs. cbn [fst snd]. autorewrite with world.
  split; [reflexivity|]. split.
  - destruct Hevs as [->| ->]; repeat constructor.
  - destruct r; [exact I | exact I | eapply Hx; reflexivity].
Qed.

Lemma ste_main_save_text args rewritten tone :
  stderr_then_exit (fun _ => True) (Terminal.main_save_text L E args rewritten tone).
Proof.
  unfold Terminal.main_save_text, Terminal.save_text, save_text,
    Terminal.ensure_outputs_dir, ensure_outputs_dir.
  repeat ste_step_tac.
Qed.

Lemma ste_synthesize args rewritten mp3 :
  stderr_then_exit (fun _ => True) (Terminal.synthesize E args rewritten mp3).
Proof.
  unfold Terminal.synthesize. destruct (Terminal.truthy _).
  - ste_step_tac; [ste_step_tac|].
    unfold Terminal.tts_with_piper. ste_step_tac; [ste_step_tac|].
    destruct (negb _); [ste_step_tac|].
    ste_step_tac; [ste_step_tac|]. ste_step_tac; [ste_step_tac|].
    destruct (negb _); [ste_step_tac|].
    ste_step_tac; [ste_step_tac|].
    destruct (which E (lit "ffmpeg")).
    + ste_step_tac; [ste_step_tac|]. ste_step_tac; [ste_step_tac|].
      destruct (negb _); ste_step_tac.
    + destruct (negb _); [ste_step_tac|].
      destruct (pydub_to_mp3 E _); ste_step_tac; ste_step_tac.
  - ste_step_tac; [ste_step_tac|].
    unfold Terminal.tts_with_gtts. ste_step_tac; [ste_step_tac|].
    destruct (negb _); [ste_step_tac|].
    destruct (gtts E _ _ _ _); [ste_step_tac|]. ste_step_tac; ste_step_tac.
Qed.

Lemma ste_main_tts args rewritten mp3 :
  stderr_then_exit (fun _ => True) (Terminal.main_tts E args rewritten mp3).
Proof.
  unfold Terminal.main_tts. ste_step_tac; [|ste_step_tac].
  ste_step_tac; [apply ste_synthesize | ste_step_tac].
Qed.

Lemma ste_main args :
  stderr_then_exit (fun evs => last evs = Some (EvStdout (nl ++ lit "Done.")))
                   (Terminal.main L E args).
Proof.
  unfold Terminal.main.
  apply ste_bind; [apply ste_main_gather_text | intros text | intros e1 e2; apply last_app_some].
  apply ste_bind; [apply ste_main_pick_tone | intros tone | intros e1 e2; apply last_app_some].
  apply ste_bind; [apply ste_main_rewrite | intros rewritten | intros e1 e2; apply last_app_some].
  apply ste_bind; [apply ste_main_save_text | intros mp3 | intros e1 e2; apply last_app_some].
  apply ste_bind; [apply ste_main_tts | intros _ | intros e1 e2; apply last_app_some].
  apply ste_emit; reflexivity.
Qed.

Lemma exits_in_main args : exits_in [1; 2; 3]%Z (Terminal.main L E args).
Proof.
  assert (H1 : [1%Z] ⊆ [1; 2; 3]%Z).
  { intros c Hc. apply list_elem_of_singleton in Hc as ->. left. }
  assert (H2 : [2%Z] ⊆ [1; 2; 3]%Z).
  { intros c Hc. apply list_elem_of_singleton in Hc as ->. right. left. }
  assert (H0 : ([] : list Z) ⊆ [1; 2; 3]%Z) by apply list_subseteq_nil.
  unfold Terminal.main.
  apply exits_in_bind.
  { eapply exits_in_weaken; [exact H1 | apply exits_in_main_gather_text]. }
  intros text. apply exits_in_bind.
  { eapply exits_in_weaken; [exact H0 | apply exits_in_main_pick_tone]. }
  intros tone. apply exits_in_bind.
  { eapply exits_in_weaken; [exact H2 | apply exits_in_main_rewrite]. }
  intros rewritten. apply exits_in_bind.
  { eapply exits_in_weaken; [exact H0 | apply exits_in_main_save_text]. }
  intros mp3. apply exits_in_bind.
  - unfold Terminal.main_tts. apply exits_in_try_except.
    + apply exits_in_bind.
      * eapply exits_in_weaken; [exact H0 | apply exits_in_synthesize].
      * intros _. unfold print. auto with exits.
    + intros e. apply exits_in_bind; [unfold eprint; auto with exits|].
      intros _. apply exits_in_sys_exit. right. right. left.
  - intros _. unfold print. auto with exits.
Qed.

End StderrOfMain.

(** X21. A run of [main] only adds to the log of events. It calls
    [sys.exit] only with status 1, 2 or 3 and only right after printing one
    line to standard error, which is the only line on standard error of the
    run; a run that returns normally, or ends with an uncaught exception,
    prints nothing to standard error, and a run that returns normally ends
    with the line "Done." on standard output. *)
Theorem main_stderr_and_exit (L : PyLib) (E : Env) (args : Terminal.Args) (w : World) :
  exists evs,
    w_log (snd (Terminal.main L E args w)) = w_log w ++ evs /\
    match fst (Terminal.main L E args w) with
    | Exit c =>
        c ∈ [1; 2; 3]%Z /\
        exists evs0 msg, evs = evs0 ++ [EvStderr msg] /\ quiet evs0
    | Ret _ => quiet evs /\ last evs = Some (EvStdout (nl ++ lit "Done."))
    | Raise _ => quiet evs
    end.
Proof.
  destruct (ste_main L E args w) as (evs & Hlog & H).
  exists evs. split; [exact Hlog|].
  destruct (Terminal.main L E args w) as [[[]|e|c] w'] eqn:Hrun; cbn [fst] in *;
    [exact H | exact H |].
  split; [|exact H]. eapply exits_in_main, Hrun.
Qed.

(** X22. For clock readings with four-digit years, two time stamps compare
    as strings exactly as the readings compare in calendar order: equal
    stamps come from equal readings and a later reading prints a greater
    stamp. Every stamp has 15 characters. *)
Theorem timestamp_order (d1 d2 : datetime) :
  dt_wf d1 -> dt_wf d2 ->
  str_compare (strftime d1) (strftime d2) = (dt_key d1 ?= dt_key d2) /\
  (strftime d1 = strftime d2 <-> d1 = d2) /\
  length (strftime d1) = 15%nat.
Proof.
  intros H1 H2. split; [|split; [|reflexivity]].
  - destruct (N.compare_spec (dt_key d1) (dt_key d2)) as [Heq|Hlt|Hgt].
    + apply dt_key_inj in Heq; [|assumption..]. subst d2. apply str_compare_refl.
    + apply strftime_mono; assumption.
    + rewrite (str_compare_antisym (strftime d2) (strftime d1)).
      rewrite (strftime_mono d2 d1 H2 H1 Hgt). reflexivity.
  - split; [apply strftime_inj; assumption | intros ->; reflexivity].
Qed.

(** X22, at two readings one second apart, across a minute. *)
Lemma timestamp_order_witness :
  str_compare (strftime (Sample.dt 2025 3 9 14 5 59)) (strftime (Sample.dt 2025 3 9 14 6 0))
  = Lt.
Proof.
  destruct (timestamp_order (Sample.dt 2025 3 9 14 5 59) (Sample.dt 2025 3 9 14 6 0))
    as [H _].
  - unfold dt_wf. cbn. lia.
  - unfold dt_wf. cbn. lia.
  - rewrite H. reflexivity.
Defined.

(** ** The two copies of the rewrite client *)

Section TwoCopies.
Variable L : PyLib.
Variable E : Env.

(** Both copies read the same reply; the browser back-end drops the empty
    names. *)
Lemma ollama_models_related base_url :
  exists ms,
    (forall w, Terminal.ollama_models E base_url w
               = (Ret ms, logged w [EvHttpGet (tags_url base_url)])) /\
    (forall w, Core._ollama_models E base_url w
               = (Ret (List.filter (fun n => negb (is_nil n)) ms),
                  logged w [EvHttpGet (tags_url base_url)])).
Proof.
  unfold Terminal.ollama_models, Core._ollama_models. unfold_monad.
  destruct (http_get_tags E (tags_url base_url)) as [cause|status body [data|]].
  - exists []. split; reflexivity.
  - destruct (negb (status =? 200)%Z).
    + exists []. split; reflexivity.
    + exists (Terminal.model_names data). split; [reflexivity|].
      intros w. rewrite model_names_filter. reflexivity.
  - destruct (negb (status =? 200)%Z); exists []; split; reflexivity.
Qed.

End TwoCopies.

(** X23. For a model name that is not empty, the two copies of the rewrite
    client behave alike: called in the same state they give the same result
    and leave the same state, except when the model is not installed, where
    both raise after the GET of the model list and only the texts of the two
    "not found" messages differ (the browser back-end does not list empty
    names). *)
Theorem rewrite_copies_agree (L : PyLib) (E : Env) (text tone model base_url : pystr)
    (temperature : Q) (max_tokens : Z) (w : World) :
  model <> [] ->
  Core.rewrite_with_ollama L E text tone model base_url temperature max_tokens w
  = Terminal.rewrite_with_ollama L E text tone model base_url temperature max_tokens w
  \/
  (exists ms,
      fst (Terminal.ollama_models E base_url w) = Ret ms /\ (model ∉ ms) /\
      Core.rewrite_with_ollama L E text tone model base_url temperature max_tokens w
      = (Raise (RuntimeError
                  (Core.not_found_msg model base_url
                     (List.filter (fun n => negb (is_nil n)) ms))),
         logged w [EvRewriteCall text tone model; EvHttpGet (tags_url base_url)]) /\
      Terminal.rewrite_with_ollama L E text tone model base_url temperature max_tokens w
      = (Raise (RuntimeError (Terminal.not_found_msg model base_url ms)),
         logged w [EvRewriteCall text tone model; EvHttpGet (tags_url base_url)])).
Proof.
  intros Hne.
  destruct (ollama_models_related E base_url) as (ms & Hterm & Hcore).
  assert (Hmem : model ∈ List.filter (fun n => negb (is_nil n)) ms <-> model ∈ ms).
  { rewrite !list_elem_of_In, List.filter_In. split; [tauto|].
    intros H. split; [exact H|]. destruct model; [congruence | reflexivity]. }
  assert (Hct : forall w0,
             Core.ensure_model_present E model base_url w0
             = (if bool_decide (model ∈ ms) then Ret tt
                else Raise (RuntimeError
                              (Core.not_found_msg model base_url
                                 (List.filter (fun n => negb (is_nil n)) ms))),
                logged w0 [EvHttpGet (tags_url base_url)])).
  { intros w0.
    rewrite (core_ensure_run E model base_url w0 w0
               (List.filter (fun n => negb (is_nil n)) ms))
      by (rewrite Hcore; reflexivity).
    rewrite (bool_decide_ext _ _ Hmem). reflexivity. }
  assert (Htt : forall w0,
             Terminal.ensure_model_present E model base_url w0
             = (if bool_decide (model ∈ ms) then Ret tt
                else Raise (RuntimeError (Terminal.not_found_msg model base_url ms)),
                logged w0 [EvHttpGet (tags_url base_url)])).
  { intros w0. apply (terminal_ensure_run E model base_url w0 w0).
    rewrite Hterm. reflexivity. }
  unfold Core.rewrite_with_ollama, Terminal.rewrite_with_ollama.
  destruct (bool_decide_reflect (model ∈ ms)) as [Hin|Hin].
  - left. unfold rewrite_with. unfold_monad. rewrite Hct, Htt. reflexivity.
  - right. exists ms. split; [rewrite Hterm; reflexivity|]. split; [exact Hin|].
    split.
    + rewrite (rewrite_with_ensure_raise L E _ _ _ _ _ _ _ _ _ _ (Hct _)), logged_logged.
      reflexivity.
    + rewrite (rewrite_with_ensure_raise L E _ _ _ _ _ _ _ _ _ _ (Htt _)), logged_logged.
      reflexivity.
Qed.

(** X23, at a concrete call that succeeds in both copies. *)
Lemma rewrite_copies_agree_witness :
  Core.rewrite_with_ollama Sample.lib Sample.env_ok (lit "Hi.") (lit "Calm")
    (lit "gemma3:4b") (lit "http://localhost:11434") (7 # 10) 512 Sample.empty_world
  = Terminal.rewrite_with_ollama Sample.lib Sample.env_ok (lit "Hi.") (lit "Calm")
      (lit "gemma3:4b") (lit "http://localhost:11434") (7 # 10) 512 Sample.empty_world.
Proof.
  destruct (rewrite_copies_agree Sample.lib Sample.env_ok (lit "Hi.") (lit "Calm")
              (lit "gemma3:4b") (lit "http://localhost:11434") (7 # 10) 512
              Sample.empty_world) as [H|(ms & Hms & Hnot & _)].
  - discriminate.
  - exact H.
  - exfalso. apply Hnot. injection Hms as <-. apply list_elem_of_singleton. reflexivity.
Defined.
